(** * fin_disclosure: filing lifecycle store and transaction extraction

    A shallow embedding of the Python sources

    - [transaction_extractor.py] (class [TradingDataExtractor]),
    - [daily_run.py]             (class [DailyRun]),
    - [data_manager.py]          (class [DataManager]),
    - [filing_status_manager.py] (class [FilingStatusManager]),
    - [filing_scraper.py]        (class [FilingScraper]),

    followed by the properties of the specification that concern them and
    by further properties of the code.

    Text is modelled by [string]; a character is a code point below 256
    (ASCII plus Latin-1), and the character classes below are Python's
    own classes restricted to that range. *)

From Stdlib Require Import String Ascii ZArith NArith List Bool Lia.
From Stdlib Require Import DecimalString.
From stdpp Require Import base gmap strings.
Import ListNotations.

Local Open Scope string_scope.
Local Open Scope list_scope.
Local Open Scope nat_scope.

(** ** Python's [str] operations used by the sources *)

Module Py.

Definition code (c : ascii) : nat := nat_of_ascii c.

Definition between (lo hi : nat) (c : ascii) : bool :=
  (lo <=? code c) && (code c <=? hi).

(** [str.isspace] on one character, which is also the class [\s] of [re]
    for [str] patterns: TAB..CR, FS..US, space, NEL and NBSP. *)
Definition isspace (c : ascii) : bool :=
  between 9 13 c || between 28 32 c || (code c =? 133) || (code c =? 160).

(** The class [\d] of [re]: the decimal digits. *)
Definition isdecimal (c : ascii) : bool := between 48 57 c.

(** [str.isdigit] on one character: the decimal digits and the
    superscripts two, three and one. *)
Definition isdigit (c : ascii) : bool :=
  isdecimal c || (code c =? 178) || (code c =? 179) || (code c =? 185).

Definition isupper_ascii (c : ascii) : bool := between 65 90 c.

(** Letters of the range: ASCII letters, the ordinal indicators, the micro
    sign and the accented Latin-1 letters. *)
Definition isalpha (c : ascii) : bool :=
  between 65 90 c || between 97 122 c
  || (code c =? 170) || (code c =? 181) || (code c =? 186)
  || between 192 214 c || between 216 246 c || between 248 255 c.

(** The class [\w] of [re]: alphanumeric characters (letters, digits,
    superscript digits, vulgar fractions) and the underscore. *)
Definition isword (c : ascii) : bool :=
  isalpha c || isdigit c || between 188 190 c || (code c =? 95).

(** [str.lower] on one character. *)
Definition lower_char (c : ascii) : ascii :=
  if between 65 90 c || between 192 214 c || between 216 222 c
  then ascii_of_nat (code c + 32) else c.

Fixpoint lower (s : string) : string :=
  match s with
  | EmptyString => EmptyString
  | String c t => String (lower_char c) (lower t)
  end.

(** [needle in hay]. *)
Fixpoint contains (needle hay : string) : bool :=
  match hay with
  | EmptyString => String.prefix needle EmptyString
  | String _ t => String.prefix needle hay || contains needle t
  end.

(** [hay.find(needle)]: index of the first occurrence, [None] for -1. *)
Fixpoint find_from (needle hay : string) (i : nat) : option nat :=
  if String.prefix needle hay then Some i
  else match hay with
       | EmptyString => None
       | String _ t => find_from needle t (S i)
       end.

Definition find (needle hay : string) : option nat := find_from needle hay 0.

(** [s[:n]]. *)
Definition take (n : nat) (s : string) : string := String.substring 0 n s.

(** [any(pred(c) for c in s)]. *)
Fixpoint any_char (p : ascii -> bool) (s : string) : bool :=
  match s with
  | EmptyString => false
  | String c t => p c || any_char p t
  end.

Fixpoint all_char (p : ascii -> bool) (s : string) : bool :=
  match s with
  | EmptyString => true
  | String c t => p c && all_char p t
  end.

Fixpoint lstrip (s : string) : string :=
  match s with
  | EmptyString => EmptyString
  | String c t => if isspace c then lstrip t else s
  end.

Fixpoint rstrip (s : string) : string :=
  match s with
  | EmptyString => EmptyString
  | String c t =>
      match rstrip t with
      | EmptyString => if isspace c then EmptyString else String c EmptyString
      | t' => String c t'
      end
  end.

(** [s.strip()]. *)
Definition strip (s : string) : string := rstrip (lstrip s).

(** [sep.join(parts)]. *)
Fixpoint join (sep : string) (parts : list string) : string :=
  match parts with
  | [] => EmptyString
  | [p] => p
  | p :: ps => p +:+ sep +:+ join sep ps
  end.

(** [s.replace(old, new)] for a non-empty [old] (the sources only pass the
    literals ["$"], [","] and [".pdf"]): occurrences are replaced left to
    right without overlap; [skip] counts the characters of an occurrence
    still to be dropped. *)
Fixpoint replace_go (old new : string) (skip : nat) (s : string) : string :=
  match s with
  | EmptyString => EmptyString
  | String c t =>
      match skip with
      | S k => replace_go old new k t
      | O =>
          if String.prefix old s
          then new +:+ replace_go old new (String.length old - 1) t
          else String c (replace_go old new 0 t)
      end
  end.

Definition replace (old new s : string) : string := replace_go old new 0 s.

(** [s.split(sep)[-1]] for a one-character separator: the text after the
    last separator, the whole text when there is none. *)
Fixpoint split_last (sep : ascii) (s : string) : string :=
  match s with
  | EmptyString => EmptyString
  | String c t =>
      if Ascii.eqb c sep then split_last sep t
      else if any_char (Ascii.eqb sep) t then split_last sep t
           else s
  end.

(** [bool(s)] for a string. *)
Definition truthy (s : string) : bool :=
  match s with EmptyString => false | _ => true end.

(** [str(v)] for an integer. *)
Definition str_int (v : Z) : string := NilZero.string_of_int (Z.to_int v).

End Py.

(** ** A backtracking matcher for the regular expressions of the sources

    Python's [re] explores alternatives left to right and repetitions
    greedily, giving up characters only when what follows fails.  The
    matcher is written in continuation-passing style: [k] is what remains
    to be matched, and a [None] from it makes the caller try its next
    choice. *)

Module Re.

Inductive regex : Type :=
| Eps                              (* the empty pattern *)
| Chr (p : ascii -> bool)          (* one character of a class *)
| Cat (r1 r2 : regex)              (* r1 r2 *)
| Alt (r1 r2 : regex)              (* r1|r2 *)
| Star (r : regex)                 (* r*, greedy *)
| Grp (n : nat) (r : regex)        (* capturing group number n *)
| Bol                              (* ^ *)
| Eol.                             (* $ *)

(** Group number, start and end offsets; the latest capture comes first. *)
Definition captures : Type := list (nat * (nat * nat)).

Definition cont (A : Type) : Type := nat -> string -> captures -> option A.

(** Iterations of a starred body.  Every iteration must consume input, so
    [fuel], initially the length of the remaining input, never runs out
    before the input does. *)
Fixpoint star_loop {A} (body : nat -> string -> captures -> cont A -> option A)
    (fuel pos : nat) (rest : string) (caps : captures) (k : cont A) : option A :=
  match fuel with
  | O => k pos rest caps
  | S fuel' =>
      match body pos rest caps
              (fun p' r' c' =>
                 if String.length r' <? String.length rest
                 then star_loop body fuel' p' r' c' k
                 else None) with
      | Some x => Some x
      | None => k pos rest caps
      end
  end.

Definition at_end (rest : string) : bool :=
  match rest with
  | EmptyString => true
  | String c EmptyString => Py.code c =? 10
  | _ => false
  end.

Fixpoint m {A} (r : regex) (pos : nat) (rest : string) (caps : captures)
    (k : cont A) {struct r} : option A :=
  match r with
  | Eps => k pos rest caps
  | Chr p =>
      match rest with
      | String c rest' => if p c then k (S pos) rest' caps else None
      | EmptyString => None
      end
  | Cat r1 r2 => m r1 pos rest caps (fun p' r' c' => m r2 p' r' c' k)
  | Alt r1 r2 =>
      match m r1 pos rest caps k with
      | Some x => Some x
      | None => m r2 pos rest caps k
      end
  | Star r1 => star_loop (m r1) (String.length rest) pos rest caps k
  | Grp n r1 => m r1 pos rest caps (fun p' r' c' => k p' r' ((n, (pos, p')) :: c'))
  | Bol => if pos =? 0 then k pos rest caps else None
  | Eol => if at_end rest then k pos rest caps else None
  end.

(** Derived forms. *)
Definition Plus (r : regex) : regex := Cat r (Star r).

Fixpoint Rep (n : nat) (r : regex) : regex :=
  match n with
  | O => Eps
  | S n' => Cat r (Rep n' r)
  end.

Definition Lit1 (c : ascii) : regex := Chr (Ascii.eqb c).

Fixpoint Lit (s : string) : regex :=
  match s with
  | EmptyString => Eps
  | String c t => Cat (Lit1 c) (Lit t)
  end.

(** [.]: any character but a line feed. *)
Definition Dot : regex := Chr (fun c => negb (Py.code c =? 10)).

(** A match attempt at one offset: the end offset and the captures. *)
Definition match_at (r : regex) (pos : nat) (rest : string)
    : option (nat * captures) :=
  m r pos rest [] (fun p' _ c' => Some (p', c')).

Record found : Type := Found {
  m_start : nat;
  m_end : nat;
  m_caps : captures
}.

(** [re.search]: the leftmost offset at which the pattern matches. *)
Fixpoint search_from (r : regex) (pos : nat) (rest : string) : option found :=
  match match_at r pos rest with
  | Some (e, c) => Some (Found pos e c)
  | None =>
      match rest with
      | EmptyString => None
      | String _ rest' => search_from r (S pos) rest'
      end
  end.

Definition search (r : regex) (s : string) : option found := search_from r 0 s.

(** [re.match]: a match at offset 0 only. *)
Definition match_ (r : regex) (s : string) : option found :=
  match match_at r 0 s with
  | Some (e, c) => Some (Found 0 e c)
  | None => None
  end.

(** [match.group(0)] and [match.group(n)]. *)
Definition group0 (s : string) (f : found) : string :=
  String.substring (m_start f) (m_end f - m_start f) s.

Fixpoint lookup_group (n : nat) (c : captures) : option (nat * nat) :=
  match c with
  | [] => None
  | (n', span) :: c' => if n =? n' then Some span else lookup_group n c'
  end.

Definition group (n : nat) (s : string) (f : found) : string :=
  match lookup_group n (m_caps f) with
  | Some (b, e) => String.substring b (e - b) s
  | None => EmptyString
  end.

(** [re.findall] for a pattern without groups: the matched texts, left to
    right, without overlap.  [skip] counts the characters of the last match
    still to be passed over.  (After an empty match the scan moves on by one
    character; none of the patterns of the sources matches the empty
    text.) *)
Fixpoint findall_go (r : regex) (skip pos : nat) (rest : string) : list string :=
  match skip with
  | S k =>
      match rest with
      | String _ rest' => findall_go r k (S pos) rest'
      | EmptyString => []
      end
  | O =>
      match match_at r pos rest with
      | Some (e, _) =>
          String.substring 0 (e - pos) rest ::
          match rest with
          | String _ rest' => findall_go r (e - pos - 1) (S pos) rest'
          | EmptyString => []
          end
      | None =>
          match rest with
          | String _ rest' => findall_go r 0 (S pos) rest'
          | EmptyString => []
          end
      end
  end.

Definition findall (r : regex) (s : string) : list string := findall_go r 0 0 s.

(** [re.sub(r, repl, s)] for a literal replacement. *)
Fixpoint sub_go (r : regex) (repl : string) (skip pos : nat) (rest : string)
    : string :=
  match skip with
  | S k =>
      match rest with
      | String _ rest' => sub_go r repl k (S pos) rest'
      | EmptyString => EmptyString
      end
  | O =>
      match match_at r pos rest with
      | Some (e, _) =>
          repl +:+
          match rest with
          | String c rest' =>
              match e - pos with
              | O => String c (sub_go r repl 0 (S pos) rest')
              | S n => sub_go r repl n (S pos) rest'
              end
          | EmptyString => EmptyString
          end
      | None =>
          match rest with
          | String c rest' => String c (sub_go r repl 0 (S pos) rest')
          | EmptyString => EmptyString
          end
      end
  end.

Definition sub (r : regex) (repl s : string) : string := sub_go r repl 0 0 s.

(** The texts a pattern describes, anchors aside: what a match may
    consume. *)
Inductive star_lang (L : string -> Prop) : string -> Prop :=
| star_nil : star_lang L EmptyString
| star_cons (s1 s2 : string) : L s1 -> star_lang L s2 -> star_lang L (s1 +:+ s2).

Fixpoint lang (r : regex) (s : string) : Prop :=
  match r with
  | Eps | Bol | Eol => s = EmptyString
  | Chr p => exists c, s = String c EmptyString /\ p c = true
  | Cat r1 r2 => exists s1 s2, s = s1 +:+ s2 /\ lang r1 s1 /\ lang r2 s2
  | Alt r1 r2 => lang r1 s \/ lang r2 s
  | Star r1 => star_lang (lang r1) s
  | Grp _ r1 => lang r1 s
  end.

(** A matcher [f] consumes texts of [L] only: whenever it succeeds, it has
    consumed a text of [L] and the continuation has succeeded on what is
    left. *)
Definition consumes {A} (L : string -> Prop)
    (f : nat -> string -> captures -> cont A -> option A) : Prop :=
  forall pos rest caps k x,
    f pos rest caps k = Some x ->
    exists pre rest' caps',
      L pre /\ rest = pre +:+ rest' /\
      k (pos + String.length pre) rest' caps' = Some x.

End Re.

(** ** [transaction_extractor.py]: class [TradingDataExtractor] *)

Module TradingDataExtractor.
Import Re.

(** One parsed securities event: the dictionary built at the end of
    [_parse_transaction_line]. *)
Record Transaction : Type := mkTransaction {
  asset : string;
  ticker : string;
  owner : string;
  owner_code : string;
  transaction_type : string;
  transaction_date : string;
  notification_date : string;
  amount : string
}.

Definition OWNER_CODES : list (string * string) :=
  [("SP", "Spouse"); ("DC", "Dependent Child"); ("JT", "Joint")].

Definition AMOUNT_RANGES : list (Z * string) :=
  [(15000%Z, "$1,001 - $15,000");
   (50000%Z, "$15,001 - $50,000");
   (100000%Z, "$50,001 - $100,000");
   (250000%Z, "$100,001 - $250,000");
   (500000%Z, "$250,001 - $500,000");
   (1000000%Z, "$500,001 - $1,000,000");
   (5000000%Z, "$1,000,001 - $5,000,000");
   (25000000%Z, "$5,000,001 - $25,000,000");
   (50000000%Z, "$25,000,001 - $50,000,000");
   (100000000%Z, "Over $50,000,000")].

(** [dict.get(key, default)] on a table of strings. *)
Fixpoint dict_get (d : list (string * string)) (key default : string) : string :=
  match d with
  | [] => default
  | (k, v) :: d' => if String.eqb k key then v else dict_get d' key default
  end.

(** *** The patterns *)

Definition one_of (s : string) (c : ascii) : bool := Py.any_char (Ascii.eqb c) s.

Definition ws : regex := Chr Py.isspace.
Definition digit : regex := Chr Py.isdecimal.

(** [\(([A-Z0-9.]+)\)] *)
Definition ticker_char (c : ascii) : bool :=
  Py.between 65 90 c || Py.between 48 57 c || Ascii.eqb c ".".

Definition ticker_pattern : regex :=
  Cat (Lit1 "(") (Cat (Grp 1 (Plus (Chr ticker_char))) (Lit1 ")")).

(** [^(SP|DC|JT)\s+(.+)] *)
Definition owner_pattern : regex :=
  Cat Bol
    (Cat (Grp 1 (Alt (Lit "SP") (Alt (Lit "DC") (Lit "JT"))))
       (Cat (Plus ws) (Grp 2 (Plus Dot)))).

(** [\d{2}/\d{2}/\d{4}] *)
Definition date_pattern : regex :=
  Cat (Rep 2 digit) (Cat (Lit1 "/") (Cat (Rep 2 digit) (Cat (Lit1 "/") (Rep 4 digit)))).

(** [\$[\d,]+] *)
Definition amount_char (c : ascii) : bool := Py.isdecimal c || Ascii.eqb c ",".

Definition amount_pattern : regex := Cat (Lit1 "$") (Plus (Chr amount_char)).

(** [\$\d], [\$\s*\d] and [-\s*\$] *)
Definition dollar_digit : regex := Cat (Lit1 "$") digit.
Definition dollar_ws_digit : regex := Cat (Lit1 "$") (Cat (Star ws) digit).
Definition dash_ws_dollar : regex := Cat (Lit1 "-") (Cat (Star ws) (Lit1 "$")).

(** [[^\w\s\.\-&(),]] *)
Definition special_char (c : ascii) : bool :=
  negb (Py.isword c || Py.isspace c || one_of ".-&()," c).

(** [\s+] and [\s*\[[A-Z]+\]\s*] *)
Definition spaces : regex := Plus ws.

Definition bracket_tag : regex :=
  Cat (Star ws)
    (Cat (Lit1 "[") (Cat (Plus (Chr Py.isupper_ascii)) (Cat (Lit1 "]") (Star ws)))).

(** [rf'\s*\({re.escape(ticker)}\)\s*.*$'] *)
Definition ticker_tail (ticker : string) : regex :=
  Cat (Star ws)
    (Cat (Lit1 "(") (Cat (Lit ticker) (Cat (Lit1 ")")
       (Cat (Star ws) (Cat (Star Dot) Eol))))).

(** *** The methods *)

Definition _is_transaction_line (line : string) : bool :=
  (Py.contains "P " line || Py.contains "S " line)
  && Py.contains "$" line
  && Py.any_char Py.isdigit line.

Definition _is_stock_transaction (line : string) (context_lines : list string)
    : bool :=
  if Py.contains "[ST]" line then true
  else existsb (Py.contains "[ST]") context_lines.

(** [lines[start:end]] *)
Definition slice {A} (l : list A) (start stop : nat) : list A :=
  firstn (stop - start) (skipn start l).

Definition _get_context_lines (lines : list string) (index context : nat)
    : list string :=
  let start := index in
  let stop := Nat.min (List.length lines) (index + context + 1) in
  slice lines start stop.

Definition _extract_owner_code (line : string) : string * string :=
  match match_ owner_pattern line with
  | Some owner_match => (group 1 line owner_match, group 2 line owner_match)
  | None => ("", line)
  end.

Definition _get_transaction_type (line : string) : string :=
  if Py.contains " P " line then "Purchase"
  else if Py.contains " S " line then "Sale"
  else "Unknown".

Definition _clean_asset_name (asset_name : string) : string :=
  if negb (Py.truthy asset_name) then ""
  else
    let cleaned := sub (Chr special_char) " " asset_name in
    let cleaned := Py.strip (sub spaces " " cleaned) in
    let cleaned := sub bracket_tag "" cleaned in
    cleaned.

(** Step 1 of [_extract_asset_info]: the first context line holding a
    ticker, with its index; [None] when the loop ends without a match. *)
Fixpoint scan_ticker (context_lines : list string) (i : nat)
    : option (string * nat) :=
  match context_lines with
  | [] => None
  | context_line :: more =>
      match search ticker_pattern context_line with
      | Some ticker_match => Some (group 1 context_line ticker_match, i)
      | None => scan_ticker more (S i)
      end
  end.

(** The cut of the first line: at ["P "] when it occurs, else at ["S "]. *)
Fixpoint cut_at_marker (markers : list string) (line_text : string) : string :=
  match markers with
  | [] => line_text
  | marker :: more =>
      match Py.find marker line_text with
      | Some marker_index => Py.take marker_index line_text
      | None => cut_at_marker more line_text
      end
  end.

(** The cut of an overflow line: at the first of the patterns that matches. *)
Fixpoint cut_at_pattern (patterns : list regex) (line_text : string) : string :=
  match patterns with
  | [] => line_text
  | pattern :: more =>
      match search pattern line_text with
      | Some mt => Py.take (m_start mt) line_text
      | None => cut_at_pattern more line_text
      end
  end.

(** The loop [for j in range(ticker_line_index)]. *)
Fixpoint asset_prefixes (j : nat) (before : list string) : list string :=
  match before with
  | [] => []
  | line_text :: more =>
      let line_text :=
        if j =? 0 then cut_at_marker ["P "; "S "] line_text
        else cut_at_pattern
               [date_pattern; dollar_digit; dollar_ws_digit; dash_ws_dollar]
               line_text in
      Py.strip line_text :: asset_prefixes (S j) more
  end.

Definition _extract_asset_info (line : string) (context_lines : list string)
    : string * string :=
  match scan_ticker context_lines 0 with
  | None => ("", "")
  | Some (ticker, ticker_line_index) =>
      if negb (Py.truthy ticker) then ("", "")
      else
        let asset_lines := asset_prefixes 0 (firstn ticker_line_index context_lines) in
        let ticker_line_before_ticker :=
          sub (ticker_tail ticker) "" (nth ticker_line_index context_lines "") in
        let asset_lines := asset_lines ++ [Py.strip ticker_line_before_ticker] in
        let asset_name := Py.join " " asset_lines in
        (ticker, _clean_asset_name asset_name)
  end.

Definition _extract_dates (line : string) : list string :=
  findall date_pattern line.

(** [int(raw_amount)], [None] for [ValueError].  The text handed over is
    what is left of a [\$[\d,]+] token without its ["$"] and [","], hence
    decimal digits only ([raw_amount_digits] below).  The conversion fails
    on the empty text and, in CPython 3.10.7 and later, on a text of more
    than [int_max_str_digits] digits. *)
Fixpoint digits_value (acc : Z) (s : string) : option Z :=
  match s with
  | EmptyString => Some acc
  | String c t =>
      if Py.isdecimal c
      then digits_value (10 * acc + Z.of_nat (Py.code c - 48)) t
      else None
  end.

Definition int_max_str_digits : nat := 4300.

Definition int_of_str (s : string) : option Z :=
  match s with
  | EmptyString => None
  | _ => if int_max_str_digits <? String.length s then None
         else digits_value 0 s
  end.

(** [f"{v:,}"]: decimal digits with a comma before every group of three. *)
Fixpoint commas (s : string) : string :=
  match s with
  | EmptyString => EmptyString
  | String c t =>
      let n := String.length t in
      if (0 <? n) && (n mod 3 =? 0) then String c ("," +:+ commas t)
      else String c (commas t)
  end.

Definition format_thousands (v : Z) : string :=
  if (v <? 0)%Z then "-" +:+ commas (Py.str_int (- v))
  else commas (Py.str_int v).

(** The loop [for threshold, range_str in self.AMOUNT_RANGES]. *)
Fixpoint first_range (ranges : list (Z * string)) (amount_value : Z) : string :=
  match ranges with
  | [] => "Over $50,000,000"
  | (threshold, range_str) :: more =>
      if (amount_value <=? threshold)%Z then range_str
      else first_range more amount_value
  end.

Definition categorize (amount_value : Z) : string :=
  if (amount_value <? 1000)%Z then "$" +:+ format_thousands amount_value
  else first_range AMOUNT_RANGES amount_value.

Definition _extract_and_categorize_amount (line : string) : string :=
  match search amount_pattern line with
  | None => ""
  | Some amount_match =>
      let raw_amount :=
        Py.replace "," "" (Py.replace "$" "" (group0 line amount_match)) in
      match int_of_str raw_amount with
      | Some amount_value => categorize amount_value
      | None => group0 line amount_match
      end
  end.

(** No step of the body raises, so the handler [except Exception: return
    None] is never entered; [nth] stands for the subscripts [dates[0]] and
    [dates[1]], which are only reached with two dates or more. *)
Definition _parse_transaction_line (line : string) (context_lines : list string)
    : option Transaction :=
  let '(owner_code, line_without_owner) := _extract_owner_code line in
  let transaction_type := _get_transaction_type line in
  let '(ticker, asset_name) := _extract_asset_info line context_lines in
  let dates := _extract_dates line in
  let amount := _extract_and_categorize_amount line in
  if negb (Py.truthy asset_name) || (List.length dates <? 2)
     || negb (Py.truthy amount)
  then None
  else Some {|
    asset := Py.strip asset_name;
    ticker := ticker;
    owner := dict_get OWNER_CODES owner_code "Self";
    owner_code := owner_code;
    transaction_type := transaction_type;
    transaction_date := nth 0 dates "";
    notification_date := if 1 <? List.length dates then nth 1 dates "" else "";
    amount := amount
  |}.

(** The body of the loop of [_extract_transactions_from_lines] for the
    line at index [i]: what it appends to [transactions]. *)
Definition candidate (lines : list string) (i : nat) (line : string)
    : list Transaction :=
  if _is_transaction_line line then
    let context_lines := _get_context_lines lines i 2 in
    if _is_stock_transaction line context_lines then
      match _parse_transaction_line line context_lines with
      | Some transaction => [transaction]
      | None => []
      end
    else []
  else [].

Fixpoint scan_lines (lines : list string) (i : nat) (todo : list string)
    : list Transaction :=
  match todo with
  | [] => []
  | line :: more => candidate lines i line ++ scan_lines lines (S i) more
  end.

Definition _extract_transactions_from_lines (lines : list string)
    : list Transaction :=
  scan_lines lines 0 lines.

(** [text.split('\n')] *)
Definition split_lines (text : string) : list string :=
  (fix go (cur : string) (s : string) : list string :=
     match s with
     | EmptyString => [cur]
     | String c t =>
         if Py.code c =? 10 then cur :: go EmptyString t
         else go (cur +:+ String c EmptyString) t
     end) EmptyString text.

(** A page is the result of its [extract_text()]: a text, or [None]. *)
Definition _extract_all_transactions (pages : list (option string))
    : list Transaction :=
  flat_map (fun page =>
              match page with
              | Some text =>
                  if Py.truthy text
                  then _extract_transactions_from_lines (split_lines text)
                  else []
              | None => []
              end) pages.

End TradingDataExtractor.

(** ** [daily_run.py]: the permanence classifier of [DailyRun] *)

Module DailyRun.

Definition permanent_patterns : list string :=
  ["corrupted"; "invalid format"; "unsupported";
   "malformed"; "no transactions found"; "file not found";
   "access denied"; "invalid pdf"; "permission denied"].

Definition _is_permanent_error (error_message : string) : bool :=
  let error_lower := Py.lower error_message in
  existsb (fun pattern => Py.contains pattern error_lower) permanent_patterns.

End DailyRun.

(** ** [data_manager.py]: class [DataManager] *)

Module DataManager.

(** The exceptions that matter to the callers.  [JSONDecodeError] and
    [UnicodeDecodeError] are subclasses of [ValueError]; [RuntimeError
    msg cause] is [raise RuntimeError(msg) from cause]; [RecursionError]
    and [MemoryError] are what [json.load] raises on a document that is
    nested too deeply or is too large. *)
Inductive exn : Type :=
| ValueError (msg : string)
| JSONDecodeError
| UnicodeDecodeError
| RuntimeError (msg : string) (cause : exn)
| TypeError
| AttributeError
| KeyError (key : string)
| RecursionError
| MemoryError
| OSError (msg : string).

(** [isinstance(e, ValueError)] *)
Definition is_ValueError (e : exn) : bool :=
  match e with
  | ValueError _ | JSONDecodeError | UnicodeDecodeError => true
  | _ => false
  end.

Inductive result (A : Type) : Type :=
| Ok (a : A)
| Raise (e : exn).
Arguments Ok {A} a.
Arguments Raise {A} e.

(** *** [_atomic_write]

    The directory is a finite map from paths to file texts.  [tmp] is the
    name [tempfile.NamedTemporaryFile] picks, and the [fault] says which
    step of the write, if any, raises. *)

Inductive fault : Type :=
| NoFault
| CreateFails (e : exn)               (* NamedTemporaryFile(...) raises *)
| DumpFails (written : nat) (e : exn) (* json.dump raises after [written] characters *)
| CloseFails (e : exn)                (* leaving the [with] block raises *)
| ReplaceFails (e : exn).             (* os.replace raises *)

Section AtomicWrite.

Context {Data : Type}.
(** [json.dump(data, ..., indent=2, ensure_ascii=False)] as a text. *)
Variable dumps : Data -> string.

(** The [try] block: the directory it leaves, the local [temp_path] when
    it has been bound, and the exception raised, if any. *)
Definition try_block (tmp : string) (flt : fault) (file_path : string)
    (data : Data) (dir : gmap string string)
    : gmap string string * option string * option exn :=
  match flt with
  | CreateFails e => (dir, None, Some e)
  | _ =>
      let dir := <[tmp := ""]> dir in
      match flt with
      | DumpFails written e =>
          (<[tmp := Py.take written (dumps data)]> dir, None, Some e)
      | _ =>
          let dir := <[tmp := dumps data]> dir in
          let temp_path := Some tmp in
          match flt with
          | CloseFails e => (dir, temp_path, Some e)
          | ReplaceFails e => (dir, temp_path, Some e)
          | _ =>
              (* os.replace(temp_path, file_path) *)
              (<[file_path := dumps data]> (delete tmp dir), temp_path, None)
          end
      end
  end.

(** The whole method: [Ok tt] when it returns, [Raise e] when [e] leaves
    it. *)
Definition _atomic_write (tmp : string) (flt : fault) (file_path : string)
    (data : Data) (dir : gmap string string)
    : gmap string string * result unit :=
  match try_block tmp flt file_path data dir with
  | (dir, _, None) => (dir, Ok tt)
  | (dir, temp_path, Some e) =>
      (* except Exception as e: *)
      let dir :=
        match temp_path with
        | Some p => if decide (is_Some (dir !! p)) then delete p dir else dir
        | None => dir
        end in
      (dir, Raise e)
  end.

End AtomicWrite.

(** *** [load_congress_data] on the raw document

    What [open] and [json.load] make of a file that exists: a JSON value
    ([JSON v]); a [JSONDecodeError], for a text that is not JSON
    ([NotJSON]); or another exception ([Unreadable e]): [OSError] for a
    file that cannot be opened or read, [UnicodeDecodeError] for bytes that
    are not UTF-8, [RecursionError] for a document nested too deeply,
    [ValueError] for an integer of more digits than the conversion limit,
    [MemoryError]. *)

#[warnings="-register-all"]
Inductive json : Type :=
| JNull
| JBool (b : bool)
| JNum (z : Z)
| JStr (s : string)
| JArr (items : list json)
| JObj (fields : list (string * json)).

Inductive file_content : Type :=
| NotJSON
| Unreadable (e : exn)
| JSON (v : json).

Module Raw.

Fixpoint obj_get (fields : list (string * json)) (key : string) : option json :=
  match fields with
  | [] => None
  | (k, v) :: more => if String.eqb k key then Some v else obj_get more key
  end.

(** [key in data] *)
Definition has_key (fields : list (string * json)) (key : string) : bool :=
  match obj_get fields key with Some _ => true | None => false end.

(** [data.get(key, default)] *)
Definition get_default (fields : list (string * json)) (key : string)
    (default : json) : json :=
  match obj_get fields key with Some v => v | None => default end.

(** [data[key] = v] for a key that is not in [data] yet. *)
Definition set_new (fields : list (string * json)) (key : string) (v : json)
    : list (string * json) :=
  fields ++ [(key, v)].

(** [len(v)] *)
Definition len (v : json) : result Z :=
  match v with
  | JObj fields => Ok (Z.of_nat (List.length fields))
  | JArr items => Ok (Z.of_nat (List.length items))
  | JStr s => Ok (Z.of_nat (String.length s))
  | _ => Raise TypeError
  end.

(** [v.values()] *)
Definition values (v : json) : result (list json) :=
  match v with
  | JObj fields => Ok (map snd fields)
  | _ => Raise AttributeError
  end.

(** [sum(len(member.get("filings", [])) for member in members)] *)
Fixpoint sum_filings (members : list json) (acc : Z) : result Z :=
  match members with
  | [] => Ok acc
  | JObj member :: more =>
      match len (get_default member "filings" (JArr [])) with
      | Ok n => sum_filings more (acc + n)
      | Raise e => Raise e
      end
  | _ :: _ => Raise AttributeError
  end.

(** The [try] block of [load_congress_data]. *)
Definition load_body (content : file_content) : result json :=
  match content with
  | NotJSON => Raise JSONDecodeError
  | Unreadable e => Raise e
  | JSON data =>
      match data with
      | JObj fields =>
          if negb (has_key fields "members")
          then Raise (ValueError "Invalid congress data structure")
          else
            let step1 :=
              if negb (has_key fields "total_members") then
                match len (get_default fields "members" (JObj [])) with
                | Ok n => Ok (set_new fields "total_members" (JNum n))
                | Raise e => Raise e
                end
              else Ok fields in
            match step1 with
            | Raise e => Raise e
            | Ok fields =>
                if negb (has_key fields "total_filings") then
                  match values (get_default fields "members" (JObj [])) with
                  | Raise e => Raise e
                  | Ok members =>
                      match sum_filings members 0 with
                      | Ok n => Ok (JObj (set_new fields "total_filings" (JNum n)))
                      | Raise e => Raise e
                      end
                  end
                else Ok (JObj fields)
            end
      | _ => Raise (ValueError "Invalid congress data structure")
      end
  end.

(** [load_congress_data]; [None] is a file that does not exist. *)
Definition load_congress_data (file : option file_content) : result json :=
  match file with
  | None =>
      Ok (JObj [("last_updated", JNull); ("total_members", JNum 0);
                ("total_filings", JNum 0); ("members", JObj [])])
  | Some content =>
      match load_body content with
      | Ok data => Ok data
      | Raise JSONDecodeError =>
          Raise (ValueError "Invalid JSON format in congress data file")
      | Raise e => Raise (RuntimeError "Failed to load congress data" e)
      end
  end.

End Raw.

(** *** The two persisted collections

    The registry ([congress_filings.json]) and the ledger
    ([trading_data.json]) in the layout the store itself writes.  A key
    that a dictionary may lack is an [option] field.  Instants
    ([datetime.now().isoformat()]) are readings of a clock that advances at
    every reading. *)

Definition instant : Type := nat.

Record Filing : Type := mkFiling {
  pdf_id : string;
  year : string;
  filing_type : string;
  pdf_link : string;
  scraped_date : string;
  processing_status : option string;
  processed_at : option instant;
  has_stock_transactions : option bool;
  failed_at : option instant;
  error : option string
}.

Record Member : Type := mkMember {
  name : string;
  office : string;
  filings : list Filing
}.

(** [members] keeps the insertion order of the dictionary, in which the
    loops visit it. *)
Record Registry : Type := mkRegistry {
  last_updated : option instant;
  total_members : option nat;
  total_filings : option nat;
  members : list (string * Member)
}.

Record PendingEntry : Type := mkPendingEntry {
  member_name : string;
  pending_pdf_id : string;
  pdf_url : string;
  pending_filing_type : string;
  pending_year : string;
  discovered_at : option instant
}.

(** The [result] handed to [mark_filing_processed]: the dictionary
    [processing_result] of [daily_run.py], with the two keys the method
    looks up and that dictionary does not bind. *)
Record Result : Type := mkResult {
  result_pdf_url : string;
  member_info : list (string * string);
  stock_transaction_count : Z;
  parsed_at : string;
  transactions : list TradingDataExtractor.Transaction;
  result_error : option string;
  transaction_count : option Z
}.

(** A value of [processed_filings]: a result, or the record
    [{"processed_at": ..., "result": {"error": ..., "permanent": ...}}]. *)
Inductive ProcessedRecord : Type :=
| ResultRecord (r : Result)
| ErrorRecord (at_ : instant) (error_message : string) (permanent : bool).

Record Summary : Type := mkSummary {
  total_pdfs : nat;
  processed_pdfs : nat;
  pending_pdfs : nat
}.

Record Ledger : Type := mkLedger {
  ledger_last_updated : option instant;
  pending_processing : list PendingEntry;
  processed_filings : gmap string ProcessedRecord;
  summary : Summary
}.

(** The state the methods run in: the two files ([None]: the file does not
    exist), the clock and what has been printed. *)
Record World : Type := mkWorld {
  congress_file : option Registry;
  trading_file : option Ledger;
  clock : instant;
  stdout : list string
}.

(** State passing, with a notation for sequencing. *)
Definition M (A : Type) : Type := World -> A * World.

Definition ret {A} (a : A) : M A := fun w => (a, w).

Definition bind {A B} (c : M A) (k : A -> M B) : M B :=
  fun w => let '(a, w') := c w in k a w'.

Declare Scope store_scope.
Delimit Scope store_scope with store.
Notation "'do' x <- c ; k" := (bind c (fun x => k))
  (at level 10, x pattern, c at level 100, k at level 200) : store_scope.
Notation "c ;; k" := (bind c (fun _ => k))
  (at level 100, k at level 200, right associativity) : store_scope.
Local Open Scope store_scope.

Definition now : M instant :=
  fun w => (clock w,
            mkWorld (congress_file w) (trading_file w) (S (clock w)) (stdout w)).

Definition print (line : string) : M unit :=
  fun w => (tt, mkWorld (congress_file w) (trading_file w) (clock w)
                  (stdout w ++ [line])).

(** A run of [_atomic_write] on which no step fails: the target file holds
    the data afterwards ([atomic_write_no_fault] below). *)
Definition write_congress_file (data : Registry) : M unit :=
  fun w => (tt, mkWorld (Some data) (trading_file w) (clock w) (stdout w)).

Definition write_trading_file (data : Ledger) : M unit :=
  fun w => (tt, mkWorld (congress_file w) (Some data) (clock w) (stdout w)).

Definition count_filings (ms : list (string * Member)) : nat :=
  list_sum (map (fun km => List.length (filings (snd km))) ms).

(** [load_congress_data] on a registry document, which passes the
    structure check of [Raw.load_congress_data]: the two counters are
    filled in when the document lacks them. *)
Definition load_congress_data : M Registry :=
  fun w =>
    match congress_file w with
    | None => (mkRegistry None (Some 0) (Some 0) [], w)
    | Some data =>
        let tm := match total_members data with
                  | None => Some (List.length (members data))
                  | some => some
                  end in
        let tf := match total_filings data with
                  | None => Some (count_filings (members data))
                  | some => some
                  end in
        (mkRegistry (last_updated data) tm tf (members data), w)
    end.

(** [save_congress_data]: the counters are recomputed and the document is
    stamped, then written. *)
Definition save_congress_data (data : Registry) : M unit :=
  do t <- now;
  write_congress_file
    (mkRegistry (Some t) (Some (List.length (members data)))
       (Some (count_filings (members data))) (members data)).

(** (The default ledger has the empty text as [last_updated]; it is
    [None] here, like the [None] of the default registry.) *)
Definition load_trading_data : M Ledger :=
  fun w =>
    match trading_file w with
    | None => (mkLedger None [] ∅ (mkSummary 0 0 0), w)
    | Some data => (data, w)
    end.

Definition save_trading_data (data : Ledger) : M unit :=
  do t <- now;
  write_trading_file
    (mkLedger (Some t) (pending_processing data) (processed_filings data)
       (mkSummary (total_pdfs (summary data))
          (size (processed_filings data))
          (List.length (pending_processing data)))).

(** The nested loops of [mark_filing_processed] and [mark_filing_error]:
    the first filing whose link is [url] is updated, with the instant read
    at that moment, and the loops stop; the flag is [congress_updated]. *)
Fixpoint update_first_filing (url : string) (update : instant -> Filing -> Filing)
    (fs : list Filing) : M (list Filing * bool) :=
  match fs with
  | [] => ret ([], false)
  | filing :: more =>
      if String.eqb (pdf_link filing) url then
        do t <- now;
        ret (update t filing :: more, true)
      else
        do (more', found) <- update_first_filing url update more;
        ret (filing :: more', found)
  end.

Fixpoint update_first_member (url : string) (update : instant -> Filing -> Filing)
    (ms : list (string * Member)) : M (list (string * Member) * bool) :=
  match ms with
  | [] => ret ([], false)
  | (member_key, member_data) :: more =>
      do (fs, found) <- update_first_filing url update (filings member_data);
      if found then
        ret ((member_key, mkMember (name member_data) (office member_data) fs)
               :: more, true)
      else
        do (more', found') <- update_first_member url update more;
        ret ((member_key, member_data) :: more', found')
  end.

(** [pdf_url.split("/")[-1].replace(".pdf", "")] *)
Definition filing_no_of (url : string) : string :=
  Py.replace ".pdf" "" (Py.split_last "/" url).

(** The assignments to the matching filing in [mark_filing_processed]. *)
Definition set_processed (result : option Result) (t : instant) (filing : Filing)
    : Filing :=
  let has_stock :=
    match result with
    | Some r =>
        if negb (match result_error r with Some e => Py.truthy e | None => false end)
        then Some (0 <? match transaction_count r with Some n => n | None => 0 end)%Z
        else has_stock_transactions filing
    | None => has_stock_transactions filing
    end in
  mkFiling (pdf_id filing) (year filing) (filing_type filing) (pdf_link filing)
    (scraped_date filing) (Some "processed") (Some t) has_stock
    (failed_at filing) (error filing).

Definition remove_pending (url : string) (queue : list PendingEntry)
    : list PendingEntry :=
  List.filter (fun item => negb (String.eqb (pdf_url item) url)) queue.

(** [result] is [None] for a result that is not truthy ([None] or an empty
    dictionary). *)
Definition mark_filing_processed (url : string) (result : option Result)
    : M unit :=
  do trading_data <- load_trading_data;
  do congress_data <- load_congress_data;
  do (ms, congress_updated) <-
    update_first_member url (set_processed result) (members congress_data);
  let congress_data :=
    mkRegistry (last_updated congress_data) (total_members congress_data)
      (total_filings congress_data) ms in
  let queue := remove_pending url (pending_processing trading_data) in
  let processed :=
    match result with
    | Some r =>
        let filing_no := filing_no_of url in
        <[filing_no := ResultRecord r]> (processed_filings trading_data)
    | None => processed_filings trading_data
    end in
  let trading_data :=
    mkLedger (ledger_last_updated trading_data) queue processed
      (summary trading_data) in
  (if congress_updated then save_congress_data congress_data else ret tt);;
  save_trading_data trading_data.

(** The assignments to the matching filing in [mark_filing_error]. *)
Definition set_failed (error_message : string) (t : instant) (filing : Filing)
    : Filing :=
  mkFiling (pdf_id filing) (year filing) (filing_type filing) (pdf_link filing)
    (scraped_date filing) (Some "failed") (processed_at filing)
    (has_stock_transactions filing) (Some t) (Some error_message).

Definition mark_filing_error (url error_message : string) (is_permanent : bool)
    : M unit :=
  do trading_data <- load_trading_data;
  do trading_data <-
    (if is_permanent then
       let queue := remove_pending url (pending_processing trading_data) in
       do t <- now;
       let processed :=
         <[url := ErrorRecord t error_message true]>
           (processed_filings trading_data) in
       do congress_data <- load_congress_data;
       do (ms, congress_updated) <-
         update_first_member url (set_failed error_message)
           (members congress_data);
       (if congress_updated
        then save_congress_data
               (mkRegistry (last_updated congress_data)
                  (total_members congress_data) (total_filings congress_data) ms)
        else ret tt);;
       ret (mkLedger (ledger_last_updated trading_data) queue processed
              (summary trading_data))
     else
       print ("Temporary error for " +:+ url +:+ ": " +:+ error_message
              +:+ " (will retry)");;
       ret trading_data);
  save_trading_data trading_data.

(** The final state of a run, and what the two loaders read in a state. *)
Definition run {A} (c : M A) (w : World) : World := snd (c w).
Definition registry_of (w : World) : Registry := fst (load_congress_data w).
Definition ledger_of (w : World) : Ledger := fst (load_trading_data w).

(** The state after one reading of the clock. *)
Definition tick (w : World) : World := snd (now w).

(** A filing with another link than [url]. *)
Definition other_link (url : string) (f : Filing) : Prop := pdf_link f <> url.

(** All the filings of a registry, in the order the loops visit them. *)
Definition all_filings (ms : list (string * Member)) : list Filing :=
  flat_map (fun km => filings (snd km)) ms.

End DataManager.

(** ** [filing_status_manager.py]: class [FilingStatusManager] *)

Module FilingStatusManager.
Import DataManager.
Local Open Scope store_scope.

Definition STATUS_PENDING : string := "pending".
Definition STATUS_PROCESSED : string := "processed".
Definition STATUS_FAILED : string := "failed".

(** An element of the list [identify_pending_filings] returns. *)
Record FilingInfo : Type := mkFilingInfo {
  info_member_key : string;
  info_member_name : string;
  info_pdf_url : string;
  info_pdf_id : string;
  info_filing_type : string;
  info_year : string
}.

Definition needs_processing (filing : Filing) : bool :=
  match processing_status filing with
  | None => true
  | Some status => String.eqb status STATUS_PENDING
  end.

Definition pending_of_member (member_key : string) (member_data : Member)
    : list FilingInfo :=
  map (fun filing =>
         mkFilingInfo member_key (name member_data) (pdf_link filing)
           (pdf_id filing) (filing_type filing) (year filing))
      (List.filter needs_processing (filings member_data)).

Definition identify_pending_filings : M (list FilingInfo) :=
  do congress_data <- load_congress_data;
  let pending_filings :=
    flat_map (fun km => pending_of_member (fst km) (snd km))
      (members congress_data) in
  print ("Identified " +:+ Py.str_int (Z.of_nat (List.length pending_filings))
         +:+ " pending filings");;
  ret pending_filings.

End FilingStatusManager.

(** ** The words of the specification

    Notions the specification uses and the sources do not name. *)

Module Spec.
Import TradingDataExtractor.

(** The ascending upper bounds of the amount buckets. *)
Definition BUCKET_BOUNDS : list Z :=
  [15000; 50000; 100000; 250000; 500000; 1000000; 5000000; 25000000;
   50000000]%Z.

(** Each bound with the bound before it, 1,000 before the first. *)
Definition buckets : list (Z * Z) := combine (1000%Z :: BUCKET_BOUNDS) BUCKET_BOUNDS.

(** The inclusive range from [lo] to [hi], as the filings print it. *)
Definition range_string (lo hi : Z) : string :=
  "$" +:+ format_thousands lo +:+ " - $" +:+ format_thousands hi.

Definition OVER_MAXIMUM : string := "Over $50,000,000".

(** The transaction kind as the specification words it: each marker on its
    own selects its kind. *)
Definition kind_as_claimed (line : string) : Prop :=
  _is_transaction_line line = true ->
  (Py.contains " P " line = true -> _get_transaction_type line = "Purchase") /\
  (Py.contains " S " line = true -> _get_transaction_type line = "Sale") /\
  (_get_transaction_type line = "Unknown" ->
   Py.contains " P " line = false /\ Py.contains " S " line = false).

(** The line begins with one of the two-letter ownership codes followed
    by whitespace. *)
Definition has_owner_prefix (line : string) : bool :=
  existsb (fun code => String.prefix code line) ["SP"; "DC"; "JT"]
  && match String.get 2 line with
     | Some c => Py.isspace c
     | None => false
     end.

(** The four conditions under which a candidate becomes a record. *)
Definition accepted (line : string) (context_lines : list string) : Prop :=
  (exists l f, In l context_lines /\ Re.search ticker_pattern l = Some f) /\
  snd (_extract_asset_info line context_lines) <> "" /\
  2 <= List.length (_extract_dates line) /\
  _extract_and_categorize_amount line <> "".

(** A source link is the link of at most one filing of the registry. *)
Definition unique_links (r : DataManager.Registry) : Prop :=
  List.NoDup
    (map DataManager.pdf_link (DataManager.all_filings (DataManager.members r))).

(** The number of filings of the registry that have the link. *)
Definition link_occurrences (url : string) (r : DataManager.Registry) : nat :=
  List.length
    (List.filter (fun f => String.eqb (DataManager.pdf_link f) url)
       (DataManager.all_filings (DataManager.members r))).

(** The error text a ledger record carries. *)
Definition record_error (rec : DataManager.ProcessedRecord) : option string :=
  match rec with
  | DataManager.ResultRecord r => DataManager.result_error r
  | DataManager.ErrorRecord _ e _ => Some e
  end.

(** The message is kept in one of the two persisted collections: as the
    error of a filing of the registry, or in a record of the ledger. *)
Definition error_persisted (msg : string) (w : DataManager.World) : Prop :=
  (exists f, In f (DataManager.all_filings
                     (DataManager.members (DataManager.registry_of w))) /\
             DataManager.error f = Some msg) \/
  (exists (key : string) rec,
     DataManager.processed_filings (DataManager.ledger_of w) !! key = Some rec /\
     record_error rec = Some msg).

(** A small store: one member with two filings, the second one queued. *)
Definition example_link : string :=
  "https://disclosures-clerk.house.gov/public_disc/ptr-pdfs/2024/20012345.pdf".

Definition example_filing : DataManager.Filing :=
  DataManager.mkFiling "20012345" "2024" "PTR Original" example_link
    "2024-03-12T08:00:00" (Some "pending") None None None None.

Definition example_registry : DataManager.Registry :=
  DataManager.mkRegistry (Some 0) (Some 1) (Some 2)
    [("Doe, Hon.. Jane_CA11",
      DataManager.mkMember "Doe, Hon.. Jane" "CA11"
        [DataManager.mkFiling "20012001" "2024" "PTR Original"
           "https://disclosures-clerk.house.gov/public_disc/ptr-pdfs/2024/20012001.pdf"
           "2024-03-01T08:00:00" (Some "processed") (Some 1) (Some true)
           None None;
         example_filing])].

(** The result of a successful extraction, as [daily_run.py] builds it. *)
Definition example_result : DataManager.Result :=
  DataManager.mkResult example_link [("name", "Hon. Jane Doe")] 1
    "2024-03-12T09:00:00"
    [mkTransaction "AAPL Inc" "AAPL" "Self" "" "Purchase" "01/02/2024"
       "01/05/2024" "$1,001 - $15,000"]
    None None.

Definition example_ledger : DataManager.Ledger :=
  DataManager.mkLedger (Some 2)
    [DataManager.mkPendingEntry "Doe, Hon.. Jane" "20012345" example_link
       "PTR Original" "2024" (Some 2)]
    ∅ (DataManager.mkSummary 0 0 1).

Definition example_world : DataManager.World :=
  DataManager.mkWorld (Some example_registry) (Some example_ledger) 3 [].

(** A page of two lines, a line feed between them, and the record of its
    second line. *)
Definition example_page : string :=
  "Filing ID #20012345" +:+ String (ascii_of_nat 10)
    "SP Microsoft Corporation (MSFT) [ST] S 03/04/2024 03/11/2024 $15,001 - $50,000".

Definition example_record : Transaction :=
  mkTransaction "SP Microsoft Corporation" "MSFT" "Spouse" "SP" "Sale"
    "03/04/2024" "03/11/2024" "$15,001 - $50,000".

(** A sale whose asset name holds a free-standing capital P. *)
Definition sp_global_sale : string :=
  "S & P Global Inc. (SPGI) [ST] S 01/02/2024 01/05/2024 $1,001 - $15,000".

End Spec.

(** ** [data_manager.py]: additions to the queue *)

Module DataAccess.
Import DataManager.
Local Open Scope store_scope.

(** [filing_info["discovered_at"] = ...] *)
Definition stamp_discovered (t : instant) (filing_info : PendingEntry)
    : PendingEntry :=
  mkPendingEntry (member_name filing_info) (pending_pdf_id filing_info)
    (pdf_url filing_info) (pending_filing_type filing_info)
    (pending_year filing_info) (Some t).

Definition add_pending_filing (filing_info : PendingEntry) : M bool :=
  do trading_data <- load_trading_data;
  let existing_urls : gset string :=
    list_to_set (map pdf_url (pending_processing trading_data)) in
  if bool_decide (pdf_url filing_info ∈ existing_urls) then ret false
  else
    do t <- now;
    let filing_info := stamp_discovered t filing_info in
    save_trading_data
      (mkLedger (ledger_last_updated trading_data)
         (pending_processing trading_data ++ [filing_info])
         (processed_filings trading_data) (summary trading_data));;
    ret true.

End DataAccess.

(** ** [filing_status_manager.py]: the read-only projections *)

Module FilingStatusQueries.
Import DataManager.
Local Open Scope store_scope.

Inductive FilingStatus : Type := PENDING | PROCESSED | FAILED.

Definition value (status : FilingStatus) : string :=
  match status with
  | PENDING => "pending"
  | PROCESSED => "processed"
  | FAILED => "failed"
  end.

(** [FilingStatus(status_str)], [None] for [ValueError]. *)
Definition FilingStatus_of (status_str : string) : option FilingStatus :=
  if String.eqb status_str "pending" then Some PENDING
  else if String.eqb status_str "processed" then Some PROCESSED
  else if String.eqb status_str "failed" then Some FAILED
  else None.

Definition get_failed_filings : M (list string) :=
  do congress_data <- load_congress_data;
  ret (map pdf_id
         (List.filter
            (fun filing =>
               match processing_status filing with
               | Some status => String.eqb status "failed"
               | None => false
               end)
            (all_filings (members congress_data)))).

(** The nested loops return at the first filing with the identifier. *)
Definition get_status (filing_id : string) : M (option FilingStatus) :=
  do congress_data <- load_congress_data;
  ret (match List.find (fun filing => String.eqb (pdf_id filing) filing_id)
               (all_filings (members congress_data)) with
       | Some filing =>
           match processing_status filing with
           | Some status_str =>
               if Py.truthy status_str then FilingStatus_of status_str else None
           | None => None
           end
       | None => None
       end).

(** One step of the counting loop of [get_status_summary]. *)
Definition count_status (summary : gmap string nat) (filing : Filing)
    : gmap string nat :=
  let bump (key : string) :=
    <[key := S (default 0 (summary !! key))]> summary in
  match processing_status filing with
  | Some status =>
      if bool_decide (is_Some (summary !! status)) then bump status
      else bump "no_status"
  | None => bump "no_status"
  end.

Definition empty_summary : gmap string nat :=
  <["pending" := 0]> (<["processed" := 0]> (<["failed" := 0]>
    (<["no_status" := 0]> ∅))).

Definition get_status_summary : M (gmap string nat) :=
  do congress_data <- load_congress_data;
  ret (fold_left count_status (all_filings (members congress_data))
         empty_summary).

End FilingStatusQueries.

(** ** [daily_run.py]: the steps of a run

    The collaborators that reach outside the store are given by what they
    return: [fetch] tells, for a filing of the batch, what the download and
    the extraction of its document come to. *)

Module DailyRunSteps.
Import DataManager.
Local Open Scope store_scope.

(** [for x in l: ...] with the loop's variables threaded as [s]. *)
Fixpoint for_each {A S : Type} (l : list A) (body : A -> S -> M S) (s : S)
    : M S :=
  match l with
  | [] => ret s
  | x :: more => do s' <- body x s; for_each more body s'
  end.

(** The body of the loop of [_update_trading_database]. *)
Definition queue_one (filing_info : FilingStatusManager.FilingInfo)
    (added_count : Z) : M Z :=
  let pending_info :=
    mkPendingEntry (FilingStatusManager.info_member_name filing_info)
      (FilingStatusManager.info_pdf_id filing_info)
      (FilingStatusManager.info_pdf_url filing_info)
      (FilingStatusManager.info_filing_type filing_info)
      (FilingStatusManager.info_year filing_info) None in
  do added <- DataAccess.add_pending_filing pending_info;
  ret (if added then (added_count + 1)%Z else added_count).

Definition _update_trading_database : M unit :=
  do pending_filings <- FilingStatusManager.identify_pending_filings;
  do added_count <- for_each pending_filings queue_one 0%Z;
  print ("Added " +:+ Py.str_int added_count
         +:+ " new filings to pending processing queue").

(** The dictionary [extract_trading_data] returns: the one of
    [_build_result], or the one of [_build_error_result] with its
    ["error"]. *)
Record Extraction : Type := mkExtraction {
  x_error : option string;
  x_member_info : list (string * string);
  x_transactions : list TradingDataExtractor.Transaction;
  x_parsed_at : string
}.

(** What acquiring and extracting one document comes to: a path and the
    extraction of that file; no path ([download_pdf] returned [None]); or
    an exception [e], given by [str(e)]. *)
Inductive Outcome : Type :=
| Extracted (result : Extraction)
| NoPath
| Raises (msg : string).

Record Counts : Type := mkCounts {
  processed : Z;
  successful : Z;
  failed : Z
}.

(** [l[:n]] *)
Definition take_upto {A} (n : Z) (l : list A) : list A :=
  if (n <? 0)%Z then firstn (List.length l - Z.to_nat (- n)) l
  else firstn (Z.to_nat n) l.

(** The dictionary [processing_result]. *)
Definition processing_result (url : string) (result : Extraction) : Result :=
  mkResult url (x_member_info result)
    (Z.of_nat (List.length (x_transactions result))) (x_parsed_at result)
    (x_transactions result) None None.

Section ProcessPending.

Variable fetch : FilingStatusManager.FilingInfo -> Outcome.

(** What the handlers of an error do with the counters. *)
Definition count_error (is_permanent : bool) (c : Counts) : Counts :=
  if is_permanent
  then mkCounts (processed c + 1) (successful c) (failed c + 1)
  else c.

(** [result.get("error")] when it is truthy. *)
Definition reported_error (result : Extraction) : option string :=
  match x_error result with
  | Some error_msg => if Py.truthy error_msg then Some error_msg else None
  | None => None
  end.

(** The body of the loop over [files_to_process].  The default of
    [result.get("parsed_at", datetime.now().isoformat())] is evaluated, a
    reading of the clock, and not used. *)
Definition process_one (filing_info : FilingStatusManager.FilingInfo)
    (c : Counts) : M Counts :=
  let url := FilingStatusManager.info_pdf_url filing_info in
  let id := FilingStatusManager.info_pdf_id filing_info in
  let member := FilingStatusManager.info_member_name filing_info in
  print ("Processing: " +:+ member +:+ " - " +:+ id);;
  match fetch filing_info with
  | Extracted result =>
      match reported_error result with
      | Some error_msg =>
          print ("Error extracting data from " +:+ id +:+ ": " +:+ error_msg);;
          let is_permanent := DailyRun._is_permanent_error error_msg in
          mark_filing_error url error_msg is_permanent;;
          ret (count_error is_permanent c)
      | None =>
          let transaction_count := List.length (x_transactions result) in
          print ("Found " +:+ Py.str_int (Z.of_nat transaction_count)
                 +:+ " transactions in " +:+ id);;
          do _ <- now;
          mark_filing_processed url (Some (processing_result url result));;
          ret (mkCounts (processed c + 1) (successful c + 1) (failed c))
      end
  | NoPath =>
      print ("Failed to download PDF: " +:+ id);;
      mark_filing_error url "Failed to download PDF" false;;
      ret c
  | Raises error_msg =>
      print ("Error processing " +:+ id +:+ ": " +:+ error_msg);;
      let is_permanent := DailyRun._is_permanent_error error_msg in
      mark_filing_error url error_msg is_permanent;;
      ret (count_error is_permanent c)
  end.

(** (The temporary directory of the extractor, created before the loop and
    removed in the [finally] clause, is no part of the store.) *)
Definition _process_pending_pdfs (max_files_per_run : Z)
    (pending_filings : list FilingStatusManager.FilingInfo) : M Counts :=
  match pending_filings with
  | [] =>
      print "No pending PDFs to process";;
      ret (mkCounts 0 0 0)
  | _ =>
      let files_to_process := take_upto max_files_per_run pending_filings in
      print ("Processing "
             +:+ Py.str_int (Z.of_nat (List.length files_to_process))
             +:+ " of " +:+ Py.str_int (Z.of_nat (List.length pending_filings))
             +:+ " pending PDFs");;
      do c <- for_each files_to_process process_one (mkCounts 0 0 0);
      print ("PDF Processing Summary: " +:+ Py.str_int (successful c)
             +:+ " successful, " +:+ Py.str_int (failed c) +:+ " failed");;
      ret c
  end.

End ProcessPending.

End DailyRunSteps.

(** ** [data_manager.py]: [load_trading_data] on the raw document *)

Module RawLedger.
Import DataManager.
Import DataManager.Raw.

(** [d.setdefault(key, v)] *)
Definition setdefault (fields : list (string * json)) (key : string)
    (v : json) : list (string * json) :=
  if has_key fields key then fields else set_new fields key v.

(** [data[key] = v]: the value of the key is replaced where it stands, a
    new key is put at the end. *)
Fixpoint set_item (fields : list (string * json)) (key : string) (v : json)
    : list (string * json) :=
  match fields with
  | [] => [(key, v)]
  | (k, x) :: more =>
      if String.eqb k key then (k, v) :: more
      else (k, x) :: set_item more key v
  end.

(** [field in data]: a key of an object, an element of an array, a part of
    a text; [TypeError] for a number, a truth value and [null]. *)
Definition contains (data : json) (field : string) : result bool :=
  match data with
  | JObj fields => Ok (has_key fields field)
  | JArr items =>
      Ok (existsb (fun item =>
                     match item with
                     | JStr s => String.eqb s field
                     | _ => false
                     end) items)
  | JStr s => Ok (Py.contains field s)
  | _ => Raise TypeError
  end.

(** The loop over [required_fields]; the assignment [data[field] = ...]
    raises [TypeError] on an array and on a text. *)
Fixpoint require (required_fields : list string) (data : json) : result json :=
  match required_fields with
  | [] => Ok data
  | field :: more =>
      match contains data field with
      | Raise e => Raise e
      | Ok true => require more data
      | Ok false =>
          match data with
          | JObj fields =>
              require more
                (JObj (set_new fields field
                         (if String.eqb field "pending_processing"
                          then JArr [] else JObj [])))
          | _ => Raise TypeError
          end
      end
  end.

(** The [try] block.  [data.get] and [summary.setdefault] raise
    [AttributeError] on what is no object; the defaults of the second and
    third [setdefault] are computed whether they are used or not. *)
Definition load_body (content : file_content) : result json :=
  match content with
  | NotJSON => Raise JSONDecodeError
  | Unreadable e => Raise e
  | JSON data =>
      match require ["pending_processing"; "processed_filings"; "summary"]
              data with
      | Raise e => Raise e
      | Ok (JObj fields) =>
          match get_default fields "summary" (JObj []) with
          | JObj summary =>
              let summary := setdefault summary "total_pdfs" (JNum 0) in
              match len (get_default fields "processed_filings" (JObj [])) with
              | Raise e => Raise e
              | Ok n =>
                  let summary := setdefault summary "processed_pdfs" (JNum n) in
                  match len (get_default fields "pending_processing" (JArr []))
                  with
                  | Raise e => Raise e
                  | Ok m =>
                      let summary :=
                        setdefault summary "pending_pdfs" (JNum m) in
                      Ok (JObj (set_item fields "summary" (JObj summary)))
                  end
              end
          | _ => Raise AttributeError
          end
      | Ok _ => Raise AttributeError
      end
  end.

(** [load_trading_data]; [None] is a file that does not exist.  The
    handler [except Exception: raise] lets every other exception through as
    it is. *)
Definition load_trading_data (file : option file_content) : result json :=
  match file with
  | None =>
      Ok (JObj [("last_updated", JStr EmptyString);
                ("pending_processing", JArr []);
                ("summary", JObj [("total_pdfs", JNum 0);
                                  ("processed_pdfs", JNum 0);
                                  ("pending_pdfs", JNum 0)]);
                ("processed_filings", JObj [])])
  | Some content =>
      match load_body content with
      | Ok data => Ok data
      | Raise JSONDecodeError =>
          Raise (ValueError "Invalid JSON format in trading data file")
      | Raise e => Raise e
      end
  end.

(** A ledger document with every required key and counter. *)
Definition complete (fields summary : list (string * json)) : Prop :=
  obj_get fields "summary" = Some (JObj summary) /\
  has_key fields "pending_processing" = true /\
  has_key fields "processed_filings" = true /\
  has_key summary "total_pdfs" = true /\
  has_key summary "processed_pdfs" = true /\
  has_key summary "pending_pdfs" = true.

(** A value [len] accepts. *)
Definition sized (v : json) : bool :=
  match v with JObj _ | JArr _ | JStr _ => true | _ => false end.

End RawLedger.

(** ** The two readers of the links, on the raw document

    [DataManager.get_existing_pdf_urls] ([data_manager.py]) and
    [FilingScraper.get_existing_pdf_urls] ([filing_scraper.py]) run the
    same two loops, the first on what [load_congress_data] returns, the
    second on what [load_existing_data] returns.  The set they build is
    given by the values added to it, in the order of the additions. *)

Module RawLinks.
Import DataManager.
Import DataManager.Raw.

(** [for x in v]: the elements of an array, the keys of an object, the
    characters of a text; [TypeError] for what is not iterable. *)
Definition iterate (v : json) : result (list json) :=
  match v with
  | JArr items => Ok items
  | JObj fields => Ok (map (fun kv => JStr (fst kv)) fields)
  | JStr s =>
      Ok (map (fun c => JStr (String c EmptyString)) (list_ascii_of_string s))
  | _ => Raise TypeError
  end.

(** [v[key]] for a text [key]: [KeyError] for an object without the key,
    [TypeError] for what is no object. *)
Definition subscript (v : json) (key : string) : result json :=
  match v with
  | JObj fields =>
      match obj_get fields key with
      | Some x => Ok x
      | None => Raise (KeyError key)
      end
  | _ => Raise TypeError
  end.

(** What [set.add] accepts. *)
Definition hashable (v : json) : bool :=
  match v with JArr _ | JObj _ => false | _ => true end.

(** The inner loop: [existing_urls.add(filing["pdf_link"])]. *)
Fixpoint add_links (filings : list json) (existing_urls : list json)
    : result (list json) :=
  match filings with
  | [] => Ok existing_urls
  | filing :: more =>
      match subscript filing "pdf_link" with
      | Raise e => Raise e
      | Ok v =>
          if hashable v then add_links more (existing_urls ++ [v])
          else Raise TypeError
      end
  end.

(** The outer loop over [members.values()]; [member_data.get] raises
    [AttributeError] on what is no object. *)
Fixpoint members_links (members : list json) (existing_urls : list json)
    : result (list json) :=
  match members with
  | [] => Ok existing_urls
  | JObj member_data :: more =>
      match iterate (get_default member_data "filings" (JArr [])) with
      | Raise e => Raise e
      | Ok filings =>
          match add_links filings existing_urls with
          | Raise e => Raise e
          | Ok existing_urls => members_links more existing_urls
          end
      end
  | _ :: _ => Raise AttributeError
  end.

(** The two loops on a loaded document. *)
Definition existing_urls_of (data : json) : result (list json) :=
  match data with
  | JObj fields =>
      match values (get_default fields "members" (JObj [])) with
      | Raise e => Raise e
      | Ok members => members_links members []
      end
  | _ => Raise AttributeError
  end.

Module Scraper.

(** No handler: what the reading raises reaches the caller. *)
Definition load_existing_data (file : option file_content) : result json :=
  match file with
  | None => Ok (JObj [("last_updated", JNull); ("members", JObj [])])
  | Some NotJSON => Raise JSONDecodeError
  | Some (Unreadable e) => Raise e
  | Some (JSON data) => Ok data
  end.

Definition get_existing_pdf_urls (data : json) : result (list json) :=
  existing_urls_of data.

End Scraper.

Module Store.

Definition get_existing_pdf_urls (file : option file_content)
    : result (list json) :=
  match load_congress_data file with
  | Raise e => Raise e
  | Ok congress_data => existing_urls_of congress_data
  end.

End Store.

End RawLinks.

(** ** [filing_scraper.py]: class [FilingScraper]

    The scraper reads and writes the registry file directly, without the
    defaults and the counters of [DataManager].  [fetch_filings], which
    queries the site, is given by what it returns. *)

Module FilingScraper.
Import DataManager.
Local Open Scope store_scope.

(** A dictionary of the list [fetch_filings] returns. *)
Record Scraped : Type := mkScraped {
  s_pdf_id : string;
  s_name : string;
  s_office : string;
  s_year : string;
  s_filing_type : string;
  s_pdf_link : string;
  s_scraped_date : string
}.

(** The dictionary [update_data] returns. *)
Record ScrapeSummary : Type := mkScrapeSummary {
  total_filings_found : nat;
  new_filings_count : nat;
  new_filings : list Scraped;
  members_with_filings : nat;
  summary_last_updated : option instant
}.

Definition load_existing_data : M Registry :=
  fun w =>
    match congress_file w with
    | Some data => (data, w)
    | None => (mkRegistry None None None [], w)
    end.

Definition save_data (data : Registry) : M unit := write_congress_file data.

Definition get_existing_pdf_urls (data : Registry) : gset string :=
  list_to_set (map pdf_link (all_filings (members data))).

Definition get_member_key (name office : string) : string :=
  let clean_name :=
    Py.strip (Py.replace "Former Member" "" (Py.replace "Hon.. " "" name)) in
  let clean_office := Py.replace " " "" (Py.strip office) in
  clean_name +:+ "_" +:+ clean_office.

Definition identify_new_filings (current_filings : list Scraped)
    (existing_urls : gset string) : list Scraped :=
  List.filter (fun filing => negb (bool_decide (s_pdf_link filing ∈ existing_urls)))
    current_filings.

(** [member_key in members] *)
Definition has_member (member_key : string) (ms : list (string * Member))
    : bool :=
  existsb (fun km => String.eqb (fst km) member_key) ms.

(** [members[member_key]["filings"].append(filing_data)] *)
Fixpoint append_filing (member_key : string) (filing_data : Filing)
    (ms : list (string * Member)) : list (string * Member) :=
  match ms with
  | [] => []
  | (key, member_data) :: more =>
      if String.eqb key member_key
      then (key, mkMember (name member_data) (office member_data)
                   (filings member_data ++ [filing_data])) :: more
      else (key, member_data) :: append_filing member_key filing_data more
  end.

(** The dictionary [filing_data]. *)
Definition filing_data_of (filing : Scraped) : Filing :=
  mkFiling (s_pdf_id filing) (s_year filing) (s_filing_type filing)
    (s_pdf_link filing) (s_scraped_date filing) (Some "pending")
    None None None None.

(** The body of the loop over [new_filings]. *)
Definition add_filing (ms : list (string * Member)) (filing : Scraped)
    : list (string * Member) :=
  let member_key := get_member_key (s_name filing) (s_office filing) in
  let ms :=
    if has_member member_key ms then ms
    else ms ++ [(member_key, mkMember (s_name filing) (s_office filing) [])] in
  append_filing member_key (filing_data_of filing) ms.

Section UpdateData.

(** [timedelta(hours=12)] in the unit of the clock, and [str] of a
    difference of two instants. *)
Variable twelve_hours : Z.
Variable str_timedelta : Z -> string.

(** What [fetch_filings()] returns; [None] when it raises. *)
Variable fetched : option (list Scraped).

(** [None]: the exception of [fetch_filings] goes through.  (A
    [last_updated] of the registry is an instant here, so that
    [datetime.fromisoformat] does not fail on it.) *)
Definition update_data (force_full_scrape : bool)
    : M (option ScrapeSummary) :=
  do existing_data <- load_existing_data;
  do skip <-
    (match (if force_full_scrape then None else last_updated existing_data) with
     | Some last =>
         do t <- now;
         let time_since_last_update := (Z.of_nat t - Z.of_nat last)%Z in
         if (time_since_last_update <? twelve_hours)%Z
         then
           print ("Last update was " +:+ str_timedelta time_since_last_update
                  +:+ " ago (less than 12 hours). Skipping scrape.");;
           ret true
         else ret false
     | None => ret false
     end);
  if skip : bool then
    ret (Some (mkScrapeSummary 0 0 [] (List.length (members existing_data))
                 (last_updated existing_data)))
  else
    let existing_urls := get_existing_pdf_urls existing_data in
    match fetched with
    | None => ret None
    | Some current_filings =>
        let new := identify_new_filings current_filings existing_urls in
        match new with
        | [] =>
            print "No new filings found.";;
            do t <- now;
            save_data
              (mkRegistry (Some t) (total_members existing_data)
                 (total_filings existing_data) (members existing_data));;
            ret (Some (mkScrapeSummary (List.length current_filings) 0 []
                         (List.length (members existing_data)) (Some t)))
        | _ =>
            print ("Adding " +:+ Py.str_int (Z.of_nat (List.length new))
                   +:+ " new filings to existing data...");;
            let ms := fold_left add_filing new (members existing_data) in
            do t <- now;
            save_data
              (mkRegistry (Some t) (Some (List.length ms))
                 (Some (count_filings ms)) ms);;
            ret (Some (mkScrapeSummary (List.length current_filings)
                         (List.length new) new (List.length ms) (Some t)))
        end
    end.

End UpdateData.

End FilingScraper.

(** ** Notions used to state the further properties *)

Module Notions.
Import DataManager.

(** The two counters of the summary agree with the collections. *)
Definition summary_counts (l : Ledger) : Prop :=
  processed_pdfs (summary l) = size (processed_filings l) /\
  pending_pdfs (summary l) = List.length (pending_processing l).

(** The ledger [save_trading_data] writes for a queue and a map of results. *)
Definition saved_ledger (t : instant) (queue : list PendingEntry)
    (processed : gmap string ProcessedRecord) (total : nat) : Ledger :=
  mkLedger (Some t) queue processed
    (mkSummary total (size processed) (List.length queue)).

(** A document identifier is the identifier of at most one filing. *)
Definition unique_ids (r : Registry) : Prop :=
  List.NoDup (map pdf_id (all_filings (members r))).

(** The status text of a filing is [s]. *)
Definition has_status (s : string) (f : Filing) : bool :=
  match processing_status f with
  | Some status => String.eqb status s
  | None => false
  end.

(** The filings of a list that satisfy [p], counted. *)
Definition number_with (p : Filing -> bool) (l : list Filing) : nat :=
  List.length (List.filter p l).

(** The status text is one of the three of [FilingStatus]. *)
Definition listed (f : Filing) : bool :=
  has_status "pending" f || has_status "processed" f || has_status "failed" f.

Definition summary_keys : list string :=
  ["pending"; "processed"; "failed"; "no_status"].

(** A summary with the four keys and these counts. *)
Definition tally (m : gmap string nat) (a b c d : nat) : Prop :=
  m !! "pending" = Some a /\ m !! "processed" = Some b /\
  m !! "failed" = Some c /\ m !! "no_status" = Some d /\
  forall k, ~ In k summary_keys -> m !! k = None.

(** A scrape is due: it is forced, or the registry has no time of a last
    update, or that time is twelve hours or more before the reading of the
    clock. *)
Definition due (twelve_hours : Z) (force_full_scrape : bool) (w : World)
    : Prop :=
  match (if force_full_scrape then None
         else last_updated (fst (FilingScraper.load_existing_data w))) with
  | Some last => (twelve_hours <= Z.of_nat (clock w) - Z.of_nat last)%Z
  | None => True
  end.

(** The rows of a scrape whose link no filing of the registry has. *)
Definition new_rows (rows : list FilingScraper.Scraped) (w : World)
    : list FilingScraper.Scraped :=
  FilingScraper.identify_new_filings rows
    (FilingScraper.get_existing_pdf_urls
       (fst (FilingScraper.load_existing_data w))).

(** Two rows of one scrape with the same link, as a page lists a document
    twice; they differ in the instant of their scraping. *)
Definition first_row : FilingScraper.Scraped :=
  FilingScraper.mkScraped "20012345" "Doe, Hon.. Jane" "CA11" "2024"
    "PTR Original" Spec.example_link "2024-03-13T08:00:00".

Definition second_row : FilingScraper.Scraped :=
  FilingScraper.mkScraped "20012345" "Doe, Hon.. Jane" "CA11" "2024"
    "PTR Original" Spec.example_link "2024-03-13T08:00:01".

(** The store after the first scrape of an empty store has returned these
    two rows and [_update_trading_database] has queued what is pending. *)
Definition repeated_world : World :=
  run DailyRunSteps._update_trading_database
    (run (FilingScraper.update_data 12 (fun _ => EmptyString)
            (Some [first_row; second_row]) false)
       (mkWorld None None 0 [])).

(** Two rows of a scrape: a document the example registry has, and one it
    does not have. *)
Definition example_rows : list FilingScraper.Scraped :=
  [FilingScraper.mkScraped "20012345" "Doe, Hon.. Jane" "CA11" "2024"
     "PTR Original" Spec.example_link "2024-03-13T08:00:00";
   FilingScraper.mkScraped "20019999" "Roe, Hon.. John" "TX02" "2024"
     "PTR Original"
     "https://disclosures-clerk.house.gov/public_disc/ptr-pdfs/2024/20019999.pdf"
     "2024-03-13T08:00:01"].

(** A ledger document whose counters differ from its collections, and one
    whose processed results are [null]. *)
Definition stale_counters : list (string * json) :=
  [("total_pdfs", JNum 9); ("processed_pdfs", JNum 7); ("pending_pdfs", JNum 5)].

Definition stale_document : list (string * json) :=
  [("summary", JObj stale_counters); ("processed_filings", JObj []);
   ("pending_processing", JArr [])].

Definition null_document : list (string * json) :=
  [("summary", JObj stale_counters); ("processed_filings", JNull);
   ("pending_processing", JArr [])].

(** The links of the queue, in its order. *)
Definition queue_links (w : World) : list string :=
  map pdf_url (pending_processing (ledger_of w)).

(** No filing with the link [url] needs processing. *)
Definition settled (r : Registry) (url : string) : Prop :=
  forall f,
    In f (all_filings (members r)) -> pdf_link f = url ->
    FilingStatusManager.needs_processing f = false.

(** What one marking operation does to the filings of the registry: the
    links stay, a filing that is there afterwards was there before or does
    not need processing, and, with unique links, no filing with the link of
    the operation needs processing afterwards. *)
Definition marks_step (settles : bool) (url : string)
    (w w' : World) : Prop :=
  map pdf_link
    (all_filings (members (registry_of w')))
  = map pdf_link
      (all_filings (members (registry_of w))) /\
  (forall f',
     In f' (all_filings
              (members (registry_of w'))) ->
     In f' (all_filings
              (members (registry_of w))) \/
     FilingStatusManager.needs_processing f' = false) /\
  (settles = true ->
   Spec.unique_links (registry_of w) ->
   settled (registry_of w') url).

(** How the loop of [_process_pending_pdfs] treats what a document comes
    to: counted as successful, counted as failed, or counted nowhere and
    left for a later run. *)
Inductive Verdict : Type := Success | PermanentFailure | Retry.

Definition Verdict_eqb (a b : Verdict) : bool :=
  match a, b with
  | Success, Success | PermanentFailure, PermanentFailure | Retry, Retry => true
  | _, _ => false
  end.

Definition of_message (msg : string) : Verdict :=
  if DailyRun._is_permanent_error msg then PermanentFailure else Retry.

Definition verdict (o : DailyRunSteps.Outcome) : Verdict :=
  match o with
  | DailyRunSteps.Extracted result =>
      match DailyRunSteps.reported_error result with
      | Some msg => of_message msg
      | None => Success
      end
  | DailyRunSteps.NoPath => Retry
  | DailyRunSteps.Raises msg => of_message msg
  end.

(** The number of filings of a batch with the verdict [v]. *)
Definition number_of (v : Verdict)
    (fetch : FilingStatusManager.FilingInfo -> DailyRunSteps.Outcome)
    (batch : list FilingStatusManager.FilingInfo) : Z :=
  Z.of_nat (List.length
              (List.filter (fun info => Verdict_eqb (verdict (fetch info)) v)
                 batch)).

End Notions.

(** * Properties *)

(** ** Strings *)

Local Arguments String.append !s1 s2 : simpl nomatch.

Lemma append_nil_r (s : string) : s +:+ "" = s.
Proof. induction s as [|c s IH]; simpl; [reflexivity | now rewrite IH]. Qed.

Lemma append_assoc (s1 s2 s3 : string) : (s1 +:+ s2) +:+ s3 = s1 +:+ (s2 +:+ s3).
Proof. induction s1 as [|c s1 IH]; simpl; [reflexivity | now rewrite IH]. Qed.

Lemma length_append (s1 s2 : string) :
  String.length (s1 +:+ s2) = String.length s1 + String.length s2.
Proof. induction s1 as [|c s1 IH]; simpl; [reflexivity | now rewrite IH]. Qed.

Lemma substring_0_append (s1 s2 : string) :
  String.substring 0 (String.length s1) (s1 +:+ s2) = s1.
Proof.
  induction s1 as [|c s1 IH]; simpl.
  - destruct s2; reflexivity.
  - now rewrite IH.
Qed.

Lemma substring_skip_append (s1 s2 : string) (n : nat) :
  String.substring (String.length s1) n (s1 +:+ s2) = String.substring 0 n s2.
Proof. induction s1 as [|c s1 IH]; simpl; [reflexivity | exact IH]. Qed.

Lemma prefix_refl_true (a : ascii) (p s : string) :
  String.prefix (String a p) (String a s) = String.prefix p s.
Proof. simpl. destruct (ascii_dec a a); [reflexivity | contradiction]. Qed.

Lemma prefix_lower (p s : string) :
  String.prefix p s = true -> String.prefix (Py.lower p) (Py.lower s) = true.
Proof.
  revert s. induction p as [|a p IH]; intros s H.
  - destruct s; reflexivity.
  - destruct s as [|b s]; simpl in H; [discriminate|].
    destruct (ascii_dec a b) as [->|]; [|discriminate].
    cbn [Py.lower]. rewrite prefix_refl_true. now apply IH.
Qed.

Lemma contains_lower (p s : string) :
  Py.contains p s = true -> Py.contains (Py.lower p) (Py.lower s) = true.
Proof.
  induction s as [|c s IH]; intros H.
  - apply (prefix_lower p ""). exact H.
  - cbn [Py.contains] in H. apply orb_true_iff in H as [H | H].
    + change (Py.lower (String c s)) with (String (Py.lower_char c) (Py.lower s)).
      cbn [Py.contains]. apply orb_true_iff. left.
      exact (prefix_lower p (String c s) H).
    + change (Py.lower (String c s)) with (String (Py.lower_char c) (Py.lower s)).
      cbn [Py.contains]. apply orb_true_iff. right. now apply IH.
Qed.

(** ** The matcher finds words of the pattern only *)

Section MatcherSound.

Context {A : Type}.

Lemma star_loop_consumes (L : string -> Prop)
    (body : nat -> string -> Re.captures -> Re.cont A -> option A) :
  Re.consumes L body ->
  forall fuel, Re.consumes (Re.star_lang L) (Re.star_loop body fuel).
Proof.
  intros Hbody fuel. induction fuel as [|fuel IH]; intros pos rest caps k x H.
  - simpl in H. exists "", rest, caps. simpl. rewrite Nat.add_0_r.
    split; [constructor | split; [reflexivity | exact H]].
  - simpl in H.
    destruct (body pos rest caps _) as [a|] eqn:E.
    + injection H as ->.
      apply Hbody in E as (pre & rest' & caps' & Hpre & -> & E).
      destruct (String.length rest' <? _); [|discriminate].
      apply IH in E as (pre2 & rest'' & caps'' & Hpre2 & -> & E).
      exists (pre +:+ pre2), rest'', caps''.
      split; [now constructor|].
      split; [now rewrite append_assoc|].
      rewrite length_append, Nat.add_assoc. exact E.
    + exists "", rest, caps. simpl. rewrite Nat.add_0_r.
      split; [constructor | split; [reflexivity | exact H]].
Qed.

End MatcherSound.

Lemma m_consumes (r : Re.regex) : forall A, @Re.consumes A (Re.lang r) (Re.m r).
Proof.
  induction r as [|p|r1 IH1 r2 IH2|r1 IH1 r2 IH2|r1 IH1|n r1 IH1| |];
    intros A pos rest caps k x H; simpl in H.
  - exists "", rest, caps. simpl. rewrite Nat.add_0_r. auto.
  - destruct rest as [|c rest]; [discriminate|].
    destruct (p c) eqn:Hp; [|discriminate].
    exists (String c ""), rest, caps. simpl. rewrite Nat.add_1_r.
    split; [now exists c | auto].
  - apply IH1 in H as (pre1 & rest1 & caps1 & H1 & -> & H).
    apply IH2 in H as (pre2 & rest2 & caps2 & H2 & -> & H).
    exists (pre1 +:+ pre2), rest2, caps2.
    split; [now exists pre1, pre2|].
    split; [now rewrite append_assoc|].
    rewrite length_append, Nat.add_assoc. exact H.
  - destruct (Re.m r1 pos rest caps k) as [a|] eqn:E.
    + injection H as ->.
      apply IH1 in E as (pre & rest' & caps' & H1 & -> & E).
      exists pre, rest', caps'. simpl. auto.
    + apply IH2 in H as (pre & rest' & caps' & H2 & -> & H).
      exists pre, rest', caps'. simpl. auto.
  - apply (star_loop_consumes (Re.lang r1) (Re.m r1) (IH1 A)) in H.
    exact H.
  - apply IH1 in H as (pre & rest' & caps' & H1 & -> & H).
    exists pre, rest', ((n, (pos, pos + String.length pre)) :: caps'). auto.
  - destruct (pos =? 0); [|discriminate].
    exists "", rest, caps. simpl. rewrite Nat.add_0_r. auto.
  - destruct (Re.at_end rest); [|discriminate].
    exists "", rest, caps. simpl. rewrite Nat.add_0_r. auto.
Qed.

(** A match attempt at an offset consumes a word of the pattern. *)
Lemma match_at_sound (r : Re.regex) (pos : nat) (rest : string) e c :
  Re.match_at r pos rest = Some (e, c) ->
  exists pre rest',
    Re.lang r pre /\ rest = pre +:+ rest' /\ e = pos + String.length pre.
Proof.
  unfold Re.match_at. intros H.
  apply m_consumes in H as (pre & rest' & caps' & Hl & -> & H).
  injection H as <- _. now exists pre, rest'.
Qed.

Lemma search_from_sound (r : Re.regex) (skipped rest : string) f :
  Re.search_from r (String.length skipped) rest = Some f ->
  Re.lang r (Re.group0 (skipped +:+ rest) f).
Proof.
  revert skipped. induction rest as [|c rest IH]; intros skipped H; simpl in H.
  - destruct (Re.match_at r _ "") as [[e caps]|] eqn:E; [|discriminate].
    injection H as <-.
    apply match_at_sound in E as (pre & rest' & Hl & Heq & ->).
    unfold Re.group0. simpl.
    replace (String.length skipped + String.length pre - String.length skipped)
      with (String.length pre) by lia.
    rewrite substring_skip_append, Heq, substring_0_append. exact Hl.
  - destruct (Re.match_at r _ (String c rest)) as [[e caps]|] eqn:E.
    + injection H as <-.
      apply match_at_sound in E as (pre & rest' & Hl & Heq & ->).
      unfold Re.group0. simpl.
      replace (String.length skipped + String.length pre - String.length skipped)
        with (String.length pre) by lia.
      rewrite substring_skip_append, Heq, substring_0_append. exact Hl.
    + specialize (IH (skipped +:+ String c "")).
      rewrite length_append in IH. simpl in IH. rewrite Nat.add_1_r in IH.
      rewrite append_assoc in IH. simpl in IH. now apply IH.
Qed.

(** [re.search]: the text of the match is a word of the pattern. *)
Lemma search_sound (r : Re.regex) (s : string) f :
  Re.search r s = Some f -> Re.lang r (Re.group0 s f).
Proof. intros H. exact (search_from_sound r "" s f H). Qed.

(** [re.findall]: so is every text of the list. *)
Lemma findall_go_sound (r : Re.regex) (rest : string) :
  forall skip pos d, In d (Re.findall_go r skip pos rest) -> Re.lang r d.
Proof.
  induction rest as [|c rest IH]; intros skip pos d H.
  - destruct skip as [|k]; cbn [Re.findall_go] in H; [|contradiction].
    destruct (Re.match_at r pos "") as [[e caps]|] eqn:E; [|contradiction].
    destruct H as [<-|[]].
    apply match_at_sound in E as (pre & rest' & Hl & Heq & ->).
    replace (pos + String.length pre - pos) with (String.length pre) by lia.
    destruct pre as [|a pre]; [exact Hl | discriminate Heq].
  - destruct skip as [|k]; cbn [Re.findall_go] in H; [|now apply IH in H].
    destruct (Re.match_at r pos (String c rest)) as [[e caps]|] eqn:E;
      [|now apply IH in H].
    destruct H as [<-|H]; [|now apply IH in H].
    apply match_at_sound in E as (pre & rest' & Hl & Heq & ->).
    replace (pos + String.length pre - pos) with (String.length pre) by lia.
    rewrite Heq, substring_0_append. exact Hl.
Qed.

Lemma findall_sound (r : Re.regex) (s d : string) :
  In d (Re.findall r s) -> Re.lang r d.
Proof. apply findall_go_sound. Qed.

(** ** Words of the patterns of the extractor *)

Ltac open_lang H :=
  simpl in H;
  repeat match goal with
         | X : exists _, _ |- _ => destruct X as [? X]
         | X : _ /\ _ |- _ => destruct X as [? X]
         end;
  subst.

(** A date-shaped token is ten characters long. *)
Lemma date_word_length (d : string) :
  Re.lang TradingDataExtractor.date_pattern d -> String.length d = 10.
Proof. intros H. open_lang H. reflexivity. Qed.

Lemma star_class_all (p : ascii -> bool) (s : string) :
  Re.star_lang (Re.lang (Re.Chr p)) s -> Py.all_char p s = true.
Proof.
  induction 1 as [|s1 s2 (c & -> & Hc) _ IH]; [reflexivity|].
  simpl. now rewrite Hc, IH.
Qed.

(** A currency-amount token is a dollar sign followed by at least one digit
    or comma. *)
Lemma amount_word_shape (tok : string) :
  Re.lang TradingDataExtractor.amount_pattern tok ->
  exists c body,
    tok = String "$" (String c body) /\
    Py.all_char TradingDataExtractor.amount_char (String c body) = true.
Proof.
  intros (s1 & s2 & -> & (d & -> & Hd) & (s3 & s4 & -> & (c & -> & Hc) & Hs)).
  apply Ascii.eqb_eq in Hd as <-.
  apply star_class_all in Hs.
  exists c, s4. simpl. now rewrite Hc, Hs.
Qed.

Lemma replace_dollar_id (s : string) :
  Py.all_char TradingDataExtractor.amount_char s = true ->
  Py.replace_go "$" "" 0 s = s.
Proof.
  induction s as [|c s IH]; intros H; [reflexivity|].
  simpl in H. apply andb_true_iff in H as [Hc Hs].
  cbn [Py.replace_go String.prefix].
  destruct (ascii_dec "$" c) as [<-|_]; [discriminate Hc|].
  now rewrite IH.
Qed.

Lemma replace_comma_digits (s : string) :
  Py.all_char TradingDataExtractor.amount_char s = true ->
  Py.all_char Py.isdecimal (Py.replace_go "," "" 0 s) = true.
Proof.
  induction s as [|c s IH]; intros H; [reflexivity|].
  simpl in H. apply andb_true_iff in H as [Hc Hs].
  cbn [Py.replace_go String.prefix].
  destruct (ascii_dec "," c) as [<-|Hne].
  - destruct s; simpl; now apply IH.
  - cbn [Py.all_char]. rewrite (IH Hs), andb_true_r.
    unfold TradingDataExtractor.amount_char in Hc.
    apply orb_true_iff in Hc as [Hc|Hc]; [exact Hc|].
    apply Ascii.eqb_eq in Hc. now subst c.
Qed.

(** What [int] is given: decimal digits only. *)
Lemma raw_amount_digits (line : string) (f : Re.found) :
  Re.search TradingDataExtractor.amount_pattern line = Some f ->
  Py.all_char Py.isdecimal
    (Py.replace "," "" (Py.replace "$" "" (Re.group0 line f))) = true.
Proof.
  intros H. apply search_sound, amount_word_shape in H as (c & body & -> & Hb).
  change (Py.replace "$" "" (String "$" (String c body)))
    with (Py.replace_go "$" "" 0 (String c body)).
  rewrite (replace_dollar_id _ Hb).
  exact (replace_comma_digits _ Hb).
Qed.

Lemma digits_value_nonneg (s : string) :
  forall acc v, (0 <= acc)%Z ->
    TradingDataExtractor.digits_value acc s = Some v -> (0 <= v)%Z.
Proof.
  induction s as [|c s IH]; intros acc v Hacc H; simpl in H.
  - now injection H as <-.
  - destruct (Py.isdecimal c); [|discriminate].
    apply IH in H; [exact H | lia].
Qed.

Lemma digits_value_total (s : string) :
  Py.all_char Py.isdecimal s = true ->
  forall acc, exists v, TradingDataExtractor.digits_value acc s = Some v.
Proof.
  induction s as [|c s IH]; intros H acc; simpl.
  - now exists acc.
  - simpl in H. apply andb_true_iff in H as [-> Hs]. now apply IH.
Qed.

Lemma int_of_str_nonneg (s : string) (v : Z) :
  TradingDataExtractor.int_of_str s = Some v -> (0 <= v)%Z.
Proof.
  unfold TradingDataExtractor.int_of_str. destruct s as [|c s]; [discriminate|].
  destruct (_ <? _); [discriminate|].
  apply digits_value_nonneg. lia.
Qed.

(** On digits, [int] fails for the empty text and for an overlong one
    only. *)
Lemma int_of_str_digits (s : string) :
  Py.all_char Py.isdecimal s = true ->
  TradingDataExtractor.int_of_str s = None <->
  s = "" \/ TradingDataExtractor.int_max_str_digits < String.length s.
Proof.
  intros Hs. unfold TradingDataExtractor.int_of_str.
  destruct s as [|c s]; [intuition|].
  destruct (Nat.ltb_spec TradingDataExtractor.int_max_str_digits
              (String.length (String c s))) as [Hlt|Hge].
  - intuition.
  - destruct (digits_value_total _ Hs 0%Z) as [v ->].
    split; [discriminate | intros [?|?]; [discriminate | lia]].
Qed.

(** Below one thousand, the grouped format has no comma. *)
Lemma format_thousands_small (v : Z) :
  (0 <= v < 1000)%Z -> TradingDataExtractor.format_thousands v = Py.str_int v.
Proof.
  intros Hv.
  assert (Hall : List.forallb
            (fun n => String.eqb
                        (TradingDataExtractor.format_thousands (Z.of_nat n))
                        (Py.str_int (Z.of_nat n)))
            (List.seq 0 1000) = true) by (vm_compute; reflexivity).
  rewrite List.forallb_forall in Hall.
  specialize (Hall (Z.to_nat v)).
  rewrite Z2Nat.id in Hall by lia.
  apply String.eqb_eq, Hall, List.in_seq. lia.
Qed.

(** ** Amount bucketing *)

(** The labels of the table are the inclusive ranges between consecutive
    bounds. *)
Lemma AMOUNT_RANGES_labels :
  firstn 9 TradingDataExtractor.AMOUNT_RANGES
  = map (fun lb => (snd lb, Spec.range_string (fst lb + 1) (snd lb))) Spec.buckets.
Proof. vm_compute. reflexivity. Qed.

Ltac bucket lo b :=
  exists lo, b;
  split; [simpl; tauto|];
  split; [lia|];
  split; [intros b' Hb'; simpl in Hb'; intuition lia | vm_compute; reflexivity].

Lemma categorize_bucket (v : Z) :
  (1000 <= v <= 50000000)%Z ->
  exists lo b,
    In (lo, b) Spec.buckets /\ (v <= b)%Z /\
    (forall b', In b' Spec.BUCKET_BOUNDS -> (v <= b')%Z -> (b <= b')%Z) /\
    TradingDataExtractor.categorize v = Spec.range_string (lo + 1) b.
Proof.
  intros Hv. unfold TradingDataExtractor.categorize.
  destruct (Z.ltb_spec v 1000); [lia|].
  unfold TradingDataExtractor.AMOUNT_RANGES.
  cbn [TradingDataExtractor.first_range].
  repeat match goal with
         | |- context [(v <=? ?n)%Z] => destruct (Z.leb_spec v n)
         end; try lia.
  - bucket 1000%Z 15000%Z.
  - bucket 15000%Z 50000%Z.
  - bucket 50000%Z 100000%Z.
  - bucket 100000%Z 250000%Z.
  - bucket 250000%Z 500000%Z.
  - bucket 500000%Z 1000000%Z.
  - bucket 1000000%Z 5000000%Z.
  - bucket 5000000%Z 25000000%Z.
  - bucket 25000000%Z 50000000%Z.
Qed.

Lemma categorize_over (v : Z) :
  (50000000 < v)%Z -> TradingDataExtractor.categorize v = Spec.OVER_MAXIMUM.
Proof.
  intros Hv. unfold TradingDataExtractor.categorize.
  destruct (Z.ltb_spec v 1000); [lia|].
  unfold TradingDataExtractor.AMOUNT_RANGES.
  cbn [TradingDataExtractor.first_range].
  repeat match goal with
         | |- context [(v <=? ?n)%Z] => destruct (Z.leb_spec v n)
         end; try lia; reflexivity.
Qed.

Lemma categorize_small (v : Z) :
  (0 <= v < 1000)%Z -> TradingDataExtractor.categorize v = "$" +:+ Py.str_int v.
Proof.
  intros Hv. unfold TradingDataExtractor.categorize.
  destruct (Z.ltb_spec v 1000); [|lia].
  now rewrite format_thousands_small.
Qed.

(** C6.  On a line with a currency-amount token, let [v] be the integer
    value of the first token.  The categorizer returns the exact amount
    ["$v"] when [v < 1000]; the range string of the smallest bound at least
    [v] among 15,000 ... 50,000,000 when [1000 <= v <= 50,000,000]; the label
    ["Over $50,000,000"] when [v] exceeds every bound; and the token itself
    when its numeric text does not convert.  999, 15000, 15001 and 100000001
    give the four amounts of the specification. *)
Theorem C6_amount_bucketing :
  (forall (line : string) (f : Re.found),
     Re.search TradingDataExtractor.amount_pattern line = Some f ->
     let tok := Re.group0 line f in
     let result := TradingDataExtractor._extract_and_categorize_amount line in
     match TradingDataExtractor.int_of_str
             (Py.replace "," "" (Py.replace "$" "" tok)) with
     | None => result = tok
     | Some v =>
         ((v < 1000)%Z -> result = "$" +:+ Py.str_int v) /\
         ((1000 <= v <= 50000000)%Z ->
          exists lo b,
            In (lo, b) Spec.buckets /\ (v <= b)%Z /\
            (forall b', In b' Spec.BUCKET_BOUNDS -> (v <= b')%Z -> (b <= b')%Z) /\
            result = Spec.range_string (lo + 1) b) /\
         ((50000000 < v)%Z -> result = Spec.OVER_MAXIMUM)
     end) /\
  TradingDataExtractor._extract_and_categorize_amount "$999" = "$999" /\
  TradingDataExtractor._extract_and_categorize_amount "$15000"
    = "$1,001 - $15,000" /\
  TradingDataExtractor._extract_and_categorize_amount "$15001"
    = "$15,001 - $50,000" /\
  TradingDataExtractor._extract_and_categorize_amount "$100000001"
    = "Over $50,000,000".
Proof.
  split; [|repeat split; vm_compute; reflexivity].
  intros line f H tok result. subst tok result.
  unfold TradingDataExtractor._extract_and_categorize_amount. rewrite H.
  destruct (TradingDataExtractor.int_of_str _) as [v|] eqn:E; [|reflexivity].
  pose proof (int_of_str_nonneg _ _ E) as Hv.
  split; [|split].
  - intros Hlt. apply categorize_small. lia.
  - apply categorize_bucket.
  - apply categorize_over.
Qed.

Lemma C6_amount_bucketing_witness :
  Re.search TradingDataExtractor.amount_pattern
    "AAPL Inc (AAPL) P 01/02/2024 01/05/2024 $15,001 - $50,000"
    = Some (Re.Found 40 47 []) /\
  exists lo b,
    In (lo, b) Spec.buckets /\ (15001 <= b)%Z /\
    (forall b', In b' Spec.BUCKET_BOUNDS -> (15001 <= b')%Z -> (b <= b')%Z) /\
    TradingDataExtractor._extract_and_categorize_amount
      "AAPL Inc (AAPL) P 01/02/2024 01/05/2024 $15,001 - $50,000"
    = Spec.range_string (lo + 1) b.
Proof.
  split; [vm_compute; reflexivity|].
  refine (proj1 (proj2 (proj1 C6_amount_bucketing
            "AAPL Inc (AAPL) P 01/02/2024 01/05/2024 $15,001 - $50,000"
            (Re.Found 40 47 []) _)) _).
  - vm_compute; reflexivity.
  - split; vm_compute; discriminate.
Defined.

(** ** Transaction kind *)

(** C8, as stated, fails: on a candidate line that holds both markers the
    kind is "Purchase", although a sale marker is present. *)
Lemma C8_counterexample :
  TradingDataExtractor._is_transaction_line Spec.sp_global_sale = true /\
  Py.contains " S " Spec.sp_global_sale = true /\
  TradingDataExtractor._get_transaction_type Spec.sp_global_sale = "Purchase" /\
  ~ Spec.kind_as_claimed Spec.sp_global_sale.
Proof.
  repeat split; try (vm_compute; reflexivity).
  intros H. destruct (H eq_refl) as (_ & Hsale & _).
  specialize (Hsale eq_refl). vm_compute in Hsale. discriminate Hsale.
Qed.

(** C8, amended.  The kind is "Purchase" when a space-delimited purchase
    marker is present; "Sale" when a space-delimited sale marker is present
    and no purchase marker is; "Unknown" only when neither is present (and
    then always).
    This holds for every line, candidate or not. *)
Theorem C8_transaction_kind (line : string) :
  (Py.contains " P " line = true ->
   TradingDataExtractor._get_transaction_type line = "Purchase") /\
  (Py.contains " P " line = false -> Py.contains " S " line = true ->
   TradingDataExtractor._get_transaction_type line = "Sale") /\
  (TradingDataExtractor._get_transaction_type line = "Unknown" <->
   Py.contains " P " line = false /\ Py.contains " S " line = false).
Proof.
  unfold TradingDataExtractor._get_transaction_type.
  destruct (Py.contains " P " line), (Py.contains " S " line);
    repeat split; intros; try reflexivity; try discriminate;
    intuition discriminate.
Qed.

Lemma C8_transaction_kind_witness :
  Py.contains " P " "AAPL Inc (AAPL) [ST] S 01/02/2024 01/05/2024 $15,000" = false /\
  Py.contains " S " "AAPL Inc (AAPL) [ST] S 01/02/2024 01/05/2024 $15,000" = true /\
  TradingDataExtractor._get_transaction_type
    "AAPL Inc (AAPL) [ST] S 01/02/2024 01/05/2024 $15,000" = "Sale".
Proof.
  split; [reflexivity|]. split; [reflexivity|].
  apply (proj1 (proj2 (C8_transaction_kind
           "AAPL Inc (AAPL) [ST] S 01/02/2024 01/05/2024 $15,000")));
    reflexivity.
Defined.

(** ** Permanence classification *)

(** C9.  The classifier answers "permanent" exactly when the lowercased
    message contains one of the fixed keywords; a message containing
    "file not found" is permanent; "timeout", which is no keyword, is
    transient. *)
Theorem C9_permanence_classifier :
  (forall msg : string,
     DailyRun._is_permanent_error msg = true <->
     exists p, In p DailyRun.permanent_patterns /\
               Py.contains p (Py.lower msg) = true) /\
  (forall msg : string,
     Py.contains "file not found" msg = true ->
     DailyRun._is_permanent_error msg = true) /\
  DailyRun._is_permanent_error "timeout" = false /\
  ~ In "timeout" DailyRun.permanent_patterns.
Proof.
  split; [|split; [|split]].
  - intros msg. unfold DailyRun._is_permanent_error.
    apply List.existsb_exists.
  - intros msg H. unfold DailyRun._is_permanent_error.
    apply List.existsb_exists. exists "file not found". split.
    + simpl. tauto.
    + exact (contains_lower "file not found" msg H).
  - vm_compute. reflexivity.
  - simpl. intros H.
    repeat (destruct H as [H|H]; [discriminate H|]). exact H.
Qed.

Lemma C9_permanence_classifier_witness :
  Py.contains "file not found" "pdfplumber: file not found (ptr 20012345)" = true /\
  DailyRun._is_permanent_error "pdfplumber: file not found (ptr 20012345)" = true.
Proof.
  split; [reflexivity|].
  apply (proj1 (proj2 C9_permanence_classifier)). reflexivity.
Defined.

(** ** Parsing a candidate line *)

Lemma truthy_iff (s : string) : Py.truthy s = true <-> s <> "".
Proof. destruct s; simpl; split; intros H; congruence. Qed.

Lemma scan_ticker_found (context_lines : list string) :
  forall i tk idx,
    TradingDataExtractor.scan_ticker context_lines i = Some (tk, idx) ->
    exists l f, In l context_lines /\
                Re.search TradingDataExtractor.ticker_pattern l = Some f.
Proof.
  induction context_lines as [|l more IH]; intros i tk idx H; simpl in H.
  - discriminate.
  - destruct (Re.search TradingDataExtractor.ticker_pattern l) as [f|] eqn:E.
    + exists l, f. simpl. auto.
    + apply IH in H as (l' & f' & Hin & Hs). exists l', f'. simpl. auto.
Qed.

Lemma asset_name_needs_ticker (line : string) (context_lines : list string) :
  snd (TradingDataExtractor._extract_asset_info line context_lines) <> "" ->
  exists l f, In l context_lines /\
              Re.search TradingDataExtractor.ticker_pattern l = Some f.
Proof.
  unfold TradingDataExtractor._extract_asset_info.
  destruct (TradingDataExtractor.scan_ticker context_lines 0)
    as [[tk idx]|] eqn:E; [|simpl; congruence].
  intros _. exact (scan_ticker_found _ _ _ _ E).
Qed.

(** C7.  Parsing a candidate line with its context window yields a record
    if and only if a parenthesized ticker token (capital letters, digits and
    dots) is found in some window line, the resulting asset name is not
    empty, the candidate line holds at least two date-shaped tokens, and an
    amount string was produced; otherwise it yields nothing. *)
Theorem C7_record_iff_accepted (line : string) (context_lines : list string) :
  ((exists t, TradingDataExtractor._parse_transaction_line line context_lines
              = Some t)
   <-> Spec.accepted line context_lines) /\
  (TradingDataExtractor._parse_transaction_line line context_lines = None
   <-> ~ Spec.accepted line context_lines).
Proof.
  assert (Hdec :
    (Spec.accepted line context_lines /\
     exists t, TradingDataExtractor._parse_transaction_line line context_lines
               = Some t) \/
    (~ Spec.accepted line context_lines /\
     TradingDataExtractor._parse_transaction_line line context_lines = None)).
  { unfold Spec.accepted, TradingDataExtractor._parse_transaction_line.
    destruct (TradingDataExtractor._extract_owner_code line) as [oc lw].
    pose proof (asset_name_needs_ticker line context_lines) as Htk.
    destruct (TradingDataExtractor._extract_asset_info line context_lines)
      as [tk an]. simpl snd in *.
    destruct (Py.truthy an) eqn:Han; simpl.
    2:{ right. split; [|reflexivity].
        intros (_ & Hne & _). apply truthy_iff in Hne. congruence. }
    destruct (Nat.ltb_spec
                (List.length (TradingDataExtractor._extract_dates line)) 2)
      as [Hd|Hd]; simpl.
    { right. split; [|reflexivity]. intros (_ & _ & Hlen & _). lia. }
    destruct (Py.truthy (TradingDataExtractor._extract_and_categorize_amount line))
      eqn:Ham; simpl.
    2:{ right. split; [|reflexivity].
        intros (_ & _ & _ & Hne). apply truthy_iff in Hne. congruence. }
    left. apply truthy_iff in Han, Ham.
    split; [|eexists; reflexivity].
    split; [now apply Htk|]. auto. }
  destruct Hdec as [[Hacc [t Ht]]|[Hnacc Hnone]].
  - split; split; intros H.
    + exact Hacc.
    + now exists t.
    + congruence.
    + contradiction.
  - split; split; intros H.
    + destruct H as [t Ht]. congruence.
    + contradiction.
    + exact Hnacc.
    + exact Hnone.
Qed.

Lemma C7_record_iff_accepted_witness :
  Spec.accepted "AAPL Inc (AAPL) [ST] P 01/02/2024 01/05/2024 $15,000"
    ["AAPL Inc (AAPL) [ST] P 01/02/2024 01/05/2024 $15,000"] /\
  exists t,
    TradingDataExtractor._parse_transaction_line
      "AAPL Inc (AAPL) [ST] P 01/02/2024 01/05/2024 $15,000"
      ["AAPL Inc (AAPL) [ST] P 01/02/2024 01/05/2024 $15,000"] = Some t.
Proof.
  assert (Hacc : Spec.accepted
            "AAPL Inc (AAPL) [ST] P 01/02/2024 01/05/2024 $15,000"
            ["AAPL Inc (AAPL) [ST] P 01/02/2024 01/05/2024 $15,000"]).
  { split; [|split; [|split]].
    - eexists _, _. split; [left; reflexivity | vm_compute; reflexivity].
    - vm_compute. discriminate.
    - vm_compute. lia.
    - vm_compute. discriminate. }
  split; [exact Hacc|].
  exact (proj2 (proj1 (C7_record_iff_accepted _ _)) Hacc).
Defined.

(** ** The records the engine emits *)

Lemma dict_get_owner (code : string) :
  In (TradingDataExtractor.dict_get TradingDataExtractor.OWNER_CODES code "Self")
     ["Self"; "Spouse"; "Dependent Child"; "Joint"].
Proof.
  unfold TradingDataExtractor.OWNER_CODES.
  cbn [TradingDataExtractor.dict_get].
  repeat match goal with
         | |- context [String.eqb ?a code] => destruct (String.eqb a code)
         end; simpl; auto 6.
Qed.

Lemma lit_word (s w : string) : Re.lang (Re.Lit s) w -> w = s.
Proof.
  revert w. induction s as [|c s IH]; intros w H; simpl in H; [exact H|].
  destruct H as (s1 & s2 & -> & (c' & -> & Hc) & H2).
  apply Ascii.eqb_eq in Hc as <-. now rewrite (IH _ H2).
Qed.

(** Without an ownership prefix, no owner code is extracted. *)
Lemma no_prefix_no_code (line : string) :
  Spec.has_owner_prefix line = false ->
  fst (TradingDataExtractor._extract_owner_code line) = "".
Proof.
  unfold TradingDataExtractor._extract_owner_code, Re.match_, Re.match_at.
  intros H.
  destruct (Re.m TradingDataExtractor.owner_pattern 0 line [] _)
    as [[e c]|] eqn:E; [|reflexivity].
  exfalso. apply m_consumes in E as (pre & rest' & caps' & Hl & -> & _).
  unfold TradingDataExtractor.owner_pattern, Re.Plus in Hl.
  cbn [Re.lang] in Hl.
  destruct Hl as (s1 & s2 & -> & -> & s3 & s4 & -> & Hcode
                  & s5 & s6 & -> & (s7 & s8 & -> & (c3 & -> & Hc3) & _) & _).
  assert (Hs3 : s3 = "SP" \/ s3 = "DC" \/ s3 = "JT").
  { destruct Hcode as [Hc|[Hc|Hc]]; apply lit_word in Hc; auto. }
  unfold Spec.has_owner_prefix in H.
  destruct Hs3 as [-> | [-> | ->]]; simpl in H; rewrite Hc3 in H; discriminate H.
Qed.

Lemma parse_record_fields (line : string) (context_lines : list string)
    (t : TradingDataExtractor.Transaction) :
  TradingDataExtractor._parse_transaction_line line context_lines = Some t ->
  let dates := TradingDataExtractor._extract_dates line in
  TradingDataExtractor.owner t
  = TradingDataExtractor.dict_get TradingDataExtractor.OWNER_CODES
      (fst (TradingDataExtractor._extract_owner_code line)) "Self" /\
  2 <= List.length dates /\
  TradingDataExtractor.transaction_date t = nth 0 dates "" /\
  TradingDataExtractor.notification_date t = nth 1 dates "".
Proof.
  unfold TradingDataExtractor._parse_transaction_line.
  destruct (TradingDataExtractor._extract_owner_code line) as [oc lw].
  destruct (TradingDataExtractor._extract_asset_info line context_lines)
    as [tk an].
  destruct (negb (Py.truthy an)); [discriminate|].
  destruct (Nat.ltb_spec
              (List.length (TradingDataExtractor._extract_dates line)) 2)
    as [Hd|Hd]; [discriminate|].
  destruct (negb (Py.truthy _)); [discriminate|].
  cbn [orb]. intros [= <-].
  cbn [TradingDataExtractor.owner TradingDataExtractor.transaction_date
       TradingDataExtractor.notification_date fst].
  destruct (Nat.ltb_spec 1
              (List.length (TradingDataExtractor._extract_dates line)));
    [auto | lia].
Qed.

Lemma candidate_parsed (lines : list string) (i : nat) (line : string)
    (t : TradingDataExtractor.Transaction) :
  In t (TradingDataExtractor.candidate lines i line) ->
  TradingDataExtractor._is_transaction_line line = true /\
  TradingDataExtractor._parse_transaction_line line
    (TradingDataExtractor._get_context_lines lines i 2) = Some t.
Proof.
  unfold TradingDataExtractor.candidate.
  destruct (TradingDataExtractor._is_transaction_line line); [|contradiction].
  destruct (TradingDataExtractor._is_stock_transaction _ _); [|contradiction].
  destruct (TradingDataExtractor._parse_transaction_line _ _) as [t'|];
    [|contradiction].
  intros [<-|[]]. auto.
Qed.

Lemma scan_lines_candidate (t : TradingDataExtractor.Transaction)
    (todo : list string) :
  forall done : list string,
    In t (TradingDataExtractor.scan_lines (done ++ todo) (List.length done) todo) ->
    exists i line,
      List.nth_error (done ++ todo) i = Some line /\
      In t (TradingDataExtractor.candidate (done ++ todo) i line).
Proof.
  induction todo as [|line more IH]; intros done H; simpl in H; [contradiction|].
  apply List.in_app_or in H as [H|H].
  - exists (List.length done), line. split; [|exact H].
    rewrite List.nth_error_app2, Nat.sub_diag by lia. reflexivity.
  - specialize (IH (done ++ [line])).
    rewrite <- List.app_assoc, List.length_app, Nat.add_1_r in IH.
    exact (IH H).
Qed.

(** The records of one page. *)
Lemma records_of_lines (lines : list string)
    (t : TradingDataExtractor.Transaction) :
  In t (TradingDataExtractor._extract_transactions_from_lines lines) ->
  exists i line,
    List.nth_error lines i = Some line /\
    TradingDataExtractor._parse_transaction_line line
      (TradingDataExtractor._get_context_lines lines i 2) = Some t /\
    In (TradingDataExtractor.owner t)
       ["Self"; "Spouse"; "Dependent Child"; "Joint"] /\
    (Spec.has_owner_prefix line = false ->
     TradingDataExtractor.owner t = "Self") /\
    2 <= List.length (TradingDataExtractor._extract_dates line) /\
    TradingDataExtractor.notification_date t <> "" /\
    List.nth_error (TradingDataExtractor._extract_dates line) 1
    = Some (TradingDataExtractor.notification_date t).
Proof.
  intros H.
  apply (scan_lines_candidate t lines []) in H as (i & line & Hnth & H).
  apply candidate_parsed in H as [_ Hparse].
  exists i, line. split; [exact Hnth|]. split; [exact Hparse|].
  apply parse_record_fields in Hparse as (Howner & Hlen & _ & Hnote).
  rewrite Howner, Hnote.
  split; [apply dict_get_owner|].
  split; [intros Hp; now rewrite (no_prefix_no_code line Hp)|].
  split; [exact Hlen|].
  split.
  - assert (Hin : In (nth 1 (TradingDataExtractor._extract_dates line) "")
                     (TradingDataExtractor._extract_dates line))
      by (apply List.nth_In; lia).
    apply findall_sound, date_word_length in Hin.
    intros Heq. rewrite Heq in Hin. discriminate Hin.
  - apply List.nth_error_nth'. lia.
Qed.

(** C10.  Every record the engine emits comes from a line of a page of the
    document; its owner is one of Self, Spouse, Dependent Child and Joint,
    and is Self when the line has no ownership prefix; the line holds at
    least two date-shaped tokens, and the notification date of the record
    is not empty and is the second of them (so the fallback to the empty
    text is never taken). *)
Theorem C10_emitted_records (pages : list (option string))
    (t : TradingDataExtractor.Transaction) :
  In t (TradingDataExtractor._extract_all_transactions pages) ->
  exists text i line,
    In (Some text) pages /\
    List.nth_error (TradingDataExtractor.split_lines text) i = Some line /\
    TradingDataExtractor._parse_transaction_line line
      (TradingDataExtractor._get_context_lines
         (TradingDataExtractor.split_lines text) i 2) = Some t /\
    In (TradingDataExtractor.owner t)
       ["Self"; "Spouse"; "Dependent Child"; "Joint"] /\
    (Spec.has_owner_prefix line = false ->
     TradingDataExtractor.owner t = "Self") /\
    2 <= List.length (TradingDataExtractor._extract_dates line) /\
    TradingDataExtractor.notification_date t <> "" /\
    List.nth_error (TradingDataExtractor._extract_dates line) 1
    = Some (TradingDataExtractor.notification_date t).
Proof.
  intros H. unfold TradingDataExtractor._extract_all_transactions in H.
  apply List.in_flat_map in H as ([text|] & Hpage & H); [|contradiction].
  destruct (Py.truthy text); [|contradiction].
  apply records_of_lines in H as (i & line & Hnth & H).
  exists text, i, line. auto.
Qed.

Lemma C10_emitted_records_witness :
  exists text i line,
    In (Some text) [None; Some Spec.example_page] /\
    List.nth_error (TradingDataExtractor.split_lines text) i = Some line /\
    TradingDataExtractor._parse_transaction_line line
      (TradingDataExtractor._get_context_lines
         (TradingDataExtractor.split_lines text) i 2)
    = Some Spec.example_record /\
    In (TradingDataExtractor.owner Spec.example_record)
       ["Self"; "Spouse"; "Dependent Child"; "Joint"] /\
    (Spec.has_owner_prefix line = false ->
     TradingDataExtractor.owner Spec.example_record = "Self") /\
    2 <= List.length (TradingDataExtractor._extract_dates line) /\
    TradingDataExtractor.notification_date Spec.example_record <> "" /\
    List.nth_error (TradingDataExtractor._extract_dates line) 1
    = Some (TradingDataExtractor.notification_date Spec.example_record).
Proof.
  apply (C10_emitted_records [None; Some Spec.example_page] Spec.example_record).
  vm_compute. left. reflexivity.
Defined.

(** ** Atomic write *)

Section AtomicWriteFacts.

Context {Data : Type} (dumps : Data -> string).

(** Without a fault the target holds the new text and no temporary file is
    left. *)
Lemma atomic_write_no_fault (tmp file_path : string) (data : Data)
    (dir : gmap string string) :
  dir !! tmp = None ->
  DataManager._atomic_write dumps tmp DataManager.NoFault file_path data dir
  = (<[file_path := dumps data]> dir, DataManager.Ok tt).
Proof.
  intros Hfresh. unfold DataManager._atomic_write, DataManager.try_block.
  now rewrite delete_insert_eq, delete_insert_eq, delete_id.
Qed.

(** A fault in creating the file, in leaving the [with] block or in
    [os.replace] leaves the directory as it was and raises the error. *)
Lemma atomic_write_cleans_up (tmp file_path : string) (data : Data)
    (dir : gmap string string) (flt : DataManager.fault) (e : DataManager.exn) :
  dir !! tmp = None ->
  flt = DataManager.CreateFails e \/ flt = DataManager.CloseFails e
  \/ flt = DataManager.ReplaceFails e ->
  DataManager._atomic_write dumps tmp flt file_path data dir
  = (dir, DataManager.Raise e).
Proof.
  intros Hfresh [-> | [-> | ->]];
    unfold DataManager._atomic_write, DataManager.try_block; [reflexivity| |].
  all: rewrite lookup_insert_eq; cbn [is_Some];
    destruct (decide (is_Some (Some (dumps data)))) as [_|Hn];
    [|exfalso; apply Hn; eauto];
    now rewrite delete_insert_eq, delete_insert_eq, delete_id.
Qed.

(** Whatever the fault, the committed target is untouched and the error
    reaches the caller. *)
Lemma atomic_write_failure_keeps_target (tmp file_path : string) (data : Data)
    (dir : gmap string string) (flt : DataManager.fault) :
  tmp <> file_path -> flt <> DataManager.NoFault ->
  let '(dir', out) := DataManager._atomic_write dumps tmp flt file_path data dir in
  dir' !! file_path = dir !! file_path /\ exists e, out = DataManager.Raise e.
Proof.
  intros Hne Hflt. unfold DataManager._atomic_write, DataManager.try_block.
  destruct flt as [|e|n e|e|e]; [contradiction| | | |].
  - eauto.
  - split; [|eauto]. now rewrite !lookup_insert_ne.
  - split; [|eauto]. destruct (decide _).
    + now rewrite lookup_delete_ne, !lookup_insert_ne.
    + now rewrite !lookup_insert_ne.
  - split; [|eauto]. destruct (decide _).
    + now rewrite lookup_delete_ne, !lookup_insert_ne.
    + now rewrite !lookup_insert_ne.
Qed.

End AtomicWriteFacts.

(** C2 fails on the code.  When [json.dump] raises, whatever the directory,
    the data and the number of characters already written, the error does
    reach the caller and the target keeps its content, but the temporary
    file stays in the directory with the partial text: [temp_path] is bound
    only after [json.dump] returns, so the handler finds nothing to
    unlink. *)
Theorem C2_dump_failure_leaves_temp {Data : Type} (dumps : Data -> string)
    (tmp file_path : string) (data : Data) (dir : gmap string string)
    (written : nat) (e : DataManager.exn) :
  let '(dir', out) :=
    DataManager._atomic_write dumps tmp (DataManager.DumpFails written e)
      file_path data dir in
  out = DataManager.Raise e /\
  dir' !! tmp = Some (Py.take written (dumps data)) /\
  (tmp <> file_path -> dir' !! file_path = dir !! file_path).
Proof.
  unfold DataManager._atomic_write, DataManager.try_block.
  split; [reflexivity|]. split.
  - apply lookup_insert_eq.
  - intros Hne. now rewrite !lookup_insert_ne.
Qed.

(** ** Loading the registry *)

(** C4 fails on the code.  A document that is not JSON raises [ValueError];
    a JSON document that is no object, or an object without ["members"],
    raises [RuntimeError] instead: the [ValueError] of the structure check is
    raised inside the [try] block, whose last handler wraps it. *)
Theorem C4_invalid_structure_raises_RuntimeError :
  DataManager.Raw.load_congress_data (Some DataManager.NotJSON)
  = DataManager.Raise
      (DataManager.ValueError "Invalid JSON format in congress data file") /\
  DataManager.Raw.load_congress_data
    (Some (DataManager.JSON (DataManager.JObj [])))
  = DataManager.Raise
      (DataManager.RuntimeError "Failed to load congress data"
         (DataManager.ValueError "Invalid congress data structure")) /\
  DataManager.is_ValueError
    (DataManager.RuntimeError "Failed to load congress data"
       (DataManager.ValueError "Invalid congress data structure")) = false /\
  (forall data : DataManager.json,
     match data with
     | DataManager.JObj fields =>
         DataManager.Raw.has_key fields "members" = false
     | _ => True
     end ->
     DataManager.Raw.load_congress_data (Some (DataManager.JSON data))
     = DataManager.Raise
         (DataManager.RuntimeError "Failed to load congress data"
            (DataManager.ValueError "Invalid congress data structure"))).
Proof.
  repeat split; try reflexivity.
  intros data H. unfold DataManager.Raw.load_congress_data.
  destruct data; try reflexivity.
  cbn [DataManager.Raw.load_body]. now rewrite H.
Qed.

(** ** The store *)

(** What the inner loop does: the first filing with the link is updated
    with the instant of the clock, which then advances; without such a
    filing nothing changes. *)
Lemma update_first_filing_spec (url : string)
    (update : DataManager.instant -> DataManager.Filing -> DataManager.Filing)
    (fs : list DataManager.Filing) (w : DataManager.World) :
  exists fs' (found : bool),
    DataManager.update_first_filing url update fs w
    = ((fs', found), if found then DataManager.tick w else w) /\
    if found then
      exists pre f0 post,
        fs = pre ++ f0 :: post /\
        fs' = pre ++ update (DataManager.clock w) f0 :: post /\
        DataManager.pdf_link f0 = url /\ Forall (DataManager.other_link url) pre
    else fs' = fs /\ Forall (DataManager.other_link url) fs.
Proof.
  induction fs as [|f more IH]; simpl.
  - exists (@nil DataManager.Filing), false. unfold DataManager.ret. auto.
  - destruct (String.eqb_spec (DataManager.pdf_link f) url) as [Heq|Hne].
    + exists (update (DataManager.clock w) f :: more), true.
      split; [reflexivity|]. exists (@nil DataManager.Filing), f, more. auto.
    + destruct IH as (fs' & found & Heq & Hspec).
      exists (f :: fs'), found. unfold DataManager.bind. rewrite Heq.
      split; [reflexivity|].
      destruct found.
      * destruct Hspec as (pre & f0 & post & -> & -> & Hl & Hpre).
        exists (f :: pre), f0, post. repeat split; auto.
      * destruct Hspec as [-> Hall]. auto.
Qed.

Lemma update_first_member_spec (url : string)
    (update : DataManager.instant -> DataManager.Filing -> DataManager.Filing)
    (ms : list (string * DataManager.Member)) (w : DataManager.World) :
  exists ms' (found : bool),
    DataManager.update_first_member url update ms w
    = ((ms', found), if found then DataManager.tick w else w) /\
    if found then
      exists pre f0 post,
        DataManager.all_filings ms = pre ++ f0 :: post /\
        DataManager.all_filings ms' = pre ++ update (DataManager.clock w) f0 :: post /\
        DataManager.pdf_link f0 = url /\ Forall (DataManager.other_link url) pre
    else ms' = ms /\ Forall (DataManager.other_link url) (DataManager.all_filings ms).
Proof.
  induction ms as [|[key md] more IH]; simpl.
  - exists (@nil (string * DataManager.Member)), false.
    unfold DataManager.ret. auto.
  - destruct (update_first_filing_spec url update (DataManager.filings md) w)
      as (fs' & found & Heq & Hspec).
    unfold DataManager.bind at 1. rewrite Heq. destruct found.
    + eexists _, true. split; [reflexivity|].
      destruct Hspec as (pre & f0 & post & Hfs & -> & Hl & Hpre).
      exists pre, f0, (post ++ DataManager.all_filings more).
      cbn [DataManager.all_filings flat_map snd DataManager.filings].
      rewrite Hfs, <- !List.app_assoc. auto.
    + destruct Hspec as [-> Hall].
      destruct IH as (ms' & found & Heq' & Hspec').
      unfold DataManager.bind. rewrite Heq'.
      exists ((key, md) :: ms'), found. split; [reflexivity|].
      destruct found.
      * destruct Hspec' as (pre & f0 & post & Hfs & Hfs' & Hl & Hpre).
        exists (DataManager.filings md ++ pre), f0, post.
        cbn [DataManager.all_filings flat_map snd].
        fold (DataManager.all_filings more). fold (DataManager.all_filings ms').
        rewrite Hfs, Hfs', <- !List.app_assoc.
        repeat split; auto. now apply Forall_app.
      * destruct Hspec' as [-> Hall'].
        split; [reflexivity|]. now apply Forall_app.
Qed.

Lemma load_trading_data_eq (w : DataManager.World) :
  DataManager.load_trading_data w = (DataManager.ledger_of w, w).
Proof.
  unfold DataManager.ledger_of, DataManager.load_trading_data.
  now destruct (DataManager.trading_file w).
Qed.

Lemma load_congress_data_eq (w : DataManager.World) :
  DataManager.load_congress_data w = (DataManager.registry_of w, w).
Proof.
  unfold DataManager.registry_of, DataManager.load_congress_data.
  now destruct (DataManager.congress_file w).
Qed.

(** The effect of [mark_filing_processed] on what the loaders read
    afterwards. *)
Lemma mark_filing_processed_effect (url : string)
    (result : option DataManager.Result) (w : DataManager.World) :
  let w' := DataManager.run (DataManager.mark_filing_processed url result) w in
  exists ms' (found : bool),
    DataManager.update_first_member url (DataManager.set_processed result)
      (DataManager.members (DataManager.registry_of w)) w
    = ((ms', found), if found then DataManager.tick w else w) /\
    (if found then
       exists pre f0 post,
         DataManager.all_filings (DataManager.members (DataManager.registry_of w))
         = pre ++ f0 :: post /\
         DataManager.all_filings ms'
         = pre ++ DataManager.set_processed result (DataManager.clock w) f0 :: post /\
         DataManager.pdf_link f0 = url /\ Forall (DataManager.other_link url) pre
     else ms' = DataManager.members (DataManager.registry_of w) /\
          Forall (DataManager.other_link url)
            (DataManager.all_filings
               (DataManager.members (DataManager.registry_of w)))) /\
    DataManager.members (DataManager.registry_of w') = ms' /\
    DataManager.pending_processing (DataManager.ledger_of w')
    = DataManager.remove_pending url
        (DataManager.pending_processing (DataManager.ledger_of w)) /\
    DataManager.processed_filings (DataManager.ledger_of w')
    = match result with
      | Some r =>
          <[DataManager.filing_no_of url := DataManager.ResultRecord r]>
            (DataManager.processed_filings (DataManager.ledger_of w))
      | None => DataManager.processed_filings (DataManager.ledger_of w)
      end.
Proof.
  intros w'. subst w'.
  destruct (update_first_member_spec url (DataManager.set_processed result)
              (DataManager.members (DataManager.registry_of w)) w)
    as (ms' & found & Heq & Hspec).
  exists ms', found. split; [exact Heq|].
  split; [exact Hspec|].
  unfold DataManager.run, DataManager.mark_filing_processed, DataManager.bind.
  rewrite load_trading_data_eq, load_congress_data_eq, Heq.
  destruct found.
  - repeat split; destruct result; reflexivity.
  - destruct Hspec as [-> _].
    repeat split; try (destruct result; reflexivity).
    unfold DataManager.registry_of, DataManager.load_congress_data.
    cbn. now destruct (DataManager.congress_file w).
Qed.

Lemma identify_pending_filings_eq (w : DataManager.World) :
  fst (FilingStatusManager.identify_pending_filings w)
  = flat_map (fun km => FilingStatusManager.pending_of_member (fst km) (snd km))
      (DataManager.members (DataManager.registry_of w)).
Proof.
  unfold FilingStatusManager.identify_pending_filings, DataManager.bind.
  now rewrite load_congress_data_eq.
Qed.

(** An element of the list of pending filings describes a filing of the
    registry that needs processing. *)
Lemma identified_filing (ms : list (string * DataManager.Member))
    (info : FilingStatusManager.FilingInfo) :
  In info (flat_map (fun km => FilingStatusManager.pending_of_member (fst km) (snd km)) ms) ->
  exists filing,
    In filing (DataManager.all_filings ms) /\
    FilingStatusManager.needs_processing filing = true /\
    FilingStatusManager.info_pdf_url info = DataManager.pdf_link filing /\
    FilingStatusManager.info_pdf_id info = DataManager.pdf_id filing.
Proof.
  intros H. apply List.in_flat_map in H as ([key md] & Hkm & H).
  unfold FilingStatusManager.pending_of_member in H.
  apply List.in_map_iff in H as (filing & <- & H).
  apply List.filter_In in H as [Hin Hneeds].
  exists filing. repeat split; auto.
  unfold DataManager.all_filings. apply List.in_flat_map.
  exists (key, md). auto.
Qed.

Lemma remove_pending_spec (url : string) (queue : list DataManager.PendingEntry)
    (e : DataManager.PendingEntry) :
  In e (DataManager.remove_pending url queue) <->
  In e queue /\ DataManager.pdf_url e <> url.
Proof.
  unfold DataManager.remove_pending. rewrite List.filter_In.
  destruct (String.eqb_spec (DataManager.pdf_url e) url); simpl; intuition congruence.
Qed.

(** With unique links, the filings around the one with the link have other
    links. *)
Lemma unique_link_elsewhere (url : string)
    (pre post : list DataManager.Filing) (f0 : DataManager.Filing) :
  List.NoDup (map DataManager.pdf_link (pre ++ f0 :: post)) ->
  DataManager.pdf_link f0 = url ->
  Forall (DataManager.other_link url) pre /\ Forall (DataManager.other_link url) post.
Proof.
  intros Hnd Hl. rewrite List.map_app in Hnd. simpl in Hnd.
  apply List.NoDup_remove_2 in Hnd.
  split; apply List.Forall_forall; intros f Hf Heq; apply Hnd;
    rewrite Hl, <- Heq; apply List.in_or_app;
    [left | right]; now apply List.in_map.
Qed.

(** Where a link occurs once, the filings around the one that has it have
    other links. *)
Lemma single_link_elsewhere (url : string)
    (pre post : list DataManager.Filing) (f0 : DataManager.Filing) :
  List.length
    (List.filter (fun f => String.eqb (DataManager.pdf_link f) url)
       (pre ++ f0 :: post)) = 1 ->
  DataManager.pdf_link f0 = url ->
  Forall (DataManager.other_link url) pre /\
  Forall (DataManager.other_link url) post.
Proof.
  intros Hone Hl. rewrite List.filter_app, List.length_app in Hone.
  cbn [List.filter] in Hone.
  rewrite (proj2 (String.eqb_eq _ _) Hl) in Hone. cbn [List.length] in Hone.
  assert (Hnone : forall l : list DataManager.Filing,
            List.length
              (List.filter (fun f => String.eqb (DataManager.pdf_link f) url) l)
            = 0 ->
            Forall (DataManager.other_link url) l).
  { intros l Hlen. apply List.Forall_forall. intros f Hf Heq.
    assert (Hin : In f (List.filter
                          (fun f => String.eqb (DataManager.pdf_link f) url) l))
      by (apply List.filter_In; split; [exact Hf | now apply String.eqb_eq]).
    destruct (List.filter _ l); [destruct Hin | discriminate Hlen]. }
  split; apply Hnone; lia.
Qed.

(** In a registry whose links are unique (the invariant of the data model)
    the link of a filing occurs once. *)
Lemma unique_links_single (r : DataManager.Registry) (f : DataManager.Filing) :
  Spec.unique_links r ->
  In f (DataManager.all_filings (DataManager.members r)) ->
  Spec.link_occurrences (DataManager.pdf_link f) r = 1.
Proof.
  unfold Spec.unique_links, Spec.link_occurrences.
  induction (DataManager.all_filings (DataManager.members r)) as [|x l IH];
    intros Hnd Hin; [destruct Hin|].
  cbn [map] in Hnd. apply List.NoDup_cons_iff in Hnd as [Hx Hnd].
  cbn [List.filter].
  destruct (String.eqb_spec (DataManager.pdf_link x) (DataManager.pdf_link f))
    as [Heq|Hne].
  - cbn [List.length]. f_equal.
    destruct (List.filter _ l) as [|y more] eqn:Hfl; [reflexivity|].
    exfalso. apply Hx.
    assert (Hy : In y (List.filter
                         (fun f0 => String.eqb (DataManager.pdf_link f0)
                                      (DataManager.pdf_link f)) l))
      by (rewrite Hfl; now left).
    apply List.filter_In in Hy as [Hy Hl]. apply String.eqb_eq in Hl.
    rewrite Heq, <- Hl. now apply List.in_map.
  - destruct Hin as [->|Hin]; [now contradiction Hne|]. now apply IH.
Qed.

(** C1, as stated, fails.  A first scrape that lists one document twice
    leaves two filings with the link L (the scraper compares the rows with
    the stored links, not with each other), both pending, and one queue
    entry for L.  [mark_filing_processed(L, result)] stops at the first
    filing with the link: the second one is in the registry afterwards as
    it was, pending, and [identify_pending_filings()] still lists it. *)
Lemma C1_counterexample :
  let w := Notions.repeated_world in
  let f := FilingScraper.filing_data_of Notions.second_row in
  let w' := DataManager.run
              (DataManager.mark_filing_processed Spec.example_link
                 (Some Spec.example_result)) w in
  In f (DataManager.all_filings (DataManager.members (DataManager.registry_of w))) /\
  DataManager.pdf_link f = Spec.example_link /\
  DataManager.processing_status f = Some "pending" /\
  (exists e,
     In e (DataManager.pending_processing (DataManager.ledger_of w)) /\
     DataManager.pdf_url e = Spec.example_link) /\
  Spec.link_occurrences Spec.example_link (DataManager.registry_of w) = 2 /\
  In f (DataManager.all_filings (DataManager.members (DataManager.registry_of w'))) /\
  (exists info,
     In info (fst (FilingStatusManager.identify_pending_filings w')) /\
     FilingStatusManager.info_pdf_url info = Spec.example_link /\
     FilingStatusManager.info_pdf_id info = DataManager.pdf_id f).
Proof.
  cbv zeta. split; [vm_compute; right; left; reflexivity|].
  split; [reflexivity|]. split; [reflexivity|].
  split; [eexists; split; [vm_compute; left; reflexivity | reflexivity]|].
  split; [vm_compute; reflexivity|].
  split; [vm_compute; right; left; reflexivity|].
  eexists. split; [vm_compute; left; reflexivity|]. split; reflexivity.
Qed.

(** C1, amended.  Let L be the source link of exactly one Filing of the
    registry.  After [mark_filing_processed(L, result)] the Filing is still
    in the registry and its processing status is "processed", no entry with
    link L remains in the pending queue of the ledger, and the list returned
    by [identify_pending_filings()] has no element for L.  This holds
    whatever the earlier status of the Filing and the content of the queue;
    the links of the other filings need not be unique. *)
Theorem C1_processed_filing_leaves_pending (w : DataManager.World)
    (url : string) (result : option DataManager.Result)
    (f : DataManager.Filing) :
  In f (DataManager.all_filings (DataManager.members (DataManager.registry_of w))) ->
  DataManager.pdf_link f = url ->
  Spec.link_occurrences url (DataManager.registry_of w) = 1 ->
  let w' := DataManager.run (DataManager.mark_filing_processed url result) w in
  (exists f',
     In f' (DataManager.all_filings
              (DataManager.members (DataManager.registry_of w'))) /\
     DataManager.pdf_link f' = url /\
     DataManager.pdf_id f' = DataManager.pdf_id f) /\
  (forall f',
     In f' (DataManager.all_filings
              (DataManager.members (DataManager.registry_of w'))) ->
     DataManager.pdf_link f' = url ->
     DataManager.processing_status f' = Some "processed") /\
  (forall e,
     In e (DataManager.pending_processing (DataManager.ledger_of w')) ->
     DataManager.pdf_url e <> url) /\
  (forall info,
     In info (fst (FilingStatusManager.identify_pending_filings w')) ->
     FilingStatusManager.info_pdf_url info <> url).
Proof.
  intros Hin Hlink Hone w'.
  destruct (mark_filing_processed_effect url result w)
    as (ms' & found & _ & Hspec & Hms & Hqueue & _).
  fold w' in Hms, Hqueue. rewrite Hms, Hqueue.
  destruct found.
  2:{ exfalso. destruct Hspec as [_ Hspec].
      rewrite List.Forall_forall in Hspec. exact (Hspec f Hin Hlink). }
  destruct Hspec as (pre & f0 & post & Hfs & Hfs' & Hl0 & Hpre).
  unfold Spec.link_occurrences in Hone. rewrite Hfs in Hone.
  destruct (single_link_elsewhere url pre post f0 Hone Hl0) as [_ Hpost].
  rewrite List.Forall_forall in Hpre, Hpost.
  assert (Hf0 : f = f0).
  { rewrite Hfs in Hin. apply List.in_app_or in Hin as [Hin|[Hin|Hin]].
    - exfalso. exact (Hpre f Hin Hlink).
    - now symmetry.
    - exfalso. exact (Hpost f Hin Hlink). }
  subst f0.
  assert (Hstatus : forall f',
            In f' (DataManager.all_filings ms') ->
            DataManager.pdf_link f' = url ->
            DataManager.processing_status f' = Some "processed").
  { intros f' Hin' Hl'. rewrite Hfs' in Hin'.
    apply List.in_app_or in Hin' as [Hin'|[Hin'|Hin']].
    - exfalso. exact (Hpre f' Hin' Hl').
    - now subst f'.
    - exfalso. exact (Hpost f' Hin' Hl'). }
  split; [|split; [exact Hstatus|split]].
  - exists (DataManager.set_processed result (DataManager.clock w) f).
    rewrite Hfs'. split; [|split; [exact Hlink | reflexivity]].
    apply List.in_or_app. right. now left.
  - intros e He. now apply remove_pending_spec in He.
  - intros info Hinfo Hurl.
    rewrite identify_pending_filings_eq, Hms in Hinfo.
    apply identified_filing in Hinfo as (filing & Hfin & Hneeds & Hpu & _).
    rewrite Hpu in Hurl. specialize (Hstatus filing Hfin Hurl).
    unfold FilingStatusManager.needs_processing in Hneeds.
    rewrite Hstatus in Hneeds. discriminate Hneeds.
Qed.

Lemma C1_processed_filing_leaves_pending_witness :
  In Spec.example_filing
     (DataManager.all_filings
        (DataManager.members (DataManager.registry_of Spec.example_world))) /\
  Spec.link_occurrences Spec.example_link
    (DataManager.registry_of Spec.example_world) = 1 /\
  let w' := DataManager.run
              (DataManager.mark_filing_processed Spec.example_link
                 (Some Spec.example_result)) Spec.example_world in
  (exists f',
     In f' (DataManager.all_filings
              (DataManager.members (DataManager.registry_of w'))) /\
     DataManager.pdf_link f' = Spec.example_link /\
     DataManager.pdf_id f' = DataManager.pdf_id Spec.example_filing) /\
  (forall f',
     In f' (DataManager.all_filings
              (DataManager.members (DataManager.registry_of w'))) ->
     DataManager.pdf_link f' = Spec.example_link ->
     DataManager.processing_status f' = Some "processed") /\
  (forall e,
     In e (DataManager.pending_processing (DataManager.ledger_of w')) ->
     DataManager.pdf_url e <> Spec.example_link) /\
  (forall info,
     In info (fst (FilingStatusManager.identify_pending_filings w')) ->
     FilingStatusManager.info_pdf_url info <> Spec.example_link).
Proof.
  assert (Hin : In Spec.example_filing
                  (DataManager.all_filings
                     (DataManager.members
                        (DataManager.registry_of Spec.example_world))))
    by (simpl; right; left; reflexivity).
  assert (Hone : Spec.link_occurrences Spec.example_link
                   (DataManager.registry_of Spec.example_world) = 1)
    by (vm_compute; reflexivity).
  split; [exact Hin|]. split; [exact Hone|].
  exact (C1_processed_filing_leaves_pending Spec.example_world
           Spec.example_link (Some Spec.example_result) Spec.example_filing
           Hin eq_refl Hone).
Defined.

(** The invariant is kept: marking a filing processed changes no link. *)
Lemma mark_filing_processed_keeps_links (url : string)
    (result : option DataManager.Result) (w : DataManager.World) :
  let w' := DataManager.run (DataManager.mark_filing_processed url result) w in
  map DataManager.pdf_link
    (DataManager.all_filings (DataManager.members (DataManager.registry_of w')))
  = map DataManager.pdf_link
      (DataManager.all_filings (DataManager.members (DataManager.registry_of w))).
Proof.
  intros w'.
  destruct (mark_filing_processed_effect url result w)
    as (ms' & found & _ & Hspec & Hms & _).
  fold w' in Hms. rewrite Hms. destruct found.
  - destruct Hspec as (pre & f0 & post & -> & -> & _).
    now rewrite !List.map_app.
  - now destruct Hspec as [-> _].
Qed.

Lemma mark_filing_processed_keeps_unique_links (url : string)
    (result : option DataManager.Result) (w : DataManager.World) :
  Spec.unique_links (DataManager.registry_of w) ->
  Spec.unique_links
    (DataManager.registry_of
       (DataManager.run (DataManager.mark_filing_processed url result) w)).
Proof.
  unfold Spec.unique_links.
  now rewrite (mark_filing_processed_keeps_links url result w).
Qed.

(** The effect of [mark_filing_error] on what the loaders read afterwards
    and on the console. *)
Lemma mark_filing_error_permanent_effect (url msg : string)
    (w : DataManager.World) :
  let w' := DataManager.run (DataManager.mark_filing_error url msg true) w in
  DataManager.pending_processing (DataManager.ledger_of w')
  = DataManager.remove_pending url
      (DataManager.pending_processing (DataManager.ledger_of w)) /\
  DataManager.processed_filings (DataManager.ledger_of w')
  = <[url := DataManager.ErrorRecord (DataManager.clock w) msg true]>
      (DataManager.processed_filings (DataManager.ledger_of w)).
Proof.
  intros w'. subst w'.
  unfold DataManager.run, DataManager.mark_filing_error, DataManager.bind.
  rewrite load_trading_data_eq. cbn [DataManager.now].
  rewrite load_congress_data_eq.
  match goal with
  | |- context [DataManager.update_first_member ?u ?f ?ms ?w0] =>
      destruct (update_first_member_spec u f ms w0) as (ms' & found & -> & _)
  end.
  destruct found; split; reflexivity.
Qed.

Lemma mark_filing_error_transient_effect (url msg : string)
    (w : DataManager.World) :
  let w' := DataManager.run (DataManager.mark_filing_error url msg false) w in
  DataManager.ledger_of w'
  = DataManager.mkLedger (Some (DataManager.clock w))
      (DataManager.pending_processing (DataManager.ledger_of w))
      (DataManager.processed_filings (DataManager.ledger_of w))
      (DataManager.mkSummary
         (DataManager.total_pdfs (DataManager.summary (DataManager.ledger_of w)))
         (size (DataManager.processed_filings (DataManager.ledger_of w)))
         (List.length (DataManager.pending_processing (DataManager.ledger_of w)))) /\
  DataManager.congress_file w' = DataManager.congress_file w /\
  DataManager.stdout w'
  = DataManager.stdout w
    ++ ["Temporary error for " +:+ url +:+ ": " +:+ msg +:+ " (will retry)"].
Proof.
  intros w'. subst w'.
  unfold DataManager.run, DataManager.mark_filing_error, DataManager.bind.
  rewrite load_trading_data_eq. repeat split; reflexivity.
Qed.

Lemma registry_of_congress_file (w w' : DataManager.World) :
  DataManager.congress_file w' = DataManager.congress_file w ->
  DataManager.registry_of w' = DataManager.registry_of w.
Proof.
  unfold DataManager.registry_of, DataManager.load_congress_data.
  intros ->. now destruct (DataManager.congress_file w).
Qed.

(** C3, as stated, fails: after a transient error on the example store the
    queue is as it was, but the message is in neither persisted
    collection. *)
Lemma C3_counterexample :
  let w' := DataManager.run
              (DataManager.mark_filing_error Spec.example_link
                 "Failed to download PDF" false) Spec.example_world in
  DataManager.pending_processing (DataManager.ledger_of w')
  = DataManager.pending_processing (DataManager.ledger_of Spec.example_world) /\
  ~ Spec.error_persisted "Failed to download PDF" w'.
Proof.
  split; [reflexivity|].
  intros [(f & Hin & He) | (key & rec & Hl & He)].
  - simpl in Hin. destruct Hin as [<-|[<-|[]]]; discriminate He.
  - destruct (mark_filing_error_transient_effect Spec.example_link
                "Failed to download PDF" Spec.example_world) as (Hled & _).
    cbv zeta in Hled. rewrite Hled in Hl. cbn in Hl.
    rewrite lookup_empty in Hl. discriminate Hl.
Qed.

(** C3, amended.  [mark_filing_error(L, M, is_permanent=False)] leaves the
    pending queue exactly as it was, and leaves the processed results and
    the registry as they were too; the error context is not persisted: it
    is only printed, in one console line that quotes L and M. *)
Theorem C3_transient_error_keeps_queue (w : DataManager.World)
    (url msg : string) :
  let w' := DataManager.run (DataManager.mark_filing_error url msg false) w in
  DataManager.pending_processing (DataManager.ledger_of w')
  = DataManager.pending_processing (DataManager.ledger_of w) /\
  DataManager.processed_filings (DataManager.ledger_of w')
  = DataManager.processed_filings (DataManager.ledger_of w) /\
  DataManager.congress_file w' = DataManager.congress_file w /\
  (forall m, Spec.error_persisted m w' <-> Spec.error_persisted m w) /\
  DataManager.stdout w'
  = DataManager.stdout w
    ++ ["Temporary error for " +:+ url +:+ ": " +:+ msg +:+ " (will retry)"].
Proof.
  intros w'.
  destruct (mark_filing_error_transient_effect url msg w) as (Hled & Hreg & Hout).
  fold w' in Hled, Hreg, Hout.
  split; [now rewrite Hled|]. split; [now rewrite Hled|].
  split; [exact Hreg|]. split; [|exact Hout].
  intros m. unfold Spec.error_persisted.
  rewrite (registry_of_congress_file w w' Hreg), Hled. reflexivity.
Qed.

(** C5 fails on the code.  On the success path the result is stored under
    the document identifier derived from the link; on the permanent-error
    path the record is stored under the link itself.  On the example store
    the failed filing 20012345 ends up under its full link, and nothing is
    stored under "20012345". *)
Theorem C5_error_record_keyed_by_link :
  (forall (w : DataManager.World) (url : string) (r : DataManager.Result),
     DataManager.processed_filings
       (DataManager.ledger_of
          (DataManager.run (DataManager.mark_filing_processed url (Some r)) w))
     !! DataManager.filing_no_of url = Some (DataManager.ResultRecord r)) /\
  (forall (w : DataManager.World) (url msg : string),
     DataManager.processed_filings
       (DataManager.ledger_of
          (DataManager.run (DataManager.mark_filing_error url msg true) w))
     !! url = Some (DataManager.ErrorRecord (DataManager.clock w) msg true)) /\
  DataManager.filing_no_of Spec.example_link = "20012345" /\
  DataManager.pdf_id Spec.example_filing = "20012345" /\
  map_to_list
    (DataManager.processed_filings
       (DataManager.ledger_of
          (DataManager.run
             (DataManager.mark_filing_error Spec.example_link "corrupted" true)
             Spec.example_world)))
  = [(Spec.example_link, DataManager.ErrorRecord 3 "corrupted" true)].
Proof.
  split; [|split; [|split; [|split]]].
  - intros w url r.
    destruct (mark_filing_processed_effect url (Some r) w)
      as (ms' & found & _ & _ & _ & _ & ->).
    apply lookup_insert_eq.
  - intros w url msg.
    destruct (mark_filing_error_permanent_effect url msg w) as [_ ->].
    apply lookup_insert_eq.
  - vm_compute. reflexivity.
  - reflexivity.
  - vm_compute. reflexivity.
Qed.

(** * Further properties of the code *)

(** ** The pending queue *)

Lemma in_link_set {A} (link : A -> string) (l : list A) (url : string) :
  url ∈ (list_to_set (map link l) : gset string) <->
  exists x, In x l /\ link x = url.
Proof.
  rewrite elem_of_list_to_set, list_elem_of_In, List.in_map_iff.
  split; intros (x & H1 & H2); exists x; auto.
Qed.

Lemma add_pending_filing_queued_run (w : DataManager.World)
    (filing_info : DataManager.PendingEntry) :
  (exists item,
     In item (DataManager.pending_processing (DataManager.ledger_of w)) /\
     DataManager.pdf_url item = DataManager.pdf_url filing_info) ->
  DataAccess.add_pending_filing filing_info w = (false, w).
Proof.
  intros H. unfold DataAccess.add_pending_filing, DataManager.bind.
  rewrite load_trading_data_eq.
  rewrite bool_decide_eq_true_2; [reflexivity|].
  now apply in_link_set.
Qed.

(** X1.  Adding an entry whose link is queued already returns [False] and
    changes nothing: neither file, nor the clock, nor the console. *)
Theorem add_pending_filing_queued (w : DataManager.World)
    (filing_info : DataManager.PendingEntry) :
  (exists item,
     In item (DataManager.pending_processing (DataManager.ledger_of w)) /\
     DataManager.pdf_url item = DataManager.pdf_url filing_info) ->
  DataAccess.add_pending_filing filing_info w = (false, w).
Proof. apply add_pending_filing_queued_run. Qed.

Lemma add_pending_filing_queued_witness :
  (exists item,
     In item (DataManager.pending_processing
                (DataManager.ledger_of Spec.example_world)) /\
     DataManager.pdf_url item = Spec.example_link) /\
  DataAccess.add_pending_filing
    (DataManager.mkPendingEntry "Doe, Hon.. Jane" "20012345" Spec.example_link
       "PTR Original" "2024" None) Spec.example_world
  = (false, Spec.example_world).
Proof.
  assert (H : exists item,
            In item (DataManager.pending_processing
                       (DataManager.ledger_of Spec.example_world)) /\
            DataManager.pdf_url item = Spec.example_link).
  { eexists. split; [left; reflexivity | reflexivity]. }
  split; [exact H|].
  exact (add_pending_filing_queued Spec.example_world
           (DataManager.mkPendingEntry "Doe, Hon.. Jane" "20012345"
              Spec.example_link "PTR Original" "2024" None) H).
Defined.

(** What a successful addition does. *)
Lemma add_pending_filing_fresh_run (w : DataManager.World)
    (filing_info : DataManager.PendingEntry) :
  (forall item,
     In item (DataManager.pending_processing (DataManager.ledger_of w)) ->
     DataManager.pdf_url item <> DataManager.pdf_url filing_info) ->
  DataAccess.add_pending_filing filing_info w
  = (true,
     DataManager.mkWorld (DataManager.congress_file w)
       (Some (DataManager.mkLedger (Some (S (DataManager.clock w)))
                (DataManager.pending_processing (DataManager.ledger_of w)
                 ++ [DataAccess.stamp_discovered (DataManager.clock w) filing_info])
                (DataManager.processed_filings (DataManager.ledger_of w))
                (DataManager.mkSummary
                   (DataManager.total_pdfs
                      (DataManager.summary (DataManager.ledger_of w)))
                   (size (DataManager.processed_filings (DataManager.ledger_of w)))
                   (List.length
                      (DataManager.pending_processing (DataManager.ledger_of w)
                       ++ [DataAccess.stamp_discovered (DataManager.clock w)
                             filing_info])))))
       (S (S (DataManager.clock w))) (DataManager.stdout w)).
Proof.
  intros H. unfold DataAccess.add_pending_filing, DataManager.bind.
  rewrite load_trading_data_eq.
  rewrite bool_decide_eq_false_2; [reflexivity|].
  rewrite in_link_set. intros (item & Hin & Heq). exact (H item Hin Heq).
Qed.

(** X2.  Adding an entry whose link is not queued returns [True]; the entry,
    stamped with the instant of the addition, is put at the end of the
    queue, whose other entries, the processed results and the registry stay
    as they were; adding the same entry once more then returns [False] and
    changes nothing. *)
Theorem add_pending_filing_fresh (w : DataManager.World)
    (filing_info : DataManager.PendingEntry) :
  (forall item,
     In item (DataManager.pending_processing (DataManager.ledger_of w)) ->
     DataManager.pdf_url item <> DataManager.pdf_url filing_info) ->
  let '(added, w') := DataAccess.add_pending_filing filing_info w in
  added = true /\
  DataManager.pending_processing (DataManager.ledger_of w')
  = DataManager.pending_processing (DataManager.ledger_of w)
    ++ [DataAccess.stamp_discovered (DataManager.clock w) filing_info] /\
  DataManager.processed_filings (DataManager.ledger_of w')
  = DataManager.processed_filings (DataManager.ledger_of w) /\
  DataManager.congress_file w' = DataManager.congress_file w /\
  DataAccess.add_pending_filing filing_info w' = (false, w').
Proof.
  intros H. rewrite (add_pending_filing_fresh_run w filing_info H).
  repeat split.
  apply add_pending_filing_queued_run.
  exists (DataAccess.stamp_discovered (DataManager.clock w) filing_info).
  split; [|reflexivity].
  unfold DataManager.ledger_of; cbn. apply List.in_or_app. right. now left.
Qed.

Lemma add_pending_filing_fresh_witness :
  (forall item,
     In item (DataManager.pending_processing
                (DataManager.ledger_of Spec.example_world)) ->
     DataManager.pdf_url item <> "https://disclosures-clerk.house.gov/x/20019999.pdf") /\
  fst (DataAccess.add_pending_filing
         (DataManager.mkPendingEntry "Doe, Hon.. Jane" "20019999"
            "https://disclosures-clerk.house.gov/x/20019999.pdf"
            "PTR Original" "2024" None) Spec.example_world) = true.
Proof.
  assert (H : forall item,
            In item (DataManager.pending_processing
                       (DataManager.ledger_of Spec.example_world)) ->
            DataManager.pdf_url item
            <> "https://disclosures-clerk.house.gov/x/20019999.pdf").
  { intros item [<-|[]]. vm_compute. discriminate. }
  split; [exact H|].
  pose proof (add_pending_filing_fresh Spec.example_world
                (DataManager.mkPendingEntry "Doe, Hon.. Jane" "20019999"
                   "https://disclosures-clerk.house.gov/x/20019999.pdf"
                   "PTR Original" "2024" None) H) as Hfresh.
  destruct (DataAccess.add_pending_filing _ Spec.example_world) as [added w'].
  exact (proj1 Hfresh).
Defined.

Lemma add_pending_filing_distinct (w : DataManager.World)
    (filing_info : DataManager.PendingEntry) :
  List.NoDup (map DataManager.pdf_url
                (DataManager.pending_processing (DataManager.ledger_of w))) ->
  List.NoDup
    (map DataManager.pdf_url
       (DataManager.pending_processing
          (DataManager.ledger_of
             (DataManager.run (DataAccess.add_pending_filing filing_info) w)))).
Proof.
  intros Hnd. unfold DataManager.run.
  destruct (bool_decide
              (DataManager.pdf_url filing_info
               ∈ (list_to_set
                    (map DataManager.pdf_url
                       (DataManager.pending_processing (DataManager.ledger_of w)))
                  : gset string))) eqn:Hq.
  - apply bool_decide_eq_true_1, in_link_set in Hq.
    now rewrite (add_pending_filing_queued_run w filing_info Hq).
  - apply bool_decide_eq_false_1 in Hq. rewrite in_link_set in Hq.
    rewrite add_pending_filing_fresh_run.
    2:{ intros item Hin Heq. apply Hq. now exists item. }
    unfold DataManager.ledger_of at 1. cbn.
    rewrite List.map_app. cbn.
    apply List.NoDup_app; [exact Hnd | repeat constructor; intros [] |].
    intros url Hin [<-|[]]. apply Hq.
    apply List.in_map_iff in Hin as (item & Heq & Hin). now exists item.
Qed.

(** X3.  The links of the queue stay pairwise distinct under additions. *)
Theorem add_pending_filing_keeps_links_distinct (w : DataManager.World)
    (filing_info : DataManager.PendingEntry) :
  List.NoDup (map DataManager.pdf_url
                (DataManager.pending_processing (DataManager.ledger_of w))) ->
  List.NoDup
    (map DataManager.pdf_url
       (DataManager.pending_processing
          (DataManager.ledger_of
             (DataManager.run (DataAccess.add_pending_filing filing_info) w)))).
Proof. apply add_pending_filing_distinct. Qed.

Lemma add_pending_filing_keeps_links_distinct_witness :
  List.NoDup (map DataManager.pdf_url
                (DataManager.pending_processing
                   (DataManager.ledger_of Spec.example_world))) /\
  List.NoDup
    (map DataManager.pdf_url
       (DataManager.pending_processing
          (DataManager.ledger_of
             (DataManager.run
                (DataAccess.add_pending_filing
                   (DataManager.mkPendingEntry "Doe, Hon.. Jane" "20019999"
                      "https://disclosures-clerk.house.gov/x/20019999.pdf"
                      "PTR Original" "2024" None)) Spec.example_world)))).
Proof.
  assert (H : List.NoDup
                (map DataManager.pdf_url
                   (DataManager.pending_processing
                      (DataManager.ledger_of Spec.example_world)))).
  { simpl. repeat constructor. intros []. }
  split; [exact H|].
  exact (add_pending_filing_keeps_links_distinct Spec.example_world _ H).
Defined.

(** ** Status transitions through the store *)

(** Where a link is unique, replacing its filing leaves one filing with
    that link: the replacement. *)
Lemma replaced_filing_unique (url : string)
    (pre post : list DataManager.Filing) (f0 g : DataManager.Filing) :
  List.NoDup (map DataManager.pdf_link (pre ++ f0 :: post)) ->
  DataManager.pdf_link f0 = url ->
  (forall f, In f (pre ++ f0 :: post) -> DataManager.pdf_link f = url -> f = f0) /\
  (forall f', In f' (pre ++ g :: post) -> DataManager.pdf_link f' = url -> f' = g).
Proof.
  intros Hnd Hl.
  destruct (unique_link_elsewhere url pre post f0 Hnd Hl) as [Hpre Hpost].
  rewrite List.Forall_forall in Hpre, Hpost.
  split; intros f Hin Hf; apply List.in_app_or in Hin as [Hin|[Hin|Hin]];
    try (exfalso; exact (Hpre f Hin Hf));
    try (exfalso; exact (Hpost f Hin Hf)); now symmetry.
Qed.

(** The run of [mark_filing_processed], spelled out. *)
Lemma mark_filing_processed_run (url : string)
    (result : option DataManager.Result) (w : DataManager.World) :
  let w' := DataManager.run (DataManager.mark_filing_processed url result) w in
  exists ms' (found : bool) t,
    (if found then
       exists pre f0 post,
         DataManager.all_filings (DataManager.members (DataManager.registry_of w))
         = pre ++ f0 :: post /\
         DataManager.all_filings ms'
         = pre ++ DataManager.set_processed result (DataManager.clock w) f0 :: post /\
         DataManager.pdf_link f0 = url /\
         Forall (DataManager.other_link url) pre
     else ms' = DataManager.members (DataManager.registry_of w) /\
          Forall (DataManager.other_link url)
            (DataManager.all_filings
               (DataManager.members (DataManager.registry_of w)))) /\
    DataManager.members (DataManager.registry_of w') = ms' /\
    DataManager.congress_file w'
    = (if found
       then Some (DataManager.mkRegistry (Some (S (DataManager.clock w)))
                    (Some (List.length ms'))
                    (Some (DataManager.count_filings ms')) ms')
       else DataManager.congress_file w) /\
    DataManager.ledger_of w'
    = Notions.saved_ledger t
        (DataManager.remove_pending url
           (DataManager.pending_processing (DataManager.ledger_of w)))
        (match result with
         | Some r =>
             <[DataManager.filing_no_of url := DataManager.ResultRecord r]>
               (DataManager.processed_filings (DataManager.ledger_of w))
         | None => DataManager.processed_filings (DataManager.ledger_of w)
         end)
        (DataManager.total_pdfs (DataManager.summary (DataManager.ledger_of w))) /\
    DataManager.stdout w' = DataManager.stdout w.
Proof.
  intros w'. subst w'.
  destruct (update_first_member_spec url (DataManager.set_processed result)
              (DataManager.members (DataManager.registry_of w)) w)
    as (ms' & found & Heq & Hspec).
  exists ms', found.
  unfold DataManager.run, DataManager.mark_filing_processed, DataManager.bind.
  rewrite load_trading_data_eq, load_congress_data_eq, Heq.
  destruct found; eexists; (split; [exact Hspec|]); repeat split;
    try (destruct result; reflexivity).
  destruct Hspec as [-> _].
  unfold DataManager.registry_of, DataManager.load_congress_data. cbn.
  now destruct (DataManager.congress_file w).
Qed.

(** The run of a permanent [mark_filing_error], spelled out. *)
Lemma mark_filing_error_permanent_run (url msg : string)
    (w : DataManager.World) :
  let w' := DataManager.run (DataManager.mark_filing_error url msg true) w in
  exists ms' (found : bool) t,
    (if found then
       exists pre f0 post,
         DataManager.all_filings (DataManager.members (DataManager.registry_of w))
         = pre ++ f0 :: post /\
         DataManager.all_filings ms'
         = pre ++ DataManager.set_failed msg (S (DataManager.clock w)) f0 :: post /\
         DataManager.pdf_link f0 = url /\
         Forall (DataManager.other_link url) pre
     else ms' = DataManager.members (DataManager.registry_of w) /\
          Forall (DataManager.other_link url)
            (DataManager.all_filings
               (DataManager.members (DataManager.registry_of w)))) /\
    DataManager.members (DataManager.registry_of w') = ms' /\
    DataManager.congress_file w'
    = (if found
       then Some (DataManager.mkRegistry (Some (S (S (DataManager.clock w))))
                    (Some (List.length ms'))
                    (Some (DataManager.count_filings ms')) ms')
       else DataManager.congress_file w) /\
    DataManager.ledger_of w'
    = Notions.saved_ledger t
        (DataManager.remove_pending url
           (DataManager.pending_processing (DataManager.ledger_of w)))
        (<[url := DataManager.ErrorRecord (DataManager.clock w) msg true]>
           (DataManager.processed_filings (DataManager.ledger_of w)))
        (DataManager.total_pdfs (DataManager.summary (DataManager.ledger_of w))) /\
    DataManager.stdout w' = DataManager.stdout w.
Proof.
  intros w'. subst w'.
  unfold DataManager.run, DataManager.mark_filing_error, DataManager.bind.
  rewrite load_trading_data_eq. cbn [DataManager.now].
  rewrite load_congress_data_eq.
  match goal with
  | |- context [DataManager.update_first_member ?u ?f ?ms ?w0] =>
      destruct (update_first_member_spec u f ms w0) as (ms' & found & -> & Hspec)
  end.
  assert (Hreg : DataManager.registry_of
            (DataManager.mkWorld (DataManager.congress_file w)
               (DataManager.trading_file w) (S (DataManager.clock w))
               (DataManager.stdout w))
          = DataManager.registry_of w)
    by (now apply registry_of_congress_file).
  rewrite Hreg in *. cbn [DataManager.clock] in Hspec.
  exists ms', found.
  destruct found; eexists; (split; [exact Hspec|]); repeat split.
  destruct Hspec as [-> _].
  unfold DataManager.registry_of, DataManager.load_congress_data. cbn.
  now destruct (DataManager.congress_file w).
Qed.

Lemma failed_filing_listed (ms : list (string * DataManager.Member))
    (f : DataManager.Filing) :
  In f (DataManager.all_filings ms) ->
  DataManager.processing_status f = Some "failed" ->
  forall w,
    DataManager.members (DataManager.registry_of w) = ms ->
    In (DataManager.pdf_id f) (fst (FilingStatusQueries.get_failed_filings w)).
Proof.
  intros Hin Hst w Hms.
  unfold FilingStatusQueries.get_failed_filings, DataManager.bind.
  rewrite load_congress_data_eq. cbn. rewrite Hms.
  apply List.in_map, List.filter_In. split; [exact Hin|]. now rewrite Hst.
Qed.

(** X4.  In a registry with unique links, let a Filing have the link L.
    After [mark_filing_error(L, M, is_permanent=True)] the Filing is still
    there, with status "failed" and error text M; the queue has no entry for
    L; [identify_pending_filings()] has no element for L; and
    [get_failed_filings()] lists the identifier of the Filing. *)
Theorem permanent_error_ends_lifecycle (w : DataManager.World)
    (url msg : string) (f : DataManager.Filing) :
  Spec.unique_links (DataManager.registry_of w) ->
  In f (DataManager.all_filings (DataManager.members (DataManager.registry_of w))) ->
  DataManager.pdf_link f = url ->
  let w' := DataManager.run (DataManager.mark_filing_error url msg true) w in
  (exists f',
     In f' (DataManager.all_filings
              (DataManager.members (DataManager.registry_of w'))) /\
     DataManager.pdf_link f' = url /\
     DataManager.pdf_id f' = DataManager.pdf_id f) /\
  (forall f',
     In f' (DataManager.all_filings
              (DataManager.members (DataManager.registry_of w'))) ->
     DataManager.pdf_link f' = url ->
     DataManager.processing_status f' = Some "failed" /\
     DataManager.error f' = Some msg) /\
  (forall e,
     In e (DataManager.pending_processing (DataManager.ledger_of w')) ->
     DataManager.pdf_url e <> url) /\
  (forall info,
     In info (fst (FilingStatusManager.identify_pending_filings w')) ->
     FilingStatusManager.info_pdf_url info <> url) /\
  In (DataManager.pdf_id f) (fst (FilingStatusQueries.get_failed_filings w')).
Proof.
  intros Huniq Hin Hlink w'.
  destruct (mark_filing_error_permanent_run url msg w)
    as (ms' & found & t & Hspec & Hms & _ & Hled & _).
  fold w' in Hms, Hled.
  destruct found.
  2:{ exfalso. destruct Hspec as [_ Hspec].
      rewrite List.Forall_forall in Hspec. exact (Hspec f Hin Hlink). }
  destruct Hspec as (pre & f0 & post & Hfs & Hfs' & Hl0 & _).
  unfold Spec.unique_links in Huniq. rewrite Hfs in Huniq.
  destruct (replaced_filing_unique url pre post f0
              (DataManager.set_failed msg (S (DataManager.clock w)) f0)
              Huniq Hl0) as [Hold Hnew].
  rewrite Hfs in Hin. rewrite (Hold f Hin Hlink) in *.
  assert (Hin' : In (DataManager.set_failed msg (S (DataManager.clock w)) f0)
                    (DataManager.all_filings ms'))
    by (rewrite Hfs'; apply List.in_or_app; right; now left).
  rewrite Hms, Hled.
  split; [|split; [|split; [|split]]].
  - eexists. split; [exact Hin'|]. split; [exact Hl0 | reflexivity].
  - intros f' Hf' Hl'. rewrite Hfs' in Hf'.
    rewrite (Hnew f' Hf' Hl'). split; reflexivity.
  - intros e He. now apply remove_pending_spec in He.
  - intros info Hinfo Hurl.
    rewrite identify_pending_filings_eq, Hms in Hinfo.
    apply identified_filing in Hinfo as (filing & Hfin & Hneeds & Hpu & _).
    rewrite Hpu in Hurl. rewrite Hfs' in Hfin.
    rewrite (Hnew filing Hfin Hurl) in Hneeds. discriminate Hneeds.
  - exact (failed_filing_listed ms' _ Hin' eq_refl w' Hms).
Qed.

Lemma permanent_error_ends_lifecycle_witness :
  Spec.unique_links (DataManager.registry_of Spec.example_world) /\
  In Spec.example_filing
     (DataManager.all_filings
        (DataManager.members (DataManager.registry_of Spec.example_world))) /\
  In (DataManager.pdf_id Spec.example_filing)
     (fst (FilingStatusQueries.get_failed_filings
             (DataManager.run
                (DataManager.mark_filing_error Spec.example_link
                   "invalid pdf header" true) Spec.example_world))).
Proof.
  assert (Hu : Spec.unique_links (DataManager.registry_of Spec.example_world)).
  { unfold Spec.unique_links. simpl.
    repeat constructor; simpl; intuition discriminate. }
  assert (Hin : In Spec.example_filing
                  (DataManager.all_filings
                     (DataManager.members
                        (DataManager.registry_of Spec.example_world)))).
  { simpl. right. left. reflexivity. }
  split; [exact Hu|]. split; [exact Hin|].
  exact (proj2 (proj2 (proj2 (proj2
           (permanent_error_ends_lifecycle Spec.example_world
              Spec.example_link "invalid pdf header" Spec.example_filing
              Hu Hin eq_refl))))).
Defined.

(** X5.  When no filing of the registry has the link, [mark_filing_processed]
    does not write the registry file at all, and still updates the ledger:
    the entries with the link leave the queue and the result is stored
    under the identifier derived from the link. *)
Theorem mark_filing_processed_unknown_link (w : DataManager.World)
    (url : string) (r : DataManager.Result) :
  (forall f,
     In f (DataManager.all_filings
             (DataManager.members (DataManager.registry_of w))) ->
     DataManager.pdf_link f <> url) ->
  let w' := DataManager.run
              (DataManager.mark_filing_processed url (Some r)) w in
  DataManager.congress_file w' = DataManager.congress_file w /\
  DataManager.pending_processing (DataManager.ledger_of w')
  = DataManager.remove_pending url
      (DataManager.pending_processing (DataManager.ledger_of w)) /\
  DataManager.processed_filings (DataManager.ledger_of w')
  = <[DataManager.filing_no_of url := DataManager.ResultRecord r]>
      (DataManager.processed_filings (DataManager.ledger_of w)).
Proof.
  intros Hnone w'.
  destruct (mark_filing_processed_run url (Some r) w)
    as (ms' & found & t & Hspec & _ & Hfile & Hled & _).
  fold w' in Hfile, Hled. rewrite Hfile, Hled.
  destruct found; [|repeat split].
  exfalso. destruct Hspec as (pre & f0 & post & Hfs & _ & Hl0 & _).
  apply (Hnone f0); [|exact Hl0].
  rewrite Hfs. apply List.in_or_app. right. now left.
Qed.

Lemma mark_filing_processed_unknown_link_witness :
  (forall f,
     In f (DataManager.all_filings
             (DataManager.members (DataManager.registry_of Spec.example_world))) ->
     DataManager.pdf_link f <> "https://disclosures-clerk.house.gov/x/20019999.pdf") /\
  DataManager.congress_file
    (DataManager.run
       (DataManager.mark_filing_processed
          "https://disclosures-clerk.house.gov/x/20019999.pdf"
          (Some Spec.example_result)) Spec.example_world)
  = DataManager.congress_file Spec.example_world.
Proof.
  assert (H : forall f,
            In f (DataManager.all_filings
                    (DataManager.members
                       (DataManager.registry_of Spec.example_world))) ->
            DataManager.pdf_link f
            <> "https://disclosures-clerk.house.gov/x/20019999.pdf").
  { intros f [<-|[<-|[]]]; vm_compute; discriminate. }
  split; [exact H|].
  exact (proj1 (mark_filing_processed_unknown_link Spec.example_world
                  "https://disclosures-clerk.house.gov/x/20019999.pdf"
                  Spec.example_result H)).
Defined.

(** X6.  After [mark_filing_processed] and after [mark_filing_error],
    permanent or not, the two counters of the ledger's summary agree
    with the collections: [processed_pdfs] is the number of processed results
    and [pending_pdfs] the length of the queue.  [total_pdfs] is what it was:
    no operation maintains it. *)
Theorem marks_recompute_summary (w : DataManager.World) (url msg : string)
    (result : option DataManager.Result) (is_permanent : bool) :
  let after (w' : DataManager.World) :=
    Notions.summary_counts (DataManager.ledger_of w') /\
    DataManager.total_pdfs (DataManager.summary (DataManager.ledger_of w'))
    = DataManager.total_pdfs (DataManager.summary (DataManager.ledger_of w)) in
  after (DataManager.run (DataManager.mark_filing_processed url result) w) /\
  after (DataManager.run (DataManager.mark_filing_error url msg is_permanent) w).
Proof.
  cbv zeta. split.
  - destruct (mark_filing_processed_run url result w)
      as (ms' & found & t & _ & _ & _ & -> & _).
    repeat split.
  - destruct is_permanent.
    + destruct (mark_filing_error_permanent_run url msg w)
        as (ms' & found & t & _ & _ & _ & -> & _).
      repeat split.
    + destruct (mark_filing_error_transient_effect url msg w) as (-> & _).
      repeat split.
Qed.

(** ** The steps of a run *)

Lemma ledger_of_trading_file (w w' : DataManager.World) :
  DataManager.trading_file w' = DataManager.trading_file w ->
  DataManager.ledger_of w' = DataManager.ledger_of w.
Proof.
  unfold DataManager.ledger_of, DataManager.load_trading_data.
  intros ->. now destruct (DataManager.trading_file w).
Qed.

(** Neither the clock nor the console is read by the loaders. *)
Lemma ledger_of_files (w : DataManager.World) (t : DataManager.instant)
    (out : list string) :
  DataManager.ledger_of
    (DataManager.mkWorld (DataManager.congress_file w)
       (DataManager.trading_file w) t out)
  = DataManager.ledger_of w.
Proof. now apply ledger_of_trading_file. Qed.

Lemma registry_of_files (w : DataManager.World) (t : DataManager.instant)
    (out : list string) :
  DataManager.registry_of
    (DataManager.mkWorld (DataManager.congress_file w)
       (DataManager.trading_file w) t out)
  = DataManager.registry_of w.
Proof. now apply registry_of_congress_file. Qed.

(** The counters after one document depend on what the document comes to,
    not on the store. *)
Lemma process_one_counts
    (fetch : FilingStatusManager.FilingInfo -> DailyRunSteps.Outcome)
    (info : FilingStatusManager.FilingInfo) (c : DailyRunSteps.Counts)
    (w : DataManager.World) :
  fst (DailyRunSteps.process_one fetch info c w)
  = match Notions.verdict (fetch info) with
    | Notions.Success =>
        DailyRunSteps.mkCounts (DailyRunSteps.processed c + 1)
          (DailyRunSteps.successful c + 1) (DailyRunSteps.failed c)
    | Notions.PermanentFailure =>
        DailyRunSteps.mkCounts (DailyRunSteps.processed c + 1)
          (DailyRunSteps.successful c) (DailyRunSteps.failed c + 1)
    | Notions.Retry => c
    end.
Proof.
  unfold DailyRunSteps.process_one, Notions.verdict, Notions.of_message,
    DataManager.bind, DataManager.print, DataManager.now, DataManager.ret.
  destruct (fetch info) as [result| |msg].
  - destruct (DailyRunSteps.reported_error result) as [error_msg|].
    + match goal with
      | |- context [DataManager.mark_filing_error ?u ?m ?p ?w0] =>
          destruct (DataManager.mark_filing_error u m p w0) as [[] ?]
      end.
      now destruct (DailyRun._is_permanent_error error_msg).
    + match goal with
      | |- context [DataManager.mark_filing_processed ?u ?r ?w0] =>
          destruct (DataManager.mark_filing_processed u r w0) as [[] ?]
      end.
      reflexivity.
  - match goal with
    | |- context [DataManager.mark_filing_error ?u ?m ?p ?w0] =>
        destruct (DataManager.mark_filing_error u m p w0) as [[] ?]
    end.
    reflexivity.
  - match goal with
    | |- context [DataManager.mark_filing_error ?u ?m ?p ?w0] =>
        destruct (DataManager.mark_filing_error u m p w0) as [[] ?]
    end.
    now destruct (DailyRun._is_permanent_error msg).
Qed.

Lemma for_each_cons {A S : Type} (x : A) (more : list A)
    (body : A -> S -> DataManager.M S) (s : S) (w : DataManager.World) :
  DailyRunSteps.for_each (x :: more) body s w
  = DailyRunSteps.for_each more body (fst (body x s w)) (snd (body x s w)).
Proof.
  cbn [DailyRunSteps.for_each]. unfold DataManager.bind.
  now destruct (body x s w).
Qed.

Lemma for_each_counts
    (fetch : FilingStatusManager.FilingInfo -> DailyRunSteps.Outcome)
    (batch : list FilingStatusManager.FilingInfo) :
  forall (c : DailyRunSteps.Counts) (w : DataManager.World),
    let c' := fst (DailyRunSteps.for_each batch
                     (DailyRunSteps.process_one fetch) c w) in
    (DailyRunSteps.successful c'
     = DailyRunSteps.successful c
       + Notions.number_of Notions.Success fetch batch)%Z /\
    (DailyRunSteps.failed c'
     = DailyRunSteps.failed c
       + Notions.number_of Notions.PermanentFailure fetch batch)%Z /\
    (DailyRunSteps.processed c'
     = DailyRunSteps.processed c
       + Notions.number_of Notions.Success fetch batch
       + Notions.number_of Notions.PermanentFailure fetch batch)%Z.
Proof.
  unfold Notions.number_of.
  induction batch as [|info more IH]; intros c w.
  - cbn. lia.
  - rewrite for_each_cons.
    specialize (IH (fst (DailyRunSteps.process_one fetch info c w))
                  (snd (DailyRunSteps.process_one fetch info c w))).
    cbv zeta in IH |- *. destruct IH as (IH1 & IH2 & IH3).
    rewrite IH1, IH2, IH3, process_one_counts.
    cbn [List.filter].
    destruct (Notions.verdict (fetch info));
      cbn [Notions.Verdict_eqb List.length DailyRunSteps.successful
           DailyRunSteps.failed DailyRunSteps.processed]; lia.
Qed.

(** X7.  The counters [_process_pending_pdfs] returns are those of the
    batch, the first [max_files_per_run] pending filings: [successful] is
    the number of documents extracted without a reported error, [failed] the
    number of those whose error is permanent, [processed] the sum of the
    two; a document whose error is not permanent, or that could not be
    downloaded, is counted nowhere.  The counters do not depend on the
    store. *)
Theorem process_pending_pdfs_counts
    (fetch : FilingStatusManager.FilingInfo -> DailyRunSteps.Outcome)
    (max_files_per_run : Z)
    (pending_filings : list FilingStatusManager.FilingInfo)
    (w : DataManager.World) :
  let batch := DailyRunSteps.take_upto max_files_per_run pending_filings in
  let c := fst (DailyRunSteps._process_pending_pdfs fetch max_files_per_run
                  pending_filings w) in
  DailyRunSteps.successful c = Notions.number_of Notions.Success fetch batch /\
  DailyRunSteps.failed c
  = Notions.number_of Notions.PermanentFailure fetch batch /\
  DailyRunSteps.processed c
  = (DailyRunSteps.successful c + DailyRunSteps.failed c)%Z /\
  (DailyRunSteps.processed c <= Z.of_nat (List.length batch))%Z.
Proof.
  cbv zeta.
  assert (Hbound : forall l,
    (Notions.number_of Notions.Success fetch l
     + Notions.number_of Notions.PermanentFailure fetch l
     <= Z.of_nat (List.length l))%Z).
  { unfold Notions.number_of. induction l as [|info more IH]; cbn; [lia|].
    destruct (Notions.verdict (fetch info)); cbn; lia. }
  destruct pending_filings as [|info more].
  { unfold DailyRunSteps.take_upto.
    destruct (max_files_per_run <? 0)%Z; rewrite List.firstn_nil;
      cbn; repeat split; lia. }
  specialize (Hbound (DailyRunSteps.take_upto max_files_per_run (info :: more))).
  unfold DailyRunSteps._process_pending_pdfs.
  unfold DataManager.bind, DataManager.print, DataManager.ret.
  match goal with
  | |- context [DailyRunSteps.for_each ?b ?body ?c0 ?w0] =>
      pose proof (for_each_counts fetch b c0 w0) as H;
      destruct (DailyRunSteps.for_each b body c0 w0) as [c1 w1]
  end.
  cbv zeta in H. cbn [fst DailyRunSteps.successful DailyRunSteps.failed
                      DailyRunSteps.processed] in H.
  destruct H as (H1 & H2 & H3). cbn [fst]. lia.
Qed.

(** What a run leaves of the store when nothing is settled: the registry
    file, the queue and the processed results. *)
Lemma transient_error_frame (url msg : string) (w : DataManager.World) :
  let w' := snd (DataManager.mark_filing_error url msg false w) in
  DataManager.congress_file w' = DataManager.congress_file w /\
  DataManager.pending_processing (DataManager.ledger_of w')
  = DataManager.pending_processing (DataManager.ledger_of w) /\
  DataManager.processed_filings (DataManager.ledger_of w')
  = DataManager.processed_filings (DataManager.ledger_of w).
Proof.
  destruct (mark_filing_error_transient_effect url msg w) as (Hl & Hc & _).
  unfold DataManager.run in Hl, Hc. cbv zeta. rewrite Hl, Hc. repeat split.
Qed.

Lemma process_one_retry
    (fetch : FilingStatusManager.FilingInfo -> DailyRunSteps.Outcome)
    (info : FilingStatusManager.FilingInfo) (c : DailyRunSteps.Counts)
    (w : DataManager.World) :
  Notions.verdict (fetch info) = Notions.Retry ->
  let w' := snd (DailyRunSteps.process_one fetch info c w) in
  DataManager.congress_file w' = DataManager.congress_file w /\
  DataManager.pending_processing (DataManager.ledger_of w')
  = DataManager.pending_processing (DataManager.ledger_of w) /\
  DataManager.processed_filings (DataManager.ledger_of w')
  = DataManager.processed_filings (DataManager.ledger_of w).
Proof.
  unfold DailyRunSteps.process_one, Notions.verdict, Notions.of_message,
    DataManager.bind, DataManager.print, DataManager.ret.
  intros Hv.
  assert (Hl : forall line,
            DataManager.ledger_of
              (DataManager.mkWorld (DataManager.congress_file w)
                 (DataManager.trading_file w) (DataManager.clock w) line)
            = DataManager.ledger_of w)
    by (intros; now apply ledger_of_trading_file).
  destruct (fetch info) as [result| |msg].
  - destruct (DailyRunSteps.reported_error result) as [error_msg|];
      [|discriminate Hv].
    destruct (DailyRun._is_permanent_error error_msg); [discriminate Hv|].
    match goal with
    | |- context [DataManager.mark_filing_error ?u ?m false ?w0] =>
        pose proof (transient_error_frame u m w0) as H;
        destruct (DataManager.mark_filing_error u m false w0) as [[] w1]
    end.
    cbn [snd] in H |- *. now rewrite Hl in H.
  - match goal with
    | |- context [DataManager.mark_filing_error ?u ?m false ?w0] =>
        pose proof (transient_error_frame u m w0) as H;
        destruct (DataManager.mark_filing_error u m false w0) as [[] w1]
    end.
    cbn [snd] in H |- *. now rewrite Hl in H.
  - destruct (DailyRun._is_permanent_error msg); [discriminate Hv|].
    match goal with
    | |- context [DataManager.mark_filing_error ?u ?m false ?w0] =>
        pose proof (transient_error_frame u m w0) as H;
        destruct (DataManager.mark_filing_error u m false w0) as [[] w1]
    end.
    cbn [snd] in H |- *. now rewrite Hl in H.
Qed.

Lemma for_each_retry
    (fetch : FilingStatusManager.FilingInfo -> DailyRunSteps.Outcome)
    (batch : list FilingStatusManager.FilingInfo) :
  (forall info, In info batch -> Notions.verdict (fetch info) = Notions.Retry) ->
  forall (c : DailyRunSteps.Counts) (w : DataManager.World),
    let w' := snd (DailyRunSteps.for_each batch
                     (DailyRunSteps.process_one fetch) c w) in
    DataManager.congress_file w' = DataManager.congress_file w /\
    DataManager.pending_processing (DataManager.ledger_of w')
    = DataManager.pending_processing (DataManager.ledger_of w) /\
    DataManager.processed_filings (DataManager.ledger_of w')
    = DataManager.processed_filings (DataManager.ledger_of w).
Proof.
  induction batch as [|info more IH]; intros Hall c w.
  - repeat split.
  - rewrite for_each_cons. cbv zeta.
    destruct (process_one_retry fetch info c w (Hall info (or_introl eq_refl)))
      as (H1 & H2 & H3).
    destruct (IH (fun i Hi => Hall i (or_intror Hi))
                (fst (DailyRunSteps.process_one fetch info c w))
                (snd (DailyRunSteps.process_one fetch info c w)))
      as (I1 & I2 & I3).
    rewrite I1, I2, I3. auto.
Qed.

Lemma filter_none {A} (f : A -> bool) (l : list A) :
  (forall x, In x l -> f x = false) -> List.filter f l = [].
Proof.
  induction l as [|x more IH]; intros H; [reflexivity|].
  cbn. rewrite (H x (or_introl eq_refl)).
  apply IH. intros y Hy. apply H. now right.
Qed.

Lemma firstn_subset {A} (n : nat) (l : list A) (x : A) :
  In x (firstn n l) -> In x l.
Proof.
  intros H. rewrite <- (List.firstn_skipn n l). apply List.in_or_app. now left.
Qed.

Lemma take_upto_subset {A} (n : Z) (l : list A) (x : A) :
  In x (DailyRunSteps.take_upto n l) -> In x l.
Proof.
  unfold DailyRunSteps.take_upto. destruct (n <? 0)%Z; apply firstn_subset.
Qed.

(** X8.  When no document of the batch is settled (each one could not be
    downloaded, or failed with an error that is not permanent),
    [_process_pending_pdfs] returns three zeros and leaves the registry
    file, the queue and the processed results as they were, so that
    [identify_pending_filings()] returns afterwards what it returned
    before: the same documents are tried again on the next run. *)
Theorem unsettled_batch_is_retried
    (fetch : FilingStatusManager.FilingInfo -> DailyRunSteps.Outcome)
    (max_files_per_run : Z)
    (pending_filings : list FilingStatusManager.FilingInfo)
    (w : DataManager.World) :
  (forall info,
     In info (DailyRunSteps.take_upto max_files_per_run pending_filings) ->
     Notions.verdict (fetch info) = Notions.Retry) ->
  let '(c, w') := DailyRunSteps._process_pending_pdfs fetch max_files_per_run
                    pending_filings w in
  c = DailyRunSteps.mkCounts 0 0 0 /\
  DataManager.congress_file w' = DataManager.congress_file w /\
  DataManager.pending_processing (DataManager.ledger_of w')
  = DataManager.pending_processing (DataManager.ledger_of w) /\
  DataManager.processed_filings (DataManager.ledger_of w')
  = DataManager.processed_filings (DataManager.ledger_of w) /\
  fst (FilingStatusManager.identify_pending_filings w')
  = fst (FilingStatusManager.identify_pending_filings w).
Proof.
  intros Hall.
  destruct pending_filings as [|info more].
  { unfold DailyRunSteps._process_pending_pdfs.
    unfold DataManager.bind, DataManager.print, DataManager.ret.
    rewrite ledger_of_files, !identify_pending_filings_eq, registry_of_files.
    repeat split. }
  unfold DailyRunSteps._process_pending_pdfs.
  unfold DataManager.bind, DataManager.print, DataManager.ret.
  match goal with
  | |- context [DailyRunSteps.for_each ?b ?body ?c0 ?w0] =>
      pose proof (for_each_retry fetch b Hall c0 w0) as Hf;
      pose proof (for_each_counts fetch b c0 w0) as Hc;
      destruct (DailyRunSteps.for_each b body c0 w0) as [c1 w1]
  end.
  cbv zeta in Hf, Hc.
  cbn [fst snd DataManager.congress_file DailyRunSteps.successful
       DailyRunSteps.failed DailyRunSteps.processed] in Hf, Hc.
  destruct Hf as (H1 & H2 & H3).
  rewrite ledger_of_files in H2, H3.
  assert (Hz : forall v,
            v <> Notions.Retry ->
            Notions.number_of v fetch
              (DailyRunSteps.take_upto max_files_per_run (info :: more)) = 0%Z).
  { intros v Hv. unfold Notions.number_of.
    rewrite filter_none; [reflexivity|].
    intros i Hi. rewrite (Hall i Hi). now destruct v. }
  rewrite !Hz in Hc by discriminate.
  split; [destruct c1; cbn in Hc; f_equal; lia|].
  split; [exact H1|].
  rewrite ledger_of_files.
  split; [exact H2|]. split; [exact H3|].
  rewrite !identify_pending_filings_eq, registry_of_files.
  f_equal. f_equal. now apply registry_of_congress_file.
Qed.

Lemma unsettled_batch_is_retried_witness :
  let fetch := fun _ : FilingStatusManager.FilingInfo => DailyRunSteps.NoPath in
  let pending := fst (FilingStatusManager.identify_pending_filings
                        Spec.example_world) in
  pending <> [] /\
  (forall info,
     In info (DailyRunSteps.take_upto 5 pending) ->
     Notions.verdict (fetch info) = Notions.Retry) /\
  fst (DailyRunSteps._process_pending_pdfs fetch 5 pending Spec.example_world)
  = DailyRunSteps.mkCounts 0 0 0.
Proof.
  cbv zeta. split; [vm_compute; discriminate|].
  split; [reflexivity|].
  pose proof (unsettled_batch_is_retried
                (fun _ : FilingStatusManager.FilingInfo => DailyRunSteps.NoPath)
                5 (fst (FilingStatusManager.identify_pending_filings
                          Spec.example_world))
                Spec.example_world (fun _ _ => eq_refl)) as H.
  destruct (DailyRunSteps._process_pending_pdfs _ _ _ _) as [c w'].
  exact (proj1 H).
Defined.

Lemma replaced_filing_step (settles : bool) (url : string)
    (w w' : DataManager.World) (ms' : list (string * DataManager.Member))
    (found : bool) (g : DataManager.Filing -> DataManager.Filing) :
  (forall f, DataManager.pdf_link (g f) = DataManager.pdf_link f) ->
  (forall f, FilingStatusManager.needs_processing (g f) = false) ->
  (if found then
     exists pre f0 post,
       DataManager.all_filings (DataManager.members (DataManager.registry_of w))
       = pre ++ f0 :: post /\
       DataManager.all_filings ms' = pre ++ g f0 :: post /\
       DataManager.pdf_link f0 = url /\
       Forall (DataManager.other_link url) pre
   else ms' = DataManager.members (DataManager.registry_of w) /\
        Forall (DataManager.other_link url)
          (DataManager.all_filings
             (DataManager.members (DataManager.registry_of w)))) ->
  DataManager.members (DataManager.registry_of w') = ms' ->
  Notions.marks_step settles url w w'.
Proof.
  intros Hlink Hdone Hspec Hms. unfold Notions.marks_step, Notions.settled.
  rewrite Hms.
  destruct found.
  - destruct Hspec as (pre & f0 & post & Hfs & Hfs' & Hl0 & _).
    rewrite Hfs, Hfs'. split; [|split].
    + rewrite !List.map_app. cbn. now rewrite Hlink.
    + intros f' Hin. apply List.in_app_or in Hin as [Hin|[<-|Hin]].
      * left. apply List.in_or_app. now left.
      * right. apply Hdone.
      * left. apply List.in_or_app. right. now right.
    + intros _ Huniq f' Hin Hf'.
      unfold Spec.unique_links in Huniq. rewrite Hfs in Huniq.
      destruct (replaced_filing_unique url pre post f0 (g f0) Huniq Hl0)
        as [_ Hnew].
      rewrite (Hnew f' Hin Hf'). apply Hdone.
  - destruct Hspec as [-> Hall]. split; [reflexivity|].
    split; [now left|].
    intros _ _ f' Hin Hf'. rewrite List.Forall_forall in Hall.
    exfalso. exact (Hall f' Hin Hf').
Qed.

Lemma mark_filing_processed_step (url : string)
    (result : option DataManager.Result) (w : DataManager.World) :
  Notions.marks_step true url w
    (DataManager.run (DataManager.mark_filing_processed url result) w).
Proof.
  destruct (mark_filing_processed_run url result w)
    as (ms' & found & t & Hspec & Hms & _).
  now apply (replaced_filing_step true url w _ ms' found
               (DataManager.set_processed result (DataManager.clock w))).
Qed.

Lemma mark_filing_error_step (url msg : string) (is_permanent : bool)
    (w : DataManager.World) :
  Notions.marks_step is_permanent url w
    (DataManager.run (DataManager.mark_filing_error url msg is_permanent) w).
Proof.
  destruct is_permanent.
  - destruct (mark_filing_error_permanent_run url msg w)
      as (ms' & found & t & Hspec & Hms & _).
    now apply (replaced_filing_step true url w _ ms' found
                 (DataManager.set_failed msg (S (DataManager.clock w)))).
  - destruct (mark_filing_error_transient_effect url msg w) as (_ & Hc & _).
    unfold Notions.marks_step. rewrite (registry_of_congress_file _ _ Hc).
    split; [reflexivity|]. split; [now left | discriminate].
Qed.

(** The store after one document of the batch is the store after one
    marking operation, begun where the files are as before. *)
Lemma process_one_store
    (fetch : FilingStatusManager.FilingInfo -> DailyRunSteps.Outcome)
    (info : FilingStatusManager.FilingInfo) (c : DailyRunSteps.Counts)
    (w : DataManager.World) :
  let url := FilingStatusManager.info_pdf_url info in
  exists w0,
    DataManager.congress_file w0 = DataManager.congress_file w /\
    DataManager.trading_file w0 = DataManager.trading_file w /\
    snd (DailyRunSteps.process_one fetch info c w)
    = match fetch info with
      | DailyRunSteps.Extracted x =>
          match DailyRunSteps.reported_error x with
          | Some msg =>
              DataManager.run
                (DataManager.mark_filing_error url msg
                   (DailyRun._is_permanent_error msg)) w0
          | None =>
              DataManager.run
                (DataManager.mark_filing_processed url
                   (Some (DailyRunSteps.processing_result url x))) w0
          end
      | DailyRunSteps.NoPath =>
          DataManager.run
            (DataManager.mark_filing_error url "Failed to download PDF" false) w0
      | DailyRunSteps.Raises msg =>
          DataManager.run
            (DataManager.mark_filing_error url msg
               (DailyRun._is_permanent_error msg)) w0
      end.
Proof.
  cbv zeta.
  unfold DailyRunSteps.process_one, DataManager.run,
    DataManager.bind, DataManager.print, DataManager.now, DataManager.ret.
  destruct (fetch info) as [x| |msg];
    [destruct (DailyRunSteps.reported_error x) as [msg|]| |];
    eexists; (split; [|split]);
    try match goal with
    | |- snd (let '(_, _) := ?op ?w0 in _) = _ =>
        instantiate (1 := w0); destruct (op w0) as [[] ?]; reflexivity
    end;
    reflexivity.
Qed.

Lemma process_one_step
    (fetch : FilingStatusManager.FilingInfo -> DailyRunSteps.Outcome)
    (info : FilingStatusManager.FilingInfo) (c : DailyRunSteps.Counts)
    (w : DataManager.World) :
  Notions.marks_step
    (negb (Notions.Verdict_eqb (Notions.verdict (fetch info)) Notions.Retry))
    (FilingStatusManager.info_pdf_url info) w
    (snd (DailyRunSteps.process_one fetch info c w)).
Proof.
  destruct (process_one_store fetch info c w) as (w0 & Hc & Ht & ->).
  assert (Hr : DataManager.registry_of w0 = DataManager.registry_of w)
    by now apply registry_of_congress_file.
  unfold Notions.verdict, Notions.of_message.
  destruct (fetch info) as [x| |msg];
    [destruct (DailyRunSteps.reported_error x) as [msg|]| |].
  - pose proof (mark_filing_error_step (FilingStatusManager.info_pdf_url info)
                  msg (DailyRun._is_permanent_error msg) w0) as H.
    unfold Notions.marks_step in *. rewrite Hr in H.
    now destruct (DailyRun._is_permanent_error msg).
  - pose proof (mark_filing_processed_step
                  (FilingStatusManager.info_pdf_url info)
                  (Some (DailyRunSteps.processing_result
                           (FilingStatusManager.info_pdf_url info) x)) w0) as H.
    unfold Notions.marks_step in *. now rewrite Hr in H.
  - pose proof (mark_filing_error_step (FilingStatusManager.info_pdf_url info)
                  "Failed to download PDF" false w0) as H.
    unfold Notions.marks_step in *. now rewrite Hr in H.
  - pose proof (mark_filing_error_step (FilingStatusManager.info_pdf_url info)
                  msg (DailyRun._is_permanent_error msg) w0) as H.
    unfold Notions.marks_step in *. rewrite Hr in H.
    now destruct (DailyRun._is_permanent_error msg).
Qed.

Lemma step_keeps_settled (b : bool) (url u : string)
    (w w' : DataManager.World) :
  Notions.marks_step b url w w' ->
  Notions.settled (DataManager.registry_of w) u ->
  Notions.settled (DataManager.registry_of w') u.
Proof.
  intros (_ & Horigin & _) Hs f' Hin Hf'.
  destruct (Horigin f' Hin) as [Hold|Hdone]; [now apply Hs | exact Hdone].
Qed.

Lemma step_keeps_unique_links (b : bool) (url : string)
    (w w' : DataManager.World) :
  Notions.marks_step b url w w' ->
  Spec.unique_links (DataManager.registry_of w) ->
  Spec.unique_links (DataManager.registry_of w').
Proof.
  intros (Hlinks & _) Hu. unfold Spec.unique_links. now rewrite Hlinks.
Qed.

Lemma for_each_keeps_settled
    (fetch : FilingStatusManager.FilingInfo -> DailyRunSteps.Outcome)
    (u : string) (batch : list FilingStatusManager.FilingInfo) :
  forall (c : DailyRunSteps.Counts) (w : DataManager.World),
    Notions.settled (DataManager.registry_of w) u ->
    Notions.settled
      (DataManager.registry_of
         (snd (DailyRunSteps.for_each batch (DailyRunSteps.process_one fetch)
                 c w))) u.
Proof.
  induction batch as [|info more IH]; intros c w Hs; [exact Hs|].
  rewrite for_each_cons. apply IH.
  exact (step_keeps_settled _ _ u _ _ (process_one_step fetch info c w) Hs).
Qed.

Lemma for_each_keeps_unique_links
    (fetch : FilingStatusManager.FilingInfo -> DailyRunSteps.Outcome)
    (batch : list FilingStatusManager.FilingInfo) :
  forall (c : DailyRunSteps.Counts) (w : DataManager.World),
    Spec.unique_links (DataManager.registry_of w) ->
    Spec.unique_links
      (DataManager.registry_of
         (snd (DailyRunSteps.for_each batch (DailyRunSteps.process_one fetch)
                 c w))).
Proof.
  induction batch as [|info more IH]; intros c w Hu; [exact Hu|].
  rewrite for_each_cons. apply IH.
  exact (step_keeps_unique_links _ _ _ _ (process_one_step fetch info c w) Hu).
Qed.

Lemma for_each_settles
    (fetch : FilingStatusManager.FilingInfo -> DailyRunSteps.Outcome)
    (batch : list FilingStatusManager.FilingInfo) :
  forall (c : DailyRunSteps.Counts) (w : DataManager.World),
    Spec.unique_links (DataManager.registry_of w) ->
    forall info,
      In info batch ->
      Notions.verdict (fetch info) <> Notions.Retry ->
      Notions.settled
        (DataManager.registry_of
           (snd (DailyRunSteps.for_each batch (DailyRunSteps.process_one fetch)
                   c w)))
        (FilingStatusManager.info_pdf_url info).
Proof.
  induction batch as [|first more IH]; intros c w Hu info Hin Hv; [destruct Hin|].
  rewrite for_each_cons.
  pose proof (process_one_step fetch first c w) as Hstep.
  destruct Hin as [->|Hin].
  - apply for_each_keeps_settled.
    destruct Hstep as (_ & _ & Hsettles). apply Hsettles; [|exact Hu].
    destruct (Notions.verdict (fetch info)); [reflexivity..|].
    now contradiction Hv.
  - apply IH; [|exact Hin|exact Hv].
    exact (step_keeps_unique_links _ _ _ _ Hstep Hu).
Qed.

(** X9.  In a registry with unique links, a document of the batch that
    is settled (extracted without a reported error, or failed with a
    permanent error) is not listed by [identify_pending_filings()] after
    [_process_pending_pdfs], whatever the later documents of the batch come
    to; and the links of the registry are still unique. *)
Theorem settled_batch_leaves_pending
    (fetch : FilingStatusManager.FilingInfo -> DailyRunSteps.Outcome)
    (max_files_per_run : Z)
    (pending_filings : list FilingStatusManager.FilingInfo)
    (w : DataManager.World) :
  Spec.unique_links (DataManager.registry_of w) ->
  let w' := DataManager.run
              (DailyRunSteps._process_pending_pdfs fetch max_files_per_run
                 pending_filings) w in
  Spec.unique_links (DataManager.registry_of w') /\
  forall info,
    In info (DailyRunSteps.take_upto max_files_per_run pending_filings) ->
    Notions.verdict (fetch info) <> Notions.Retry ->
    forall info',
      In info' (fst (FilingStatusManager.identify_pending_filings w')) ->
      FilingStatusManager.info_pdf_url info'
      <> FilingStatusManager.info_pdf_url info.
Proof.
  intros Hu w'.
  assert (Hreg : exists c0 w0,
            DataManager.registry_of w0 = DataManager.registry_of w /\
            DataManager.registry_of w'
            = DataManager.registry_of
                (snd (DailyRunSteps.for_each
                        (DailyRunSteps.take_upto max_files_per_run
                           pending_filings)
                        (DailyRunSteps.process_one fetch) c0 w0))).
  { subst w'. unfold DataManager.run.
    destruct pending_filings as [|info more].
    - exists (DailyRunSteps.mkCounts 0 0 0), w. split; [reflexivity|].
      unfold DailyRunSteps.take_upto.
      destruct (max_files_per_run <? 0)%Z; rewrite List.firstn_nil;
        apply registry_of_files.
    - unfold DailyRunSteps._process_pending_pdfs.
      unfold DataManager.bind, DataManager.print, DataManager.ret.
      match goal with
      | |- context [DailyRunSteps.for_each ?b ?body ?c0 ?w0] =>
          exists c0, w0; split; [apply registry_of_files|];
          destruct (DailyRunSteps.for_each b body c0 w0) as [c1 w1]
      end.
      apply registry_of_files. }
  destruct Hreg as (c0 & w0 & Hr0 & Hr).
  rewrite <- Hr0 in Hu. split.
  - rewrite Hr. now apply for_each_keeps_unique_links.
  - intros info Hin Hv info' Hin' Heq.
    pose proof (for_each_settles fetch _ c0 w0 Hu info Hin Hv) as Hs.
    rewrite <- Hr in Hs.
    rewrite identify_pending_filings_eq in Hin'.
    apply identified_filing in Hin' as (f & Hf & Hneeds & Hurl & _).
    rewrite Hurl in Heq. rewrite (Hs f Hf Heq) in Hneeds. discriminate.
Qed.

Lemma settled_batch_leaves_pending_witness :
  let fetch := fun _ : FilingStatusManager.FilingInfo =>
                 DailyRunSteps.Raises "Invalid PDF header" in
  let pending := fst (FilingStatusManager.identify_pending_filings
                        Spec.example_world) in
  Spec.unique_links (DataManager.registry_of Spec.example_world) /\
  forall info',
    In info'
       (fst (FilingStatusManager.identify_pending_filings
               (DataManager.run
                  (DailyRunSteps._process_pending_pdfs fetch 5 pending)
                  Spec.example_world))) ->
    FilingStatusManager.info_pdf_url info' <> Spec.example_link.
Proof.
  cbv zeta.
  assert (Hu : Spec.unique_links (DataManager.registry_of Spec.example_world)).
  { unfold Spec.unique_links. simpl.
    repeat constructor; simpl; intuition discriminate. }
  split; [exact Hu|].
  refine (proj2 (settled_batch_leaves_pending
                   (fun _ => DailyRunSteps.Raises "Invalid PDF header") 5
                   (fst (FilingStatusManager.identify_pending_filings
                           Spec.example_world))
                   Spec.example_world Hu)
            (FilingStatusManager.mkFilingInfo "Doe, Hon.. Jane_CA11"
               "Doe, Hon.. Jane" Spec.example_link "20012345" "PTR Original"
               "2024") _ _).
  - vm_compute. left. reflexivity.
  - vm_compute. discriminate.
Defined.

(** X10.  Let the registry have unique links and a Filing with the link of
    a document of the batch, and let the document be extracted without a
    reported error.  After its turn in the loop of [_process_pending_pdfs]
    the Filing has the status "processed" and [has_stock_transactions] is
    [False], however many transactions were extracted (the result handed
    to [mark_filing_processed] has the key ["stock_transaction_count"], not
    the key ["transaction_count"] the method reads); the result is stored
    in the ledger under the file name of the link without [".pdf"], with
    the number of transactions in [stock_transaction_count]; no entry of
    the queue has the link; and [processed] and [successful] have grown by
    one. *)
Theorem extracted_document_is_recorded
    (fetch : FilingStatusManager.FilingInfo -> DailyRunSteps.Outcome)
    (info : FilingStatusManager.FilingInfo) (x : DailyRunSteps.Extraction)
    (c : DailyRunSteps.Counts) (w : DataManager.World)
    (f : DataManager.Filing) :
  Spec.unique_links (DataManager.registry_of w) ->
  In f (DataManager.all_filings (DataManager.members (DataManager.registry_of w))) ->
  DataManager.pdf_link f = FilingStatusManager.info_pdf_url info ->
  fetch info = DailyRunSteps.Extracted x ->
  DailyRunSteps.reported_error x = None ->
  let url := FilingStatusManager.info_pdf_url info in
  let '(c', w') := DailyRunSteps.process_one fetch info c w in
  c' = DailyRunSteps.mkCounts (DailyRunSteps.processed c + 1)
         (DailyRunSteps.successful c + 1) (DailyRunSteps.failed c) /\
  (exists f',
     In f' (DataManager.all_filings
              (DataManager.members (DataManager.registry_of w'))) /\
     DataManager.pdf_link f' = url /\
     DataManager.pdf_id f' = DataManager.pdf_id f /\
     DataManager.processing_status f' = Some "processed" /\
     DataManager.has_stock_transactions f' = Some false) /\
  (exists r,
     DataManager.processed_filings (DataManager.ledger_of w')
       !! DataManager.filing_no_of url = Some (DataManager.ResultRecord r) /\
     DataManager.stock_transaction_count r
     = Z.of_nat (List.length (DailyRunSteps.x_transactions x)) /\
     DataManager.transactions r = DailyRunSteps.x_transactions x) /\
  (forall e,
     In e (DataManager.pending_processing (DataManager.ledger_of w')) ->
     DataManager.pdf_url e <> url).
Proof.
  intros Hu Hin Hlink Hfetch Herr url.
  pose proof (process_one_counts fetch info c w) as Hc.
  destruct (process_one_store fetch info c w) as (w0 & Hc0 & Ht0 & Hw).
  destruct (DailyRunSteps.process_one fetch info c w) as [c' w'].
  cbn [fst snd] in Hc, Hw.
  unfold Notions.verdict in Hc. rewrite Hfetch, Herr in Hc, Hw.
  fold url in Hw. split; [exact Hc|]. subst w'.
  assert (Hr : DataManager.registry_of w0 = DataManager.registry_of w)
    by now apply registry_of_congress_file.
  assert (Hl : DataManager.ledger_of w0 = DataManager.ledger_of w)
    by now apply ledger_of_trading_file.
  destruct (mark_filing_processed_run url
              (Some (DailyRunSteps.processing_result url x)) w0)
    as (ms' & found & t & Hspec & Hms & _ & Hled & _).
  rewrite Hms, Hled. rewrite Hr in Hspec.
  destruct found.
  2:{ exfalso. destruct Hspec as [_ Hspec].
      rewrite List.Forall_forall in Hspec. exact (Hspec f Hin Hlink). }
  destruct Hspec as (pre & f0 & post & Hfs & Hfs' & Hl0 & _).
  unfold Spec.unique_links in Hu. rewrite Hfs in Hu.
  destruct (replaced_filing_unique url pre post f0 f0 Hu Hl0) as [Hold _].
  rewrite Hfs in Hin. rewrite (Hold f Hin Hlink).
  split; [|split].
  - eexists. split; [rewrite Hfs'; apply List.in_or_app; right; now left|].
    repeat split. exact Hl0.
  - eexists. cbn [Notions.saved_ledger DataManager.processed_filings].
    rewrite lookup_insert_eq. repeat split.
  - intros e He. cbn [Notions.saved_ledger DataManager.pending_processing] in He.
    now apply remove_pending_spec in He.
Qed.

Lemma extracted_document_is_recorded_witness :
  let x := DailyRunSteps.mkExtraction None [("name", "Hon. Jane Doe")]
             (DataManager.transactions Spec.example_result)
             "2024-03-12T09:00:00" in
  let info := FilingStatusManager.mkFilingInfo "Doe, Hon.. Jane_CA11"
                "Doe, Hon.. Jane" Spec.example_link "20012345" "PTR Original"
                "2024" in
  Spec.unique_links (DataManager.registry_of Spec.example_world) /\
  DailyRunSteps.x_transactions x <> [] /\
  fst (DailyRunSteps.process_one (fun _ => DailyRunSteps.Extracted x) info
         (DailyRunSteps.mkCounts 0 0 0) Spec.example_world)
  = DailyRunSteps.mkCounts 1 1 0.
Proof.
  cbv zeta.
  assert (Hu : Spec.unique_links (DataManager.registry_of Spec.example_world)).
  { unfold Spec.unique_links. simpl.
    repeat constructor; simpl; intuition discriminate. }
  split; [exact Hu|]. split; [discriminate|].
  pose proof (extracted_document_is_recorded
                (fun _ => DailyRunSteps.Extracted
                            (DailyRunSteps.mkExtraction None
                               [("name", "Hon. Jane Doe")]
                               (DataManager.transactions Spec.example_result)
                               "2024-03-12T09:00:00"))
                (FilingStatusManager.mkFilingInfo "Doe, Hon.. Jane_CA11"
                   "Doe, Hon.. Jane" Spec.example_link "20012345"
                   "PTR Original" "2024")
                _ (DailyRunSteps.mkCounts 0 0 0) Spec.example_world
                Spec.example_filing Hu (or_intror (or_introl eq_refl))
                eq_refl eq_refl eq_refl) as H.
  cbv zeta in H.
  destruct (DailyRunSteps.process_one _ _ _ _) as [c' w'].
  exact (proj1 H).
Defined.

(** ** Filling the queue *)

Lemma ledger_of_written (file : option DataManager.Registry)
    (l : DataManager.Ledger) (t : DataManager.instant) (out : list string) :
  DataManager.ledger_of (DataManager.mkWorld file (Some l) t out) = l.
Proof. reflexivity. Qed.

(** What [add_pending_filing] does in either case. *)
Lemma add_pending_filing_effect (w : DataManager.World)
    (e : DataManager.PendingEntry) :
  let w' := snd (DataAccess.add_pending_filing e w) in
  DataManager.congress_file w' = DataManager.congress_file w /\
  DataManager.processed_filings (DataManager.ledger_of w')
  = DataManager.processed_filings (DataManager.ledger_of w) /\
  (exists extra,
     DataManager.pending_processing (DataManager.ledger_of w')
     = DataManager.pending_processing (DataManager.ledger_of w) ++ extra) /\
  In (DataManager.pdf_url e) (Notions.queue_links w').
Proof.
  cbv zeta. unfold Notions.queue_links.
  destruct (bool_decide
              (DataManager.pdf_url e
               ∈ (list_to_set
                    (map DataManager.pdf_url
                       (DataManager.pending_processing (DataManager.ledger_of w)))
                  : gset string))) eqn:Hq.
  - apply bool_decide_eq_true_1, in_link_set in Hq.
    rewrite (add_pending_filing_queued_run w e Hq). cbn [snd].
    repeat split.
    + exists (@nil DataManager.PendingEntry). now rewrite List.app_nil_r.
    + destruct Hq as (item & Hin & <-). now apply List.in_map.
  - apply bool_decide_eq_false_1 in Hq. rewrite in_link_set in Hq.
    rewrite add_pending_filing_fresh_run.
    2:{ intros item Hin Heq. apply Hq. now exists item. }
    cbn [snd]. rewrite ledger_of_written.
    cbn [DataManager.congress_file DataManager.processed_filings
         DataManager.pending_processing].
    repeat split.
    + now eexists.
    + rewrite List.map_app. apply List.in_or_app. right. now left.
Qed.

Lemma queue_one_effect (info : FilingStatusManager.FilingInfo) (n : Z)
    (w : DataManager.World) :
  let w' := snd (DailyRunSteps.queue_one info n w) in
  DataManager.congress_file w' = DataManager.congress_file w /\
  DataManager.processed_filings (DataManager.ledger_of w')
  = DataManager.processed_filings (DataManager.ledger_of w) /\
  (exists extra,
     DataManager.pending_processing (DataManager.ledger_of w')
     = DataManager.pending_processing (DataManager.ledger_of w) ++ extra) /\
  In (FilingStatusManager.info_pdf_url info) (Notions.queue_links w') /\
  (List.NoDup (Notions.queue_links w) -> List.NoDup (Notions.queue_links w')).
Proof.
  cbv zeta. unfold DailyRunSteps.queue_one, DataManager.bind, DataManager.ret.
  match goal with
  | |- context [DataAccess.add_pending_filing ?e w] =>
      pose proof (add_pending_filing_effect w e) as H;
      pose proof (add_pending_filing_distinct w e) as Hnd;
      unfold DataManager.run in Hnd;
      destruct (DataAccess.add_pending_filing e w) as [added w1]
  end.
  cbv zeta in H. cbn [snd] in H, Hnd |- *.
  destruct H as (H1 & H2 & H3 & H4). auto.
Qed.

Lemma queue_loop_effect (infos : list FilingStatusManager.FilingInfo) :
  forall (n : Z) (w : DataManager.World),
    let w' := snd (DailyRunSteps.for_each infos DailyRunSteps.queue_one n w) in
    DataManager.congress_file w' = DataManager.congress_file w /\
    DataManager.processed_filings (DataManager.ledger_of w')
    = DataManager.processed_filings (DataManager.ledger_of w) /\
    (exists extra,
       DataManager.pending_processing (DataManager.ledger_of w')
       = DataManager.pending_processing (DataManager.ledger_of w) ++ extra) /\
    (forall info,
       In info infos ->
       In (FilingStatusManager.info_pdf_url info) (Notions.queue_links w')) /\
    (List.NoDup (Notions.queue_links w) -> List.NoDup (Notions.queue_links w')).
Proof.
  induction infos as [|first more IH]; intros n w.
  - cbn. repeat split; [|intros _ []|auto].
    exists (@nil DataManager.PendingEntry). now rewrite List.app_nil_r.
  - rewrite for_each_cons. cbv zeta.
    destruct (queue_one_effect first n w) as (H1 & H2 & (ex1 & H3) & H4 & H5).
    destruct (IH (fst (DailyRunSteps.queue_one first n w))
                (snd (DailyRunSteps.queue_one first n w)))
      as (I1 & I2 & (ex2 & I3) & I4 & I5).
    split; [now rewrite I1|]. split; [now rewrite I2|].
    split; [exists (ex1 ++ ex2); now rewrite I3, H3, List.app_assoc|].
    split; [|auto].
    intros info [<-|Hin]; [|now apply I4].
    unfold Notions.queue_links in *. rewrite I3, List.map_app.
    apply List.in_or_app. now left.
Qed.

Lemma identify_pending_filings_world (w : DataManager.World) :
  snd (FilingStatusManager.identify_pending_filings w)
  = DataManager.mkWorld (DataManager.congress_file w)
      (DataManager.trading_file w) (DataManager.clock w)
      (DataManager.stdout w
       ++ ["Identified "
           +:+ Py.str_int
                 (Z.of_nat
                    (List.length
                       (fst (FilingStatusManager.identify_pending_filings w))))
           +:+ " pending filings"]).
Proof.
  unfold FilingStatusManager.identify_pending_filings, DataManager.bind.
  now rewrite load_congress_data_eq.
Qed.

(** The run of [_update_trading_database]: the listing, the loop, the
    closing line. *)
Lemma update_trading_database_run (w : DataManager.World) :
  exists added w1,
    DailyRunSteps.for_each
      (fst (FilingStatusManager.identify_pending_filings w))
      DailyRunSteps.queue_one 0%Z
      (snd (FilingStatusManager.identify_pending_filings w))
    = (added, w1) /\
    DataManager.run DailyRunSteps._update_trading_database w
    = DataManager.mkWorld (DataManager.congress_file w1)
        (DataManager.trading_file w1) (DataManager.clock w1)
        (DataManager.stdout w1
         ++ ["Added " +:+ Py.str_int added
             +:+ " new filings to pending processing queue"]).
Proof.
  unfold DataManager.run, DailyRunSteps._update_trading_database.
  unfold DataManager.bind at 1 2.
  destruct (FilingStatusManager.identify_pending_filings w) as [infos w0].
  cbn [fst snd].
  destruct (DailyRunSteps.for_each infos DailyRunSteps.queue_one 0%Z w0)
    as [added w1].
  now exists added, w1.
Qed.

Lemma update_trading_database_effect (w : DataManager.World) :
  let w' := DataManager.run DailyRunSteps._update_trading_database w in
  DataManager.congress_file w' = DataManager.congress_file w /\
  DataManager.processed_filings (DataManager.ledger_of w')
  = DataManager.processed_filings (DataManager.ledger_of w) /\
  (exists extra,
     DataManager.pending_processing (DataManager.ledger_of w')
     = DataManager.pending_processing (DataManager.ledger_of w) ++ extra) /\
  (forall info,
     In info (fst (FilingStatusManager.identify_pending_filings w')) ->
     In (FilingStatusManager.info_pdf_url info) (Notions.queue_links w')) /\
  (List.NoDup (Notions.queue_links w) -> List.NoDup (Notions.queue_links w')).
Proof.
  cbv zeta.
  destruct (update_trading_database_run w) as (added & w1 & Hloop & ->).
  pose proof (queue_loop_effect
                (fst (FilingStatusManager.identify_pending_filings w)) 0%Z
                (snd (FilingStatusManager.identify_pending_filings w))) as H.
  cbv zeta in H. rewrite Hloop in H. cbn [snd] in H.
  unfold Notions.queue_links in *.
  rewrite identify_pending_filings_world in H.
  rewrite ledger_of_files in H. cbn [DataManager.congress_file] in H.
  destruct H as (H1 & H2 & H3 & H4 & H5).
  rewrite ledger_of_files. cbn [DataManager.congress_file].
  repeat split; auto.
  intros info Hin. apply H4.
  rewrite identify_pending_filings_eq, registry_of_files in Hin.
  rewrite identify_pending_filings_eq.
  now rewrite (registry_of_congress_file _ _ H1) in Hin.
Qed.

(** X11.  [_update_trading_database] leaves the registry file and the
    processed results as they were and keeps the queue as the beginning of
    the new queue; afterwards the link of every filing
    [identify_pending_filings()] lists is in the queue, and the links of the
    queue are pairwise distinct if they were. *)
Theorem update_trading_database_queues_pending (w : DataManager.World) :
  let w' := DataManager.run DailyRunSteps._update_trading_database w in
  DataManager.congress_file w' = DataManager.congress_file w /\
  DataManager.processed_filings (DataManager.ledger_of w')
  = DataManager.processed_filings (DataManager.ledger_of w) /\
  (exists extra,
     DataManager.pending_processing (DataManager.ledger_of w')
     = DataManager.pending_processing (DataManager.ledger_of w) ++ extra) /\
  (forall info,
     In info (fst (FilingStatusManager.identify_pending_filings w')) ->
     In (FilingStatusManager.info_pdf_url info) (Notions.queue_links w')) /\
  (List.NoDup (Notions.queue_links w) -> List.NoDup (Notions.queue_links w')).
Proof. exact (update_trading_database_effect w). Qed.

Lemma queue_loop_idle (infos : list FilingStatusManager.FilingInfo) :
  forall (n : Z) (w : DataManager.World),
    (forall info,
       In info infos ->
       In (FilingStatusManager.info_pdf_url info) (Notions.queue_links w)) ->
    DailyRunSteps.for_each infos DailyRunSteps.queue_one n w = (n, w).
Proof.
  induction infos as [|first more IH]; intros n w Hall; [reflexivity|].
  rewrite for_each_cons.
  assert (H1 : DailyRunSteps.queue_one first n w = (n, w)).
  { unfold DailyRunSteps.queue_one, DataManager.bind.
    rewrite add_pending_filing_queued_run; [reflexivity|].
    specialize (Hall first (or_introl eq_refl)).
    unfold Notions.queue_links in Hall.
    apply List.in_map_iff in Hall as (item & Heq & Hin).
    now exists item. }
  rewrite H1. cbn [fst snd]. apply IH. intros info Hin. apply Hall. now right.
Qed.

(** X12.  A second [_update_trading_database] right after the first one
    adds nothing: it writes neither file and does not read the clock; it
    prints the number of pending filings and
    ["Added 0 new filings to pending processing queue"]. *)
Theorem update_trading_database_twice (w : DataManager.World) :
  let w1 := DataManager.run DailyRunSteps._update_trading_database w in
  let w2 := DataManager.run DailyRunSteps._update_trading_database w1 in
  DataManager.congress_file w2 = DataManager.congress_file w1 /\
  DataManager.trading_file w2 = DataManager.trading_file w1 /\
  DataManager.clock w2 = DataManager.clock w1 /\
  DataManager.stdout w2
  = DataManager.stdout w1
    ++ ["Identified "
        +:+ Py.str_int
              (Z.of_nat
                 (List.length
                    (fst (FilingStatusManager.identify_pending_filings w1))))
        +:+ " pending filings";
        "Added 0 new filings to pending processing queue"].
Proof.
  cbv zeta.
  set (w1 := DataManager.run DailyRunSteps._update_trading_database w).
  assert (Hcov : forall info,
            In info (fst (FilingStatusManager.identify_pending_filings w1)) ->
            In (FilingStatusManager.info_pdf_url info) (Notions.queue_links w1)).
  { subst w1.
    exact (proj1 (proj2 (proj2 (proj2
             (update_trading_database_effect w))))). }
  clearbody w1.
  destruct (update_trading_database_run w1) as (added & w2 & Hloop & ->).
  rewrite queue_loop_idle in Hloop.
  2:{ intros info Hin. unfold Notions.queue_links.
      rewrite identify_pending_filings_world, ledger_of_files.
      now apply Hcov. }
  injection Hloop as <- <-.
  rewrite identify_pending_filings_world.
  cbn [DataManager.congress_file DataManager.trading_file DataManager.clock
       DataManager.stdout].
  repeat split. now rewrite <- List.app_assoc.
Qed.

(** ** The projections of the statuses *)

Lemma count_status_tally (m : gmap string nat) (a b c d : nat)
    (f : DataManager.Filing) :
  Notions.tally m a b c d ->
  Notions.tally (FilingStatusQueries.count_status m f)
    (a + (if Notions.has_status "pending" f then 1 else 0))
    (b + (if Notions.has_status "processed" f then 1 else 0))
    (c + (if Notions.has_status "failed" f then 1 else 0))
    (d + (if Notions.listed f then 0 else 1)).
Proof.
  intros (Ha & Hb & Hc & Hd & Hnone).
  unfold FilingStatusQueries.count_status, Notions.listed, Notions.has_status,
    Notions.tally.
  assert (Hins : forall key n k,
            ~ In k Notions.summary_keys -> In key Notions.summary_keys ->
            <[key := n]> m !! k = None).
  { intros key n k Hk Hkey. rewrite lookup_insert_ne; [now apply Hnone|].
    intros ->. now apply Hk. }
  destruct (DataManager.processing_status f) as [status|].
  - destruct (String.eqb_spec status "pending") as [->|Hp].
    { rewrite bool_decide_eq_true_2 by (rewrite Ha; eauto). rewrite Ha.
      cbn [default String.eqb Ascii.eqb Bool.eqb orb].
      rewrite lookup_insert_eq, !lookup_insert_ne by discriminate.
      rewrite !Nat.add_0_r, Nat.add_1_r.
      repeat split; auto. intros k Hk. apply Hins; [exact Hk|]. cbn. auto. }
    destruct (String.eqb_spec status "processed") as [->|Hq].
    { rewrite bool_decide_eq_true_2 by (rewrite Hb; eauto). rewrite Hb.
      cbn [default String.eqb Ascii.eqb Bool.eqb orb].
      rewrite lookup_insert_eq, !lookup_insert_ne by discriminate.
      rewrite !Nat.add_0_r, Nat.add_1_r.
      repeat split; auto. intros k Hk. apply Hins; [exact Hk|]. cbn. auto. }
    destruct (String.eqb_spec status "failed") as [->|Hr].
    { rewrite bool_decide_eq_true_2 by (rewrite Hc; eauto). rewrite Hc.
      cbn [default String.eqb Ascii.eqb Bool.eqb orb].
      rewrite lookup_insert_eq, !lookup_insert_ne by discriminate.
      rewrite !Nat.add_0_r, Nat.add_1_r.
      repeat split; auto. intros k Hk. apply Hins; [exact Hk|]. cbn. auto. }
    cbn [orb]. rewrite !Nat.add_0_r, Nat.add_1_r.
    assert (Hbump : Notions.tally
              (<["no_status" := S (default 0 (m !! "no_status"))]> m)
              a b c (S d)).
    { unfold Notions.tally. rewrite Hd.
      rewrite lookup_insert_eq, !lookup_insert_ne by discriminate.
      repeat split; auto. intros k Hk. apply Hins; [exact Hk|]. cbn. auto. }
    destruct (bool_decide (is_Some (m !! status))) eqn:Hdec; [|exact Hbump].
    apply bool_decide_eq_true_1 in Hdec.
    destruct (String.eqb_spec status "no_status") as [->|Hs]; [exact Hbump|].
    exfalso. rewrite Hnone in Hdec; [now destruct Hdec|].
    cbn. intros [H|[H|[H|[H|[]]]]]; congruence.
  - cbn [orb]. rewrite !Nat.add_0_r, Nat.add_1_r. rewrite Hd.
    rewrite lookup_insert_eq, !lookup_insert_ne by discriminate.
    repeat split; auto. intros k Hk. apply Hins; [exact Hk|]. cbn. auto.
Qed.

Lemma number_with_cons (p : DataManager.Filing -> bool)
    (f : DataManager.Filing) (l : list DataManager.Filing) :
  Notions.number_with p (f :: l)
  = (if p f then 1 else 0) + Notions.number_with p l.
Proof. unfold Notions.number_with. cbn. now destruct (p f). Qed.

Lemma fold_count_status_tally (l : list DataManager.Filing) :
  forall (m : gmap string nat) (a b c d : nat),
    Notions.tally m a b c d ->
    Notions.tally (fold_left FilingStatusQueries.count_status l m)
      (a + Notions.number_with (Notions.has_status "pending") l)
      (b + Notions.number_with (Notions.has_status "processed") l)
      (c + Notions.number_with (Notions.has_status "failed") l)
      (d + Notions.number_with (fun f => negb (Notions.listed f)) l).
Proof.
  induction l as [|f more IH]; intros m a b c d H.
  - unfold Notions.number_with. cbn. now rewrite !Nat.add_0_r.
  - cbn [fold_left]. rewrite !number_with_cons, !Nat.add_assoc.
    replace (if negb (Notions.listed f) then 1 else 0)
      with (if Notions.listed f then 0 else 1)
      by now destruct (Notions.listed f).
    apply IH. now apply count_status_tally.
Qed.

Lemma statuses_partition (l : list DataManager.Filing) :
  Notions.number_with (Notions.has_status "pending") l
  + Notions.number_with (Notions.has_status "processed") l
  + Notions.number_with (Notions.has_status "failed") l
  + Notions.number_with (fun f => negb (Notions.listed f)) l
  = List.length l.
Proof.
  induction l as [|f more IH]; [reflexivity|].
  rewrite !number_with_cons. cbn [List.length]. rewrite <- IH.
  unfold Notions.listed, Notions.has_status.
  destruct (DataManager.processing_status f) as [status|]; [|cbn; lia].
  destruct (String.eqb_spec status "pending") as [->|Hp]; [cbn; lia|].
  destruct (String.eqb_spec status "processed") as [->|Hq]; [cbn; lia|].
  destruct (String.eqb_spec status "failed") as [->|Hr]; cbn; lia.
Qed.

(** X13.  [get_status_summary()] has the four keys "pending", "processed",
    "failed" and "no_status" and no other; the first three count the
    filings with that status text, "no_status" counts all the others (no
    status, or any other text); every filing is counted once, so the four
    counts add up to the number of filings. *)
Theorem status_summary_counts (w : DataManager.World) :
  let fs := DataManager.all_filings
              (DataManager.members (DataManager.registry_of w)) in
  let s := fst (FilingStatusQueries.get_status_summary w) in
  exists a b c d,
    s !! "pending" = Some a /\ s !! "processed" = Some b /\
    s !! "failed" = Some c /\ s !! "no_status" = Some d /\
    a = Notions.number_with (Notions.has_status "pending") fs /\
    b = Notions.number_with (Notions.has_status "processed") fs /\
    c = Notions.number_with (Notions.has_status "failed") fs /\
    d = Notions.number_with (fun f => negb (Notions.listed f)) fs /\
    a + b + c + d = List.length fs /\
    forall k, is_Some (s !! k) -> In k Notions.summary_keys.
Proof.
  cbv zeta.
  unfold FilingStatusQueries.get_status_summary, DataManager.bind.
  rewrite load_congress_data_eq. cbn [fst DataManager.ret].
  assert (H0 : Notions.tally FilingStatusQueries.empty_summary 0 0 0 0).
  { unfold Notions.tally, FilingStatusQueries.empty_summary.
    repeat split; try reflexivity.
    intros k Hk. rewrite !lookup_insert_ne, lookup_empty; [reflexivity|..];
      intros <-; apply Hk; cbn; auto. }
  pose proof (fold_count_status_tally
                (DataManager.all_filings
                   (DataManager.members (DataManager.registry_of w)))
                _ 0 0 0 0 H0) as (Ha & Hb & Hc & Hd & Hnone).
  cbn [Nat.add] in *.
  do 4 eexists. split; [exact Ha|]. split; [exact Hb|]. split; [exact Hc|].
  split; [exact Hd|]. repeat split; try reflexivity.
  - apply statuses_partition.
  - intros k Hk.
    destruct (in_dec string_dec k Notions.summary_keys) as [Hin|Hout];
      [exact Hin|].
    rewrite (Hnone k Hout) in Hk. now destruct Hk.
Qed.

Lemma find_by_id (l : list DataManager.Filing) (f : DataManager.Filing) :
  List.NoDup (map DataManager.pdf_id l) -> In f l ->
  List.find (fun y => String.eqb (DataManager.pdf_id y) (DataManager.pdf_id f)) l
  = Some f.
Proof.
  induction l as [|x more IH]; intros Hnd Hin; [destruct Hin|].
  cbn in Hnd |- *. apply List.NoDup_cons_iff in Hnd as [Hx Hnd].
  destruct Hin as [->|Hin]; [now rewrite String.eqb_refl|].
  destruct (String.eqb_spec (DataManager.pdf_id x) (DataManager.pdf_id f))
    as [Heq|_]; [|now apply IH].
  exfalso. apply Hx. rewrite Heq. now apply List.in_map.
Qed.

(** With unique identifiers, [get_status] reads the status of the filing
    that has the identifier. *)
Lemma get_status_of_filing (w : DataManager.World) (f : DataManager.Filing) :
  Notions.unique_ids (DataManager.registry_of w) ->
  In f (DataManager.all_filings
          (DataManager.members (DataManager.registry_of w))) ->
  fst (FilingStatusQueries.get_status (DataManager.pdf_id f) w)
  = match DataManager.processing_status f with
    | Some status_str =>
        if Py.truthy status_str
        then FilingStatusQueries.FilingStatus_of status_str else None
    | None => None
    end.
Proof.
  intros Hids Hin.
  unfold FilingStatusQueries.get_status, DataManager.bind.
  rewrite load_congress_data_eq. cbn [fst DataManager.ret].
  now rewrite (find_by_id _ f Hids Hin).
Qed.

Lemma replaced_filing_status (url : string) (w w' : DataManager.World)
    (ms' : list (string * DataManager.Member)) (found : bool)
    (g : DataManager.Filing -> DataManager.Filing) (f : DataManager.Filing)
    (status : FilingStatusQueries.FilingStatus) :
  (forall x, DataManager.pdf_id (g x) = DataManager.pdf_id x) ->
  (forall x, DataManager.processing_status (g x)
             = Some (FilingStatusQueries.value status)) ->
  Spec.unique_links (DataManager.registry_of w) ->
  Notions.unique_ids (DataManager.registry_of w) ->
  In f (DataManager.all_filings (DataManager.members (DataManager.registry_of w))) ->
  DataManager.pdf_link f = url ->
  (if found then
     exists pre f0 post,
       DataManager.all_filings (DataManager.members (DataManager.registry_of w))
       = pre ++ f0 :: post /\
       DataManager.all_filings ms' = pre ++ g f0 :: post /\
       DataManager.pdf_link f0 = url /\
       Forall (DataManager.other_link url) pre
   else ms' = DataManager.members (DataManager.registry_of w) /\
        Forall (DataManager.other_link url)
          (DataManager.all_filings
             (DataManager.members (DataManager.registry_of w)))) ->
  DataManager.members (DataManager.registry_of w') = ms' ->
  fst (FilingStatusQueries.get_status (DataManager.pdf_id f) w') = Some status.
Proof.
  intros Hid Hst Hu Hids Hin Hlink Hspec Hms.
  destruct found.
  2:{ exfalso. destruct Hspec as [_ Hspec].
      rewrite List.Forall_forall in Hspec. exact (Hspec f Hin Hlink). }
  destruct Hspec as (pre & f0 & post & Hfs & Hfs' & Hl0 & _).
  unfold Spec.unique_links in Hu. unfold Notions.unique_ids in Hids.
  rewrite Hfs in Hu, Hids, Hin.
  destruct (replaced_filing_unique url pre post f0 f0 Hu Hl0) as [Hold _].
  rewrite (Hold f Hin Hlink). rewrite <- (Hid f0).
  rewrite get_status_of_filing.
  - rewrite Hst. now destruct status.
  - unfold Notions.unique_ids. rewrite Hms, Hfs'.
    rewrite List.map_app in Hids |- *. cbn [map] in Hids |- *.
    now rewrite Hid.
  - rewrite Hms, Hfs'. apply List.in_or_app. right. now left.
Qed.

(** X14.  In a registry with unique links and unique identifiers,
    [get_status] of the identifier of a Filing is [PROCESSED] after
    [mark_filing_processed] with the link of the Filing, [FAILED] after
    [mark_filing_error] with the link and [is_permanent=True], and what it
    was after [mark_filing_error] with [is_permanent=False]. *)
Theorem get_status_follows_marks (w : DataManager.World)
    (f : DataManager.Filing) (result : option DataManager.Result)
    (msg : string) :
  Spec.unique_links (DataManager.registry_of w) ->
  Notions.unique_ids (DataManager.registry_of w) ->
  In f (DataManager.all_filings (DataManager.members (DataManager.registry_of w))) ->
  let id := DataManager.pdf_id f in
  let url := DataManager.pdf_link f in
  fst (FilingStatusQueries.get_status id
         (DataManager.run (DataManager.mark_filing_processed url result) w))
  = Some FilingStatusQueries.PROCESSED /\
  fst (FilingStatusQueries.get_status id
         (DataManager.run (DataManager.mark_filing_error url msg true) w))
  = Some FilingStatusQueries.FAILED /\
  fst (FilingStatusQueries.get_status id
         (DataManager.run (DataManager.mark_filing_error url msg false) w))
  = fst (FilingStatusQueries.get_status id w).
Proof.
  intros Hu Hids Hin id url. subst id url. split; [|split].
  - destruct (mark_filing_processed_run (DataManager.pdf_link f) result w)
      as (ms' & found & t & Hspec & Hms & _).
    now apply (replaced_filing_status (DataManager.pdf_link f) w _ ms' found
                 (DataManager.set_processed result (DataManager.clock w))).
  - destruct (mark_filing_error_permanent_run (DataManager.pdf_link f) msg w)
      as (ms' & found & t & Hspec & Hms & _).
    now apply (replaced_filing_status (DataManager.pdf_link f) w _ ms' found
                 (DataManager.set_failed msg (S (DataManager.clock w)))).
  - destruct (mark_filing_error_transient_effect (DataManager.pdf_link f) msg w)
      as (_ & Hc & _).
    unfold FilingStatusQueries.get_status, DataManager.bind.
    rewrite !load_congress_data_eq.
    now rewrite (registry_of_congress_file _ _ Hc).
Qed.

Lemma get_status_follows_marks_witness :
  Spec.unique_links (DataManager.registry_of Spec.example_world) /\
  Notions.unique_ids (DataManager.registry_of Spec.example_world) /\
  fst (FilingStatusQueries.get_status "20012345" Spec.example_world)
  = Some FilingStatusQueries.PENDING /\
  fst (FilingStatusQueries.get_status "20012345"
         (DataManager.run
            (DataManager.mark_filing_processed Spec.example_link
               (Some Spec.example_result)) Spec.example_world))
  = Some FilingStatusQueries.PROCESSED.
Proof.
  assert (Hu : Spec.unique_links (DataManager.registry_of Spec.example_world)).
  { unfold Spec.unique_links. simpl.
    repeat constructor; simpl; intuition discriminate. }
  assert (Hi : Notions.unique_ids (DataManager.registry_of Spec.example_world)).
  { unfold Notions.unique_ids. simpl.
    repeat constructor; simpl; intuition discriminate. }
  split; [exact Hu|]. split; [exact Hi|]. split; [reflexivity|].
  exact (proj1 (get_status_follows_marks Spec.example_world
                  Spec.example_filing (Some Spec.example_result) "timeout"
                  Hu Hi (or_intror (or_introl eq_refl)))).
Defined.

(** ** The scraper's merge *)

Lemma all_filings_app (ms ms' : list (string * DataManager.Member)) :
  DataManager.all_filings (ms ++ ms')
  = DataManager.all_filings ms ++ DataManager.all_filings ms'.
Proof. unfold DataManager.all_filings. apply List.flat_map_app. Qed.

Lemma append_filing_present (key : string) (fd : DataManager.Filing)
    (ms : list (string * DataManager.Member)) :
  FilingScraper.has_member key ms = true ->
  exists pre post,
    DataManager.all_filings ms = pre ++ post /\
    DataManager.all_filings (FilingScraper.append_filing key fd ms)
    = pre ++ fd :: post.
Proof.
  unfold FilingScraper.has_member.
  induction ms as [|[k md] more IH]; intros H; [discriminate H|].
  cbn [existsb fst] in H. cbn [FilingScraper.append_filing].
  destruct (String.eqb k key).
  - exists (DataManager.filings md), (DataManager.all_filings more).
    split; [reflexivity|].
    cbn [DataManager.all_filings flat_map snd DataManager.filings].
    now rewrite <- List.app_assoc.
  - destruct (IH H) as (pre & post & Hfs & Hfs').
    exists (DataManager.filings md ++ pre), post.
    change (DataManager.all_filings ((k, md) :: more))
      with (DataManager.filings md ++ DataManager.all_filings more).
    change (DataManager.all_filings
              ((k, md) :: FilingScraper.append_filing key fd more))
      with (DataManager.filings md
            ++ DataManager.all_filings (FilingScraper.append_filing key fd more)).
    rewrite Hfs, Hfs', <- !List.app_assoc. auto.
Qed.

Lemma has_member_app (key : string) (ms ms' : list (string * DataManager.Member)) :
  FilingScraper.has_member key (ms ++ ms')
  = FilingScraper.has_member key ms || FilingScraper.has_member key ms'.
Proof. unfold FilingScraper.has_member. apply List.existsb_app. Qed.

(** One new filing is put among the filings, which stay in their order. *)
Lemma add_filing_filings (ms : list (string * DataManager.Member))
    (row : FilingScraper.Scraped) :
  exists pre post,
    DataManager.all_filings ms = pre ++ post /\
    DataManager.all_filings (FilingScraper.add_filing ms row)
    = pre ++ FilingScraper.filing_data_of row :: post.
Proof.
  unfold FilingScraper.add_filing.
  destruct (FilingScraper.has_member _ ms) eqn:Hm.
  - now apply append_filing_present.
  - match goal with
    | |- context [FilingScraper.append_filing ?key ?fd (ms ++ [?new])] =>
        destruct (append_filing_present key fd (ms ++ [new]))
          as (pre & post & Hfs & Hfs')
    end.
    + rewrite has_member_app. unfold FilingScraper.has_member at 2.
      cbn [existsb fst]. rewrite String.eqb_refl. apply orb_true_r.
    + exists pre, post. split; [|exact Hfs'].
      rewrite all_filings_app in Hfs. cbn in Hfs.
      now rewrite List.app_nil_r in Hfs.
Qed.

Lemma merged_filings (rows : list FilingScraper.Scraped) :
  forall ms : list (string * DataManager.Member),
    Permutation
      (DataManager.all_filings (fold_left FilingScraper.add_filing rows ms))
      (DataManager.all_filings ms ++ map FilingScraper.filing_data_of rows).
Proof.
  induction rows as [|row more IH]; intros ms.
  - cbn. now rewrite List.app_nil_r.
  - cbn [fold_left map]. rewrite IH.
    destruct (add_filing_filings ms row) as (pre & post & -> & ->).
    rewrite <- List.app_assoc. cbn [app].
    etransitivity; [symmetry; apply Permutation_middle|].
    rewrite List.app_assoc. apply Permutation_middle.
Qed.

Lemma load_existing_data_eq (w : DataManager.World) :
  FilingScraper.load_existing_data w
  = (fst (FilingScraper.load_existing_data w), w).
Proof.
  unfold FilingScraper.load_existing_data.
  now destruct (DataManager.congress_file w).
Qed.

(** The scraper's loader and [load_congress_data] read the same members. *)
Lemma load_existing_data_members (w : DataManager.World) :
  DataManager.members (fst (FilingScraper.load_existing_data w))
  = DataManager.members (DataManager.registry_of w).
Proof.
  unfold FilingScraper.load_existing_data, DataManager.registry_of,
    DataManager.load_congress_data.
  now destruct (DataManager.congress_file w).
Qed.

Lemma registry_of_written (data : DataManager.Registry)
    (file : option DataManager.Ledger) (t : DataManager.instant)
    (out : list string) :
  DataManager.members
    (DataManager.registry_of (DataManager.mkWorld (Some data) file t out))
  = DataManager.members data.
Proof. reflexivity. Qed.

(** The run of a scrape that is due. *)
Lemma update_data_run (twelve_hours : Z) (str_timedelta : Z -> string)
    (rows : list FilingScraper.Scraped) (force_full_scrape : bool)
    (w : DataManager.World) :
  Notions.due twelve_hours force_full_scrape w ->
  let ms := fold_left FilingScraper.add_filing (Notions.new_rows rows w)
              (DataManager.members (DataManager.registry_of w)) in
  exists (t : DataManager.instant) (tm tf : option nat) (out : list string),
    FilingScraper.update_data twelve_hours str_timedelta (Some rows)
      force_full_scrape w
    = (Some (FilingScraper.mkScrapeSummary (List.length rows)
               (List.length (Notions.new_rows rows w))
               (Notions.new_rows rows w) (List.length ms) (Some t)),
       DataManager.mkWorld
         (Some (DataManager.mkRegistry (Some t) tm tf ms))
         (DataManager.trading_file w) (S t) out) /\
    (Notions.new_rows rows w <> [] ->
     tm = Some (List.length ms) /\ tf = Some (DataManager.count_filings ms)).
Proof.
  intros Hdue. cbv zeta. rewrite <- load_existing_data_members.
  unfold Notions.due in Hdue. unfold Notions.new_rows.
  unfold FilingScraper.update_data.
  pose proof (load_existing_data_eq w) as Hload.
  remember (fst (FilingScraper.load_existing_data w)) as existing eqn:He.
  unfold DataManager.bind at 1. rewrite Hload.
  unfold DataManager.bind at 1.
  destruct (if force_full_scrape then None
            else DataManager.last_updated existing) as [last|].
  - unfold DataManager.bind at 1. cbn [DataManager.now].
    rewrite (proj2 (Z.ltb_ge _ _) Hdue). cbn [DataManager.ret].
    destruct (FilingScraper.identify_new_filings rows
                (FilingScraper.get_existing_pdf_urls existing)) as [|row more];
      do 4 eexists; (split; [reflexivity|]); [now intros []|auto].
  - cbn [DataManager.ret].
    destruct (FilingScraper.identify_new_filings rows
                (FilingScraper.get_existing_pdf_urls existing)) as [|row more];
      do 4 eexists; (split; [reflexivity|]); [now intros []|auto].
Qed.

Lemma needing_filing_identified (ms : list (string * DataManager.Member))
    (f : DataManager.Filing) :
  In f (DataManager.all_filings ms) ->
  FilingStatusManager.needs_processing f = true ->
  exists info,
    In info (flat_map (fun km =>
               FilingStatusManager.pending_of_member (fst km) (snd km)) ms) /\
    FilingStatusManager.info_pdf_url info = DataManager.pdf_link f /\
    FilingStatusManager.info_pdf_id info = DataManager.pdf_id f.
Proof.
  intros Hin Hneeds. unfold DataManager.all_filings in Hin.
  apply List.in_flat_map in Hin as ([key md] & Hkm & Hf).
  eexists. split.
  - apply List.in_flat_map. exists (key, md). split; [exact Hkm|].
    unfold FilingStatusManager.pending_of_member.
    apply List.in_map. apply List.filter_In. split; [exact Hf | exact Hneeds].
  - split; reflexivity.
Qed.

Lemma new_rows_spec (rows : list FilingScraper.Scraped)
    (w : DataManager.World) (row : FilingScraper.Scraped) :
  In row (Notions.new_rows rows w) <->
  In row rows /\
  ~ In (FilingScraper.s_pdf_link row)
      (map DataManager.pdf_link
         (DataManager.all_filings
            (DataManager.members (DataManager.registry_of w)))).
Proof.
  unfold Notions.new_rows, FilingScraper.identify_new_filings,
    FilingScraper.get_existing_pdf_urls.
  rewrite List.filter_In, load_existing_data_members.
  rewrite negb_true_iff, bool_decide_eq_false.
  now rewrite elem_of_list_to_set, list_elem_of_In.
Qed.

(** What a scrape that is due leaves in the registry. *)
Lemma update_data_effect (twelve_hours : Z) (str_timedelta : Z -> string)
    (rows : list FilingScraper.Scraped) (force_full_scrape : bool)
    (w : DataManager.World) :
  Notions.due twelve_hours force_full_scrape w ->
  let w' := snd (FilingScraper.update_data twelve_hours str_timedelta
                   (Some rows) force_full_scrape w) in
  DataManager.trading_file w' = DataManager.trading_file w /\
  Permutation
    (DataManager.all_filings (DataManager.members (DataManager.registry_of w')))
    (DataManager.all_filings (DataManager.members (DataManager.registry_of w))
     ++ map FilingScraper.filing_data_of (Notions.new_rows rows w)).
Proof.
  intros Hdue.
  destruct (update_data_run twelve_hours str_timedelta rows force_full_scrape
              w Hdue) as (t & tm & tf & out & -> & _).
  cbn [snd DataManager.trading_file]. split; [reflexivity|].
  rewrite registry_of_written. cbn [DataManager.members].
  apply merged_filings.
Qed.

Lemma update_data_covers (twelve_hours : Z) (str_timedelta : Z -> string)
    (rows : list FilingScraper.Scraped) (force_full_scrape : bool)
    (w : DataManager.World) :
  Notions.due twelve_hours force_full_scrape w ->
  forall row,
    In row rows ->
    In (FilingScraper.s_pdf_link row)
       (map DataManager.pdf_link
          (DataManager.all_filings
             (DataManager.members
                (DataManager.registry_of
                   (snd (FilingScraper.update_data twelve_hours str_timedelta
                           (Some rows) force_full_scrape w)))))).
Proof.
  intros Hdue row Hrow.
  destruct (update_data_effect twelve_hours str_timedelta rows
              force_full_scrape w Hdue) as [_ Hperm].
  apply (Permutation_in _
           (Permutation_sym (Permutation_map DataManager.pdf_link Hperm))).
  rewrite List.map_app. apply List.in_or_app.
  destruct (in_dec string_dec (FilingScraper.s_pdf_link row)
              (map DataManager.pdf_link
                 (DataManager.all_filings
                    (DataManager.members (DataManager.registry_of w)))))
    as [Hold|Hnew]; [now left|right].
  rewrite List.map_map. apply List.in_map_iff. exists row.
  split; [reflexivity|]. now apply new_rows_spec.
Qed.

(** X15.  A scrape that is due (forced, or no time of a last update, or
    twelve hours or more since) leaves the ledger file alone and adds to the
    registry exactly the rows whose link the registry did not have, each
    as a filing with the status "pending": every filing that was there is
    still there, unchanged; afterwards every scraped link is in the
    registry, every added row is listed by [identify_pending_filings()],
    and the summary reports the number of rows and the added rows. *)
Theorem update_data_adds_new_filings (twelve_hours : Z)
    (str_timedelta : Z -> string) (rows : list FilingScraper.Scraped)
    (force_full_scrape : bool) (w : DataManager.World) :
  Notions.due twelve_hours force_full_scrape w ->
  let '(r, w') := FilingScraper.update_data twelve_hours str_timedelta
                    (Some rows) force_full_scrape w in
  let before := DataManager.all_filings
                  (DataManager.members (DataManager.registry_of w)) in
  let after := DataManager.all_filings
                 (DataManager.members (DataManager.registry_of w')) in
  DataManager.trading_file w' = DataManager.trading_file w /\
  Permutation after
    (before ++ map FilingScraper.filing_data_of (Notions.new_rows rows w)) /\
  (forall row,
     In row rows -> In (FilingScraper.s_pdf_link row)
                       (map DataManager.pdf_link after)) /\
  (forall row,
     In row (Notions.new_rows rows w) ->
     exists info,
       In info (fst (FilingStatusManager.identify_pending_filings w')) /\
       FilingStatusManager.info_pdf_url info = FilingScraper.s_pdf_link row /\
       FilingStatusManager.info_pdf_id info = FilingScraper.s_pdf_id row) /\
  (exists s,
     r = Some s /\
     FilingScraper.total_filings_found s = List.length rows /\
     FilingScraper.new_filings s = Notions.new_rows rows w /\
     FilingScraper.new_filings_count s
     = List.length (Notions.new_rows rows w)).
Proof.
  intros Hdue.
  pose proof (update_data_effect twelve_hours str_timedelta rows
                force_full_scrape w Hdue) as [Ht Hperm].
  destruct (update_data_run twelve_hours str_timedelta rows force_full_scrape
              w Hdue) as (t & tm & tf & out & Hrun & _).
  rewrite Hrun in Ht, Hperm |- *. cbn [snd] in Ht, Hperm. cbv zeta.
  split; [exact Ht|]. split; [exact Hperm|]. split; [|split].
  - intros row Hrow.
    pose proof (update_data_covers twelve_hours str_timedelta rows
                  force_full_scrape w Hdue row Hrow) as Hc.
    now rewrite Hrun in Hc.
  - intros row Hrow.
    rewrite identify_pending_filings_eq.
    destruct (needing_filing_identified
                (DataManager.members (DataManager.registry_of
                   (DataManager.mkWorld
                      (Some (DataManager.mkRegistry (Some t) tm tf
                               (fold_left FilingScraper.add_filing
                                  (Notions.new_rows rows w)
                                  (DataManager.members
                                     (DataManager.registry_of w)))))
                      (DataManager.trading_file w) (S t) out)))
                (FilingScraper.filing_data_of row))
      as (info & Hin & Hurl & Hid); [|reflexivity|now exists info].
    apply (Permutation_in _ (Permutation_sym Hperm)).
    apply List.in_or_app. right. now apply List.in_map.
  - eexists. repeat split.
Qed.

Lemma update_data_adds_new_filings_witness :
  Notions.due 12 true Spec.example_world /\
  Notions.new_rows Notions.example_rows Spec.example_world <> [] /\
  DataManager.trading_file
    (snd (FilingScraper.update_data 12 (fun _ => "0:00:00")
            (Some Notions.example_rows) true Spec.example_world))
  = DataManager.trading_file Spec.example_world.
Proof.
  split; [exact I|]. split; [vm_compute; discriminate|].
  pose proof (update_data_adds_new_filings 12 (fun _ => "0:00:00")
                Notions.example_rows true Spec.example_world I) as H.
  destruct (FilingScraper.update_data _ _ _ _ _) as [r w'].
  exact (proj1 H).
Defined.

Lemma NoDup_map_filter {A B} (f : A -> B) (p : A -> bool) (l : list A) :
  List.NoDup (map f l) -> List.NoDup (map f (List.filter p l)).
Proof.
  induction l as [|x more IH]; intros Hnd; [constructor|].
  cbn in Hnd |- *. apply List.NoDup_cons_iff in Hnd as [Hx Hnd].
  destruct (p x); [|now apply IH].
  cbn. constructor; [|now apply IH].
  intros Hin. apply Hx. apply List.in_map_iff in Hin as (y & Hy & Hin).
  apply List.filter_In in Hin as [Hin _].
  rewrite <- Hy. now apply List.in_map.
Qed.

Lemma append_filing_keys (key : string) (fd : DataManager.Filing)
    (ms : list (string * DataManager.Member)) :
  map fst (FilingScraper.append_filing key fd ms) = map fst ms.
Proof.
  induction ms as [|[k md] more IH]; [reflexivity|].
  cbn [FilingScraper.append_filing]. destruct (String.eqb k key); cbn;
    [reflexivity | now rewrite IH].
Qed.

Lemma add_filing_keys (ms : list (string * DataManager.Member))
    (row : FilingScraper.Scraped) :
  List.NoDup (map fst ms) ->
  List.NoDup (map fst (FilingScraper.add_filing ms row)).
Proof.
  intros Hnd. unfold FilingScraper.add_filing. rewrite append_filing_keys.
  destruct (FilingScraper.has_member _ ms) eqn:Hm; [exact Hnd|].
  rewrite List.map_app. cbn [map fst].
  apply List.NoDup_app; [exact Hnd | repeat constructor; intros [] |].
  intros k Hin [<-|[]].
  apply List.in_map_iff in Hin as ([k' md] & Hk & Hin). cbn in Hk. subst k'.
  unfold FilingScraper.has_member in Hm.
  assert (Ht : existsb (fun km : string * DataManager.Member =>
                          String.eqb (fst km)
                            (FilingScraper.get_member_key
                               (FilingScraper.s_name row)
                               (FilingScraper.s_office row))) ms = true).
  { apply List.existsb_exists. eexists. split; [exact Hin|].
    cbn. apply String.eqb_refl. }
  rewrite Ht in Hm. discriminate Hm.
Qed.

Lemma merged_keys (rows : list FilingScraper.Scraped) :
  forall ms : list (string * DataManager.Member),
    List.NoDup (map fst ms) ->
    List.NoDup (map fst (fold_left FilingScraper.add_filing rows ms)).
Proof.
  induction rows as [|row more IH]; intros ms Hkeys; [exact Hkeys|].
  cbn [fold_left]. apply IH. now apply add_filing_keys.
Qed.

(** X16.  A scrape that is due keeps the links of the registry pairwise
    distinct when the links of the scraped rows are (rows with the same link
    would each be added), and keeps the keys of the members distinct. *)
Theorem update_data_keeps_unique_links (twelve_hours : Z)
    (str_timedelta : Z -> string) (rows : list FilingScraper.Scraped)
    (force_full_scrape : bool) (w : DataManager.World) :
  Notions.due twelve_hours force_full_scrape w ->
  Spec.unique_links (DataManager.registry_of w) ->
  List.NoDup (map FilingScraper.s_pdf_link rows) ->
  let w' := snd (FilingScraper.update_data twelve_hours str_timedelta
                   (Some rows) force_full_scrape w) in
  Spec.unique_links (DataManager.registry_of w') /\
  (List.NoDup (map fst (DataManager.members (DataManager.registry_of w))) ->
   List.NoDup (map fst (DataManager.members (DataManager.registry_of w')))).
Proof.
  intros Hdue Hu Hrows w'. split.
  - destruct (update_data_effect twelve_hours str_timedelta rows
                force_full_scrape w Hdue) as [_ Hperm].
    fold w' in Hperm. unfold Spec.unique_links in *.
    apply (Permutation_NoDup
             (Permutation_sym (Permutation_map DataManager.pdf_link Hperm))).
    rewrite List.map_app, List.map_map.
    apply List.NoDup_app; [exact Hu | |].
    + change (fun x => DataManager.pdf_link (FilingScraper.filing_data_of x))
        with FilingScraper.s_pdf_link.
      now apply NoDup_map_filter.
    + intros url Hold Hnew.
      apply List.in_map_iff in Hnew as (row & <- & Hrow).
      apply new_rows_spec in Hrow as [_ Hfresh]. now apply Hfresh.
  - intros Hkeys. subst w'.
    destruct (update_data_run twelve_hours str_timedelta rows
                force_full_scrape w Hdue) as (t & tm & tf & out & -> & _).
    cbn [snd]. rewrite registry_of_written. cbn [DataManager.members].
    now apply merged_keys.
Qed.

Lemma update_data_keeps_unique_links_witness :
  Notions.due 12 true Spec.example_world /\
  Spec.unique_links (DataManager.registry_of Spec.example_world) /\
  List.NoDup (map FilingScraper.s_pdf_link Notions.example_rows) /\
  Spec.unique_links
    (DataManager.registry_of
       (snd (FilingScraper.update_data 12 (fun _ => "0:00:00")
               (Some Notions.example_rows) true Spec.example_world))).
Proof.
  assert (Hu : Spec.unique_links (DataManager.registry_of Spec.example_world)).
  { unfold Spec.unique_links. simpl.
    repeat constructor; simpl; intuition discriminate. }
  assert (Hr : List.NoDup (map FilingScraper.s_pdf_link Notions.example_rows)).
  { simpl. repeat constructor; simpl; intuition discriminate. }
  split; [exact I|]. split; [exact Hu|]. split; [exact Hr|].
  exact (proj1 (update_data_keeps_unique_links 12 (fun _ => "0:00:00")
                  Notions.example_rows true Spec.example_world I Hu Hr)).
Defined.

(** X17.  After a scrape that is due, no row of the same scrape is new: a
    forced scrape of the same rows right afterwards adds nothing, reports
    no new filing and leaves the members and their filings as they are
    (it writes the time of the update). *)
Theorem update_data_rescrape_adds_nothing (twelve_hours : Z)
    (str_timedelta : Z -> string) (rows : list FilingScraper.Scraped)
    (force_full_scrape : bool) (w : DataManager.World) :
  Notions.due twelve_hours force_full_scrape w ->
  let w1 := snd (FilingScraper.update_data twelve_hours str_timedelta
                   (Some rows) force_full_scrape w) in
  let '(r, w2) := FilingScraper.update_data twelve_hours str_timedelta
                    (Some rows) true w1 in
  Notions.new_rows rows w1 = [] /\
  DataManager.members (DataManager.registry_of w2)
  = DataManager.members (DataManager.registry_of w1) /\
  DataManager.trading_file w2 = DataManager.trading_file w /\
  exists s,
    r = Some s /\ FilingScraper.new_filings_count s = 0 /\
    FilingScraper.new_filings s = [] /\
    FilingScraper.total_filings_found s = List.length rows.
Proof.
  intros Hdue w1.
  assert (Hnew : Notions.new_rows rows w1 = []).
  { destruct (Notions.new_rows rows w1) as [|row more] eqn:Hn; [reflexivity|].
    exfalso.
    assert (Hin : In row (Notions.new_rows rows w1))
      by (rewrite Hn; now left).
    apply new_rows_spec in Hin as [Hrow Hfresh]. apply Hfresh.
    exact (update_data_covers twelve_hours str_timedelta rows
             force_full_scrape w Hdue row Hrow). }
  assert (Ht : DataManager.trading_file w1 = DataManager.trading_file w).
  { exact (proj1 (update_data_effect twelve_hours str_timedelta rows
                    force_full_scrape w Hdue)). }
  destruct (update_data_run twelve_hours str_timedelta rows true w1 I)
    as (t & tm & tf & out & -> & _).
  rewrite Hnew. cbn [fold_left List.length].
  rewrite registry_of_written. cbn [DataManager.members DataManager.trading_file].
  split; [reflexivity|]. split; [reflexivity|]. split; [exact Ht|].
  eexists. repeat split.
Qed.

Lemma update_data_rescrape_adds_nothing_witness :
  Notions.due 12 false
    (DataManager.mkWorld None None 7 []) /\
  Notions.new_rows Notions.example_rows
    (snd (FilingScraper.update_data 12 (fun _ => "0:00:00")
            (Some Notions.example_rows) false
            (DataManager.mkWorld None None 7 [])))
  = [].
Proof.
  split; [exact I|].
  pose proof (update_data_rescrape_adds_nothing 12 (fun _ => "0:00:00")
                Notions.example_rows false
                (DataManager.mkWorld None None 7 []) I) as H.
  cbv zeta in H.
  destruct (FilingScraper.update_data 12 _ _ true _) as [r w2].
  exact (proj1 H).
Defined.

(** X18.  Less than twelve hours after the last update, a scrape that is
    not forced does not use what [fetch_filings] would return and writes
    no file: it reads the clock once, prints that the scrape is skipped,
    and reports no filing found, none new, the number of members and the
    time of the last update as it was. *)
Theorem update_data_skips_recent (twelve_hours : Z)
    (str_timedelta : Z -> string)
    (fetched : option (list FilingScraper.Scraped))
    (w : DataManager.World) (data : DataManager.Registry)
    (last : DataManager.instant) :
  DataManager.congress_file w = Some data ->
  DataManager.last_updated data = Some last ->
  (Z.of_nat (DataManager.clock w) - Z.of_nat last < twelve_hours)%Z ->
  FilingScraper.update_data twelve_hours str_timedelta fetched false w
  = (Some (FilingScraper.mkScrapeSummary 0 0 []
             (List.length (DataManager.members data)) (Some last)),
     DataManager.mkWorld (DataManager.congress_file w)
       (DataManager.trading_file w) (S (DataManager.clock w))
       (DataManager.stdout w
        ++ ["Last update was "
            +:+ str_timedelta (Z.of_nat (DataManager.clock w) - Z.of_nat last)%Z
            +:+ " ago (less than 12 hours). Skipping scrape."])).
Proof.
  intros Hfile Hlast Hrecent.
  unfold FilingScraper.update_data.
  unfold DataManager.bind at 1.
  unfold FilingScraper.load_existing_data at 1. rewrite Hfile.
  unfold DataManager.bind at 1. rewrite Hlast.
  unfold DataManager.bind at 1. cbn [DataManager.now DataManager.clock].
  rewrite (proj2 (Z.ltb_lt _ _) Hrecent).
  unfold DataManager.bind, DataManager.print, DataManager.ret.
  cbn [DataManager.congress_file DataManager.trading_file DataManager.clock
       DataManager.stdout].
  now rewrite Hfile.
Qed.

Lemma update_data_skips_recent_witness :
  DataManager.congress_file Spec.example_world = Some Spec.example_registry /\
  (Z.of_nat (DataManager.clock Spec.example_world) - Z.of_nat 0 < 12)%Z /\
  DataManager.congress_file
    (snd (FilingScraper.update_data 12 (fun _ => "0:00:03")
            (Some Notions.example_rows) false Spec.example_world))
  = Some Spec.example_registry.
Proof.
  split; [reflexivity|]. split; [reflexivity|].
  now rewrite (update_data_skips_recent 12 (fun _ => "0:00:03")
                 (Some Notions.example_rows) Spec.example_world
                 Spec.example_registry 0 eq_refl eq_refl eq_refl).
Defined.

(** ** The records of the extractor *)

Lemma asset_info_ticker (line : string) (context_lines : list string) :
  snd (TradingDataExtractor._extract_asset_info line context_lines) <> "" ->
  fst (TradingDataExtractor._extract_asset_info line context_lines) <> "".
Proof.
  unfold TradingDataExtractor._extract_asset_info.
  destruct (TradingDataExtractor.scan_ticker context_lines 0)
    as [[tk idx]|]; [|simpl; congruence].
  destruct (Py.truthy tk) eqn:Htk; cbn [negb fst snd]; [|congruence].
  intros _. exact (proj1 (truthy_iff tk) Htk).
Qed.

Lemma owner_or_code (oc : string) :
  TradingDataExtractor.dict_get TradingDataExtractor.OWNER_CODES oc "Self"
  = "Self" \/
  In oc ["SP"; "DC"; "JT"].
Proof.
  unfold TradingDataExtractor.OWNER_CODES.
  cbn [TradingDataExtractor.dict_get].
  destruct (String.eqb_spec "SP" oc) as [<-|_]; [right; simpl; auto|].
  destruct (String.eqb_spec "DC" oc) as [<-|_]; [right; simpl; auto|].
  destruct (String.eqb_spec "JT" oc) as [<-|_]; [right; simpl; auto|].
  now left.
Qed.

Lemma parse_record_shape (line : string) (context_lines : list string)
    (t : TradingDataExtractor.Transaction) :
  TradingDataExtractor._parse_transaction_line line context_lines = Some t ->
  TradingDataExtractor.ticker t <> "" /\
  TradingDataExtractor.amount t <> "" /\
  String.length (TradingDataExtractor.transaction_date t) = 10 /\
  String.length (TradingDataExtractor.notification_date t) = 10 /\
  TradingDataExtractor.transaction_type t
  = TradingDataExtractor._get_transaction_type line /\
  (TradingDataExtractor.owner t = "Self" \/
   In (TradingDataExtractor.owner_code t) ["SP"; "DC"; "JT"]).
Proof.
  unfold TradingDataExtractor._parse_transaction_line.
  destruct (TradingDataExtractor._extract_owner_code line) as [oc lw].
  pose proof (asset_info_ticker line context_lines) as Htk.
  destruct (TradingDataExtractor._extract_asset_info line context_lines)
    as [tk an]. cbn [fst snd] in Htk.
  destruct (Py.truthy an) eqn:Han; [|discriminate].
  destruct (Nat.ltb_spec
              (List.length (TradingDataExtractor._extract_dates line)) 2)
    as [Hd|Hd]; [discriminate|].
  destruct (Py.truthy (TradingDataExtractor._extract_and_categorize_amount line))
    eqn:Ham; [|discriminate].
  cbn [negb orb]. intros [= <-].
  cbn [TradingDataExtractor.ticker TradingDataExtractor.amount
       TradingDataExtractor.transaction_date
       TradingDataExtractor.notification_date
       TradingDataExtractor.transaction_type TradingDataExtractor.owner
       TradingDataExtractor.owner_code].
  assert (Hdate : forall k,
            k < List.length (TradingDataExtractor._extract_dates line) ->
            String.length (nth k (TradingDataExtractor._extract_dates line) "")
            = 10).
  { intros k Hk. apply date_word_length.
    apply (findall_sound _ line). now apply List.nth_In. }
  split; [apply Htk; exact (proj1 (truthy_iff an) Han)|].
  split; [exact (proj1 (truthy_iff _) Ham)|].
  split; [apply Hdate; lia|].
  split; [destruct (Nat.ltb_spec 1
             (List.length (TradingDataExtractor._extract_dates line)));
          [apply Hdate; lia | lia]|].
  split; [reflexivity|].
  exact (owner_or_code oc).
Qed.

(** X19.  Every record [_extract_all_transactions] emits has a ticker and
    an amount that are not empty, a transaction date and a notification
    date of ten characters each, one of the kinds "Purchase", "Sale" and
    "Unknown", and either the owner "Self" or one of the owner codes SP, DC
    and JT. *)
Theorem emitted_record_shape (pages : list (option string))
    (t : TradingDataExtractor.Transaction) :
  In t (TradingDataExtractor._extract_all_transactions pages) ->
  TradingDataExtractor.ticker t <> "" /\
  TradingDataExtractor.amount t <> "" /\
  String.length (TradingDataExtractor.transaction_date t) = 10 /\
  String.length (TradingDataExtractor.notification_date t) = 10 /\
  In (TradingDataExtractor.transaction_type t) ["Purchase"; "Sale"; "Unknown"] /\
  (TradingDataExtractor.owner t = "Self" \/
   In (TradingDataExtractor.owner_code t) ["SP"; "DC"; "JT"]).
Proof.
  intros H. unfold TradingDataExtractor._extract_all_transactions in H.
  apply List.in_flat_map in H as ([text|] & _ & H); [|contradiction].
  destruct (Py.truthy text); [|contradiction].
  apply records_of_lines in H as (i & line & _ & Hparse & _).
  apply parse_record_shape in Hparse as (H1 & H2 & H3 & H4 & H5 & H6).
  repeat split; auto.
  rewrite H5. unfold TradingDataExtractor._get_transaction_type.
  destruct (Py.contains " P " line); [simpl; auto|].
  destruct (Py.contains " S " line); simpl; auto.
Qed.

Lemma emitted_record_shape_witness :
  In Spec.example_record
     (TradingDataExtractor._extract_all_transactions
        [None; Some Spec.example_page]) /\
  String.length (TradingDataExtractor.transaction_date Spec.example_record)
  = 10.
Proof.
  assert (H : In Spec.example_record
                (TradingDataExtractor._extract_all_transactions
                   [None; Some Spec.example_page]))
    by (vm_compute; left; reflexivity).
  split; [exact H|].
  exact (proj1 (proj2 (proj2
           (emitted_record_shape [None; Some Spec.example_page]
              Spec.example_record H)))).
Defined.

Lemma firstn_min_length {A} (n : nat) (l : list A) :
  firstn (Nat.min (List.length l) n) l = firstn n l.
Proof.
  destruct (Nat.le_ge_cases n (List.length l)) as [H|H].
  - now rewrite Nat.min_r.
  - rewrite Nat.min_l by exact H.
    now rewrite List.firstn_all, List.firstn_all2.
Qed.

(** X20.  The context window of the line at [index] is that line and the
    [context] lines after it, as far as the page goes: no earlier line is
    in it, it has at most [context + 1] lines, and for an index of the page
    its first line is the line itself. *)
Theorem context_window_looks_ahead (lines : list string)
    (index context : nat) :
  let window := TradingDataExtractor._get_context_lines lines index context in
  window = firstn (context + 1) (skipn index lines) /\
  List.length window <= context + 1 /\
  (forall k, List.nth_error window k
             = if k <? context + 1 then List.nth_error lines (index + k)
               else None) /\
  List.nth_error window 0 = List.nth_error lines index.
Proof.
  cbv zeta.
  assert (Heq : TradingDataExtractor._get_context_lines lines index context
                = firstn (context + 1) (skipn index lines)).
  { unfold TradingDataExtractor._get_context_lines, TradingDataExtractor.slice.
    rewrite <- (firstn_min_length (context + 1) (skipn index lines)).
    f_equal. rewrite List.length_skipn. lia. }
  rewrite Heq. split; [reflexivity|].
  split; [apply List.firstn_le_length|].
  assert (Hnth : forall k,
            List.nth_error (firstn (context + 1) (skipn index lines)) k
            = if k <? context + 1 then List.nth_error lines (index + k)
              else None).
  { intros k. destruct (Nat.ltb_spec k (context + 1)) as [Hk|Hk].
    - rewrite List.nth_error_firstn.
      destruct (Nat.ltb_spec k (context + 1)); [|lia].
      apply List.nth_error_skipn.
    - apply List.nth_error_None.
      pose proof (List.firstn_le_length (context + 1) (skipn index lines)).
      lia. }
  split; [exact Hnth|].
  rewrite Hnth. destruct (Nat.ltb_spec 0 (context + 1)); [|lia].
  now rewrite Nat.add_0_r.
Qed.

Lemma scan_lines_length (lines : list string) (todo : list string) :
  forall i,
    List.length (TradingDataExtractor.scan_lines lines i todo)
    <= List.length todo.
Proof.
  induction todo as [|line more IH]; intros i; [apply Nat.le_refl|].
  cbn [TradingDataExtractor.scan_lines]. rewrite List.length_app.
  specialize (IH (S i)).
  assert (Hc : List.length (TradingDataExtractor.candidate lines i line) <= 1).
  { unfold TradingDataExtractor.candidate.
    destruct (TradingDataExtractor._is_transaction_line line); [|cbn; lia].
    destruct (TradingDataExtractor._is_stock_transaction _ _); [|cbn; lia].
    destruct (TradingDataExtractor._parse_transaction_line _ _); cbn; lia. }
  cbn [List.length]. lia.
Qed.

(** X21.  The records of a document are the records of its pages, one
    page after the other: a page's records do not depend on the other
    pages; a page without text, or with an empty text, gives none; and a
    page gives at most one record for each of its lines. *)
Theorem records_page_by_page (pages more : list (option string))
    (text : string) :
  TradingDataExtractor._extract_all_transactions (pages ++ more)
  = TradingDataExtractor._extract_all_transactions pages
    ++ TradingDataExtractor._extract_all_transactions more /\
  TradingDataExtractor._extract_all_transactions (None :: pages)
  = TradingDataExtractor._extract_all_transactions pages /\
  TradingDataExtractor._extract_all_transactions (Some EmptyString :: pages)
  = TradingDataExtractor._extract_all_transactions pages /\
  List.length (TradingDataExtractor._extract_all_transactions [Some text])
  <= List.length (TradingDataExtractor.split_lines text).
Proof.
  unfold TradingDataExtractor._extract_all_transactions.
  split; [apply List.flat_map_app|]. split; [reflexivity|].
  split; [reflexivity|].
  cbn [flat_map]. rewrite List.app_nil_r.
  destruct (Py.truthy text); [|cbn; lia].
  apply scan_lines_length.
Qed.

(** ** Writing a file *)

(** X22.  [_atomic_write] is all or nothing for the target: with a
    temporary name that is free and differs from the target, the call
    either returns, and then no step failed, the target holds the new text
    and no temporary file is left; or it raises, and then the target is as
    it was.  No other path of the directory changes, and a temporary file
    is left only when [json.dump] is the step that failed. *)
Theorem atomic_write_all_or_nothing {Data : Type} (dumps : Data -> string)
    (tmp file_path : string) (data : Data) (dir : gmap string string)
    (flt : DataManager.fault) :
  tmp <> file_path -> dir !! tmp = None ->
  let '(dir', out) :=
    DataManager._atomic_write dumps tmp flt file_path data dir in
  ((out = DataManager.Ok tt /\ flt = DataManager.NoFault /\
    dir' !! file_path = Some (dumps data)) \/
   ((exists e, out = DataManager.Raise e) /\
    dir' !! file_path = dir !! file_path)) /\
  (forall p, p <> file_path -> p <> tmp -> dir' !! p = dir !! p) /\
  (is_Some (dir' !! tmp) -> exists written e,
                              flt = DataManager.DumpFails written e).
Proof.
  intros Hne Hfresh.
  destruct flt as [|e|written e|e|e].
  - rewrite (atomic_write_no_fault dumps tmp file_path data dir Hfresh).
    split; [left; repeat split; apply lookup_insert_eq|].
    split.
    + intros p Hp _. now rewrite lookup_insert_ne.
    + rewrite lookup_insert_ne, Hfresh by congruence. now intros [x Hx].
  - rewrite (atomic_write_cleans_up dumps tmp file_path data dir _ e Hfresh)
      by auto.
    split; [right; eauto|]. split; [reflexivity|].
    rewrite Hfresh. now intros [x Hx].
  - unfold DataManager._atomic_write, DataManager.try_block.
    split; [right; split; [eauto|now rewrite !lookup_insert_ne]|].
    split; [intros p _ Hp; now rewrite !lookup_insert_ne|eauto].
  - rewrite (atomic_write_cleans_up dumps tmp file_path data dir _ e Hfresh)
      by auto.
    split; [right; eauto|]. split; [reflexivity|].
    rewrite Hfresh. now intros [x Hx].
  - rewrite (atomic_write_cleans_up dumps tmp file_path data dir _ e Hfresh)
      by auto.
    split; [right; eauto|]. split; [reflexivity|].
    rewrite Hfresh. now intros [x Hx].
Qed.

Lemma atomic_write_all_or_nothing_witness :
  let dir : gmap string string := <["trading_data.json" := "{}"]> ∅ in
  "tmpab12cd.tmp" <> "trading_data.json" /\
  dir !! "tmpab12cd.tmp" = None /\
  forall p,
    p <> "trading_data.json" -> p <> "tmpab12cd.tmp" ->
    fst (DataManager._atomic_write (fun s : string => s) "tmpab12cd.tmp"
           (DataManager.ReplaceFails (DataManager.OSError "disk full"))
           "trading_data.json" "{ }" dir) !! p
    = dir !! p.
Proof.
  cbv zeta.
  assert (Hne : "tmpab12cd.tmp" <> "trading_data.json") by discriminate.
  assert (Hfresh : (<["trading_data.json" := "{}"]> ∅ : gmap string string)
                     !! "tmpab12cd.tmp" = None).
  { rewrite lookup_insert_ne by discriminate. apply lookup_empty. }
  split; [exact Hne|]. split; [exact Hfresh|].
  pose proof (atomic_write_all_or_nothing (fun s : string => s)
                "tmpab12cd.tmp" "trading_data.json" "{ }"
                (<["trading_data.json" := "{}"]> ∅)
                (DataManager.ReplaceFails (DataManager.OSError "disk full"))
                Hne Hfresh) as H.
  destruct (DataManager._atomic_write _ _ _ _ _ _) as [dir' out].
  exact (proj1 (proj2 H)).
Defined.

(** ** Loading the registry document *)

Lemma obj_get_set_new (fields : list (string * DataManager.json))
    (key k : string) (v : DataManager.json) :
  DataManager.Raw.has_key (DataManager.Raw.set_new fields k v) key
  = DataManager.Raw.has_key fields key || String.eqb k key.
Proof.
  unfold DataManager.Raw.has_key, DataManager.Raw.set_new.
  induction fields as [|[k0 v0] more IH]; cbn.
  - now destruct (String.eqb k key).
  - destruct (String.eqb k0 key); [reflexivity | exact IH].
Qed.

(** X23.  [load_congress_data], once the existence test has answered, on
    a file that is absent, that is read as a JSON document, or on which
    [open] or [json.load] raises: when it returns, the document is an
    object that has the keys "members", "total_members" and
    "total_filings", and an object that had all three is returned as it is;
    when it raises, the exception is the [ValueError] for a text that is
    not JSON or a [RuntimeError] "Failed to load congress data" that wraps
    the cause, and no other; every exception of the reading other than
    [JSONDecodeError] ([UnicodeDecodeError], [OSError], [RecursionError],
    ...) comes wrapped in that [RuntimeError]. *)
Theorem load_congress_data_outcomes
    (file : option DataManager.file_content) :
  match DataManager.Raw.load_congress_data file with
  | DataManager.Ok data =>
      exists fields,
        data = DataManager.JObj fields /\
        DataManager.Raw.has_key fields "members" = true /\
        DataManager.Raw.has_key fields "total_members" = true /\
        DataManager.Raw.has_key fields "total_filings" = true
  | DataManager.Raise e =>
      e = DataManager.ValueError "Invalid JSON format in congress data file" \/
      exists cause,
        e = DataManager.RuntimeError "Failed to load congress data" cause
  end /\
  (forall fields,
     DataManager.Raw.has_key fields "members" = true ->
     DataManager.Raw.has_key fields "total_members" = true ->
     DataManager.Raw.has_key fields "total_filings" = true ->
     DataManager.Raw.load_congress_data
       (Some (DataManager.JSON (DataManager.JObj fields)))
     = DataManager.Ok (DataManager.JObj fields)) /\
  (forall e,
     e <> DataManager.JSONDecodeError ->
     DataManager.Raw.load_congress_data (Some (DataManager.Unreadable e))
     = DataManager.Raise
         (DataManager.RuntimeError "Failed to load congress data" e)).
Proof.
  split; [|split].
  3:{ intros e He. destruct e; try reflexivity. now contradiction He. }
  - destruct file as [content|].
    2:{ cbn. eexists. repeat split. }
    unfold DataManager.Raw.load_congress_data.
    assert (Hbody :
      match DataManager.Raw.load_body content with
      | DataManager.Ok data =>
          exists fields,
            data = DataManager.JObj fields /\
            DataManager.Raw.has_key fields "members" = true /\
            DataManager.Raw.has_key fields "total_members" = true /\
            DataManager.Raw.has_key fields "total_filings" = true
      | DataManager.Raise _ => True
      end).
    { destruct content as [|e|data]; [exact I | exact I |].
      destruct data as [| | | | |fields]; try exact I.
      cbn [DataManager.Raw.load_body].
      destruct (DataManager.Raw.has_key fields "members") eqn:Hm;
        cbn [negb]; [|exact I].
      destruct (DataManager.Raw.has_key fields "total_members") eqn:Htm;
        cbn [negb].
      - destruct (DataManager.Raw.has_key fields "total_filings") eqn:Htf;
          cbn [negb]; [now exists fields|].
        destruct (DataManager.Raw.values _) as [members|]; [|exact I].
        destruct (DataManager.Raw.sum_filings members 0) as [n|]; [|exact I].
        eexists. split; [reflexivity|].
        rewrite !obj_get_set_new, Hm, Htm. repeat split.
        cbn. apply orb_true_r.
      - destruct (DataManager.Raw.len _) as [n|]; [|exact I].
        destruct (DataManager.Raw.has_key
                    (DataManager.Raw.set_new fields "total_members"
                       (DataManager.JNum n)) "total_filings") eqn:Htf;
          cbn [negb].
        + eexists. split; [reflexivity|].
          split; [now rewrite obj_get_set_new, Hm|].
          split; [rewrite obj_get_set_new; apply orb_true_r | exact Htf].
        + destruct (DataManager.Raw.values _) as [members|]; [|exact I].
          destruct (DataManager.Raw.sum_filings members 0) as [m|]; [|exact I].
          eexists. split; [reflexivity|].
          split; [now rewrite !obj_get_set_new, Hm|].
          split; [rewrite !obj_get_set_new; cbn;
                  now rewrite orb_false_r, orb_true_r|].
          rewrite obj_get_set_new. apply orb_true_r. }
    destruct (DataManager.Raw.load_body content) as [data|e]; [exact Hbody|].
    destruct e; eauto.
  - intros fields Hm Htm Htf.
    unfold DataManager.Raw.load_congress_data.
    cbn [DataManager.Raw.load_body].
    rewrite Hm. cbn [negb]. rewrite Htm. cbn [negb]. now rewrite Htf.
Qed.

(** ** Loading the ledger document *)

Lemma obj_get_set_new_present (fields : list (string * DataManager.json))
    (key k : string) (v : DataManager.json) :
  DataManager.Raw.has_key fields key = true ->
  DataManager.Raw.obj_get (DataManager.Raw.set_new fields k v) key
  = DataManager.Raw.obj_get fields key.
Proof.
  unfold DataManager.Raw.has_key, DataManager.Raw.set_new.
  induction fields as [|[k0 v0] more IH]; cbn; [discriminate|].
  destruct (String.eqb k0 key); [reflexivity | exact IH].
Qed.

Lemma has_key_setdefault (fields : list (string * DataManager.json))
    (key k : string) (v : DataManager.json) :
  DataManager.Raw.has_key (RawLedger.setdefault fields k v) key
  = DataManager.Raw.has_key fields key || String.eqb k key.
Proof.
  unfold RawLedger.setdefault.
  destruct (DataManager.Raw.has_key fields k) eqn:Hk;
    [|apply obj_get_set_new].
  destruct (String.eqb_spec k key) as [->|_];
    [now rewrite Hk | now rewrite orb_false_r].
Qed.

Lemma setdefault_present (fields : list (string * DataManager.json))
    (k : string) (v : DataManager.json) :
  DataManager.Raw.has_key fields k = true ->
  RawLedger.setdefault fields k v = fields.
Proof. unfold RawLedger.setdefault. now intros ->. Qed.

Lemma obj_get_set_item (fields : list (string * DataManager.json))
    (k : string) (v : DataManager.json) :
  DataManager.Raw.obj_get (RawLedger.set_item fields k v) k = Some v /\
  forall key, k <> key ->
    DataManager.Raw.obj_get (RawLedger.set_item fields k v) key
    = DataManager.Raw.obj_get fields key.
Proof.
  induction fields as [|[k0 v0] more [IH1 IH2]];
    cbn [RawLedger.set_item DataManager.Raw.obj_get].
  - rewrite String.eqb_refl. split; [reflexivity|].
    intros key Hne. now rewrite (proj2 (String.eqb_neq k key) Hne).
  - destruct (String.eqb_spec k0 k) as [->|Hk0];
      cbn [DataManager.Raw.obj_get].
    + rewrite String.eqb_refl. split; [reflexivity|].
      intros key Hne. now rewrite (proj2 (String.eqb_neq k key) Hne).
    + rewrite (proj2 (String.eqb_neq k0 k) Hk0). split; [exact IH1|].
      intros key Hne. destruct (String.eqb k0 key); [reflexivity|].
      now apply IH2.
Qed.

Lemma set_item_same (fields : list (string * DataManager.json))
    (k : string) (v : DataManager.json) :
  DataManager.Raw.obj_get fields k = Some v ->
  RawLedger.set_item fields k v = fields.
Proof.
  induction fields as [|[k0 v0] more IH];
    cbn [RawLedger.set_item DataManager.Raw.obj_get]; [discriminate|].
  destruct (String.eqb k0 k); [now intros [= ->]|].
  intros H. now rewrite (IH H).
Qed.

Lemma has_key_of_get (fields : list (string * DataManager.json))
    (key : string) (v : DataManager.json) :
  DataManager.Raw.obj_get fields key = Some v ->
  DataManager.Raw.has_key fields key = true.
Proof. unfold DataManager.Raw.has_key. now intros ->. Qed.

(** The loop over the required fields on an object: the fields that are
    missing are added, and nothing else changes. *)
Lemma require_object (required_fields : list string) :
  forall fields : list (string * DataManager.json),
  exists fields',
    RawLedger.require required_fields (DataManager.JObj fields)
    = DataManager.Ok (DataManager.JObj fields') /\
    (forall key,
       DataManager.Raw.has_key fields' key
       = DataManager.Raw.has_key fields key
         || existsb (fun field => String.eqb field key) required_fields) /\
    (forall key,
       DataManager.Raw.has_key fields key = true ->
       DataManager.Raw.obj_get fields' key
       = DataManager.Raw.obj_get fields key) /\
    (forallb (DataManager.Raw.has_key fields) required_fields = true ->
     fields' = fields).
Proof.
  induction required_fields as [|field more IH]; intros fields.
  - exists fields. cbn. split; [reflexivity|].
    split; [intros; now rewrite orb_false_r | auto].
  - cbn [RawLedger.require RawLedger.contains].
    destruct (DataManager.Raw.has_key fields field) eqn:Hf.
    + destruct (IH fields) as (fields' & Heq & Hkeys & Hget & Hsame).
      exists fields'. split; [exact Heq|]. split; [|split; [exact Hget|]].
      * intros key. rewrite Hkeys. cbn [existsb].
        destruct (String.eqb_spec field key) as [<-|_]; [|reflexivity].
        rewrite Hf. reflexivity.
      * cbn [forallb]. rewrite Hf. exact Hsame.
    + match goal with
      | |- context [DataManager.Raw.set_new fields field ?v] =>
          destruct (IH (DataManager.Raw.set_new fields field v))
            as (fields' & Heq & Hkeys & Hget & _);
          exists fields'; split; [exact Heq|]; split; [|split]
      end.
      * intros key. rewrite Hkeys, obj_get_set_new. cbn [existsb].
        now rewrite <- orb_assoc.
      * intros key Hkey. rewrite Hget.
        -- now apply obj_get_set_new_present.
        -- rewrite obj_get_set_new, Hkey. reflexivity.
      * cbn [forallb]. rewrite Hf. discriminate.
Qed.

(** On what is no object the loop returns the value or raises
    [TypeError]. *)
Lemma require_other (required_fields : list string) (data : DataManager.json) :
  match data with DataManager.JObj _ => False | _ => True end ->
  RawLedger.require required_fields data = DataManager.Ok data \/
  RawLedger.require required_fields data = DataManager.Raise DataManager.TypeError.
Proof.
  intros Hdata.
  induction required_fields as [|field more IH]; [now left|].
  cbn [RawLedger.require].
  destruct data as [| | | s | items | fields]; cbn [RawLedger.contains];
    try (now right); try contradiction.
  - destruct (Py.contains field s); [exact IH | now right].
  - destruct (existsb _ items); [exact IH | now right].
Qed.

Lemma len_outcome (v : DataManager.json) :
  (RawLedger.sized v = true /\ exists n, DataManager.Raw.len v = DataManager.Ok n) \/
  (RawLedger.sized v = false /\
   DataManager.Raw.len v = DataManager.Raise DataManager.TypeError).
Proof. destruct v; cbn; eauto. Qed.

(** The [try] block on an object. *)
Lemma load_body_object (fields : list (string * DataManager.json)) :
  match RawLedger.load_body (DataManager.JSON (DataManager.JObj fields)) with
  | DataManager.Ok data =>
      exists fields' summary,
        data = DataManager.JObj fields' /\ RawLedger.complete fields' summary
  | DataManager.Raise e =>
      e = DataManager.TypeError \/ e = DataManager.AttributeError
  end.
Proof.
  unfold RawLedger.load_body.
  destruct (require_object ["pending_processing"; "processed_filings"; "summary"]
              fields) as (fields1 & -> & Hkeys & _ & _).
  unfold DataManager.Raw.get_default.
  assert (Hs : DataManager.Raw.has_key fields1 "summary" = true)
    by (rewrite Hkeys; cbn; now rewrite !orb_true_r).
  assert (Hp : DataManager.Raw.has_key fields1 "pending_processing" = true)
    by (rewrite Hkeys; cbn; now rewrite !orb_true_r).
  assert (Hq : DataManager.Raw.has_key fields1 "processed_filings" = true)
    by (rewrite Hkeys; cbn; now rewrite !orb_true_r).
  unfold DataManager.Raw.has_key in Hs.
  destruct (DataManager.Raw.obj_get fields1 "summary") as [sv|] eqn:Hsv;
    [|discriminate Hs].
  destruct sv as [| | | | |summary]; auto.
  destruct (DataManager.Raw.len _) as [n|e] eqn:Hn.
  2:{ destruct (len_outcome
                  match DataManager.Raw.obj_get fields1 "processed_filings" with
                  | Some v => v
                  | None => DataManager.JObj []
                  end) as [(_ & m & Hm)|(_ & Hm)];
        rewrite Hm in Hn; [discriminate | injection Hn as <-; auto]. }
  destruct (DataManager.Raw.len
              match DataManager.Raw.obj_get fields1 "pending_processing" with
              | Some v => v
              | None => DataManager.JArr []
              end) as [m|e] eqn:Hm.
  2:{ destruct (len_outcome
                  match DataManager.Raw.obj_get fields1 "pending_processing" with
                  | Some v => v
                  | None => DataManager.JArr []
                  end) as [(_ & k & Hk)|(_ & Hk)];
        rewrite Hk in Hm; [discriminate | injection Hm as <-; auto]. }
  do 2 eexists. split; [reflexivity|].
  unfold RawLedger.complete.
  destruct (obj_get_set_item fields1 "summary"
              (DataManager.JObj
                 (RawLedger.setdefault
                    (RawLedger.setdefault
                       (RawLedger.setdefault summary "total_pdfs"
                          (DataManager.JNum 0))
                       "processed_pdfs" (DataManager.JNum n))
                    "pending_pdfs" (DataManager.JNum m))))
    as [Hget Hother].
  split; [exact Hget|].
  unfold DataManager.Raw.has_key at 1 2.
  rewrite !Hother by discriminate.
  fold (DataManager.Raw.has_key fields1 "pending_processing").
  fold (DataManager.Raw.has_key fields1 "processed_filings").
  rewrite Hp, Hq, !has_key_setdefault. cbn.
  now rewrite !orb_true_r.
Qed.

(** X24.  [load_trading_data], once the existence test has answered, on
    a file that is absent, that is read as a JSON document, or on which
    [open] or [json.load] raises: when it returns, the document is an
    object with the keys "pending_processing", "processed_filings" and
    "summary", whose summary is an object with the three counters; when it
    raises, the exception is the [ValueError] for a text that is not JSON,
    or the exception of the reading as it is, or a [TypeError] or an
    [AttributeError] of the completion of the document as it is.  Nothing
    is wrapped, unlike in [load_congress_data]: every exception of the
    reading other than [JSONDecodeError] ([UnicodeDecodeError] for bytes
    that are not UTF-8, [RecursionError], the [ValueError] of an integer
    with too many digits, ...) reaches the caller unchanged; and a JSON
    document that is no object always raises [TypeError] or
    [AttributeError]. *)
Theorem load_trading_data_outcomes
    (file : option DataManager.file_content) :
  match RawLedger.load_trading_data file with
  | DataManager.Ok data =>
      exists fields summary,
        data = DataManager.JObj fields /\ RawLedger.complete fields summary
  | DataManager.Raise e =>
      e = DataManager.ValueError "Invalid JSON format in trading data file" \/
      file = Some (DataManager.Unreadable e) \/
      e = DataManager.TypeError \/ e = DataManager.AttributeError
  end /\
  (forall e,
     e <> DataManager.JSONDecodeError ->
     RawLedger.load_trading_data (Some (DataManager.Unreadable e))
     = DataManager.Raise e) /\
  (forall data,
     match data with DataManager.JObj _ => False | _ => True end ->
     RawLedger.load_trading_data (Some (DataManager.JSON data))
     = DataManager.Raise DataManager.TypeError \/
     RawLedger.load_trading_data (Some (DataManager.JSON data))
     = DataManager.Raise DataManager.AttributeError).
Proof.
  assert (Hother : forall data,
            match data with DataManager.JObj _ => False | _ => True end ->
            RawLedger.load_body (DataManager.JSON data)
            = DataManager.Raise DataManager.TypeError \/
            RawLedger.load_body (DataManager.JSON data)
            = DataManager.Raise DataManager.AttributeError).
  { intros data Hdata. unfold RawLedger.load_body.
    destruct (require_other
                ["pending_processing"; "processed_filings"; "summary"]
                data Hdata) as [-> | ->]; [right | now left].
    destruct data; try reflexivity. contradiction. }
  split; [|split].
  2:{ intros e He. destruct e; try reflexivity. now contradiction He. }
  - destruct file as [content|].
    { unfold RawLedger.load_trading_data.
      destruct content as [|e|data]; [cbn; auto | |].
      { cbn [RawLedger.load_body]. destruct e; auto. }
      destruct data as [| | | | |fields].
      6:{ pose proof (load_body_object fields) as H.
          destruct (RawLedger.load_body _) as [data|e]; [exact H|].
          destruct H as [-> | ->]; auto. }
      all: match goal with
           | |- context [RawLedger.load_body (DataManager.JSON ?d)] =>
               destruct (Hother d I) as [-> | ->]; auto
           end. }
    cbn. do 2 eexists. split; [reflexivity|].
    unfold RawLedger.complete. repeat split.
  - intros data Hdata. unfold RawLedger.load_trading_data.
    destruct (Hother data Hdata) as [-> | ->]; auto.
Qed.

(** X25.  A ledger document that has the three required keys and a
    summary with the three counters, and whose two collections have a
    length, is returned as it is: the counters of the file are not checked
    against the collections. *)
Theorem load_trading_data_keeps_counters
    (fields summary : list (string * DataManager.json))
    (pending processed : DataManager.json) :
  RawLedger.complete fields summary ->
  DataManager.Raw.obj_get fields "pending_processing" = Some pending ->
  DataManager.Raw.obj_get fields "processed_filings" = Some processed ->
  RawLedger.sized pending = true -> RawLedger.sized processed = true ->
  RawLedger.load_trading_data
    (Some (DataManager.JSON (DataManager.JObj fields)))
  = DataManager.Ok (DataManager.JObj fields).
Proof.
  intros (Hs & Hp & Hq & H1 & H2 & H3) Hpend Hproc Hsp Hsq.
  unfold RawLedger.load_trading_data, RawLedger.load_body.
  destruct (require_object ["pending_processing"; "processed_filings"; "summary"]
              fields) as (fields1 & -> & _ & _ & Hsame).
  rewrite Hsame.
  2:{ cbn [forallb]. rewrite Hp, Hq, (has_key_of_get _ _ _ Hs). reflexivity. }
  unfold DataManager.Raw.get_default. rewrite Hs, Hproc, Hpend.
  destruct (len_outcome processed) as [(_ & n & ->)|(Hn & _)];
    [|congruence].
  destruct (len_outcome pending) as [(_ & m & ->)|(Hm & _)];
    [|congruence].
  rewrite (setdefault_present summary "total_pdfs" _ H1).
  rewrite (setdefault_present summary "processed_pdfs" _ H2).
  rewrite (setdefault_present summary "pending_pdfs" _ H3).
  now rewrite (set_item_same _ _ _ Hs).
Qed.

Lemma load_trading_data_keeps_counters_witness :
  RawLedger.complete Notions.stale_document Notions.stale_counters /\
  RawLedger.load_trading_data
    (Some (DataManager.JSON (DataManager.JObj Notions.stale_document)))
  = DataManager.Ok (DataManager.JObj Notions.stale_document).
Proof.
  assert (H : RawLedger.complete Notions.stale_document Notions.stale_counters)
    by (unfold RawLedger.complete; repeat split).
  split; [exact H|].
  exact (load_trading_data_keeps_counters Notions.stale_document
           Notions.stale_counters (DataManager.JArr []) (DataManager.JObj [])
           H eq_refl eq_refl eq_refl eq_refl).
Defined.

(** X26.  The defaults of the counters are computed whether they are
    needed or not: a ledger document with all keys and all counters still
    fails to load, with [TypeError], when "processed_filings" or
    "pending_processing" is a number, a truth value or [null]. *)
Theorem load_trading_data_needs_sized_collections
    (fields summary : list (string * DataManager.json))
    (pending processed : DataManager.json) :
  RawLedger.complete fields summary ->
  DataManager.Raw.obj_get fields "pending_processing" = Some pending ->
  DataManager.Raw.obj_get fields "processed_filings" = Some processed ->
  RawLedger.sized pending && RawLedger.sized processed = false ->
  RawLedger.load_trading_data
    (Some (DataManager.JSON (DataManager.JObj fields)))
  = DataManager.Raise DataManager.TypeError.
Proof.
  intros (Hs & Hp & Hq & H1 & H2 & H3) Hpend Hproc Hsized.
  unfold RawLedger.load_trading_data, RawLedger.load_body.
  destruct (require_object ["pending_processing"; "processed_filings"; "summary"]
              fields) as (fields1 & -> & _ & _ & Hsame).
  rewrite Hsame.
  2:{ cbn [forallb]. rewrite Hp, Hq, (has_key_of_get _ _ _ Hs). reflexivity. }
  unfold DataManager.Raw.get_default. rewrite Hs, Hproc, Hpend.
  destruct (len_outcome processed) as [(Hn & n & ->)|(_ & ->)];
    [|reflexivity].
  destruct (len_outcome pending) as [(Hm & m & _)|(_ & ->)];
    [|reflexivity].
  rewrite Hn, Hm in Hsized. discriminate Hsized.
Qed.

Lemma load_trading_data_needs_sized_collections_witness :
  RawLedger.complete Notions.null_document Notions.stale_counters /\
  RawLedger.load_trading_data
    (Some (DataManager.JSON (DataManager.JObj Notions.null_document)))
  = DataManager.Raise DataManager.TypeError.
Proof.
  assert (H : RawLedger.complete Notions.null_document Notions.stale_counters)
    by (unfold RawLedger.complete; repeat split).
  split; [exact H|].
  exact (load_trading_data_needs_sized_collections Notions.null_document
           Notions.stale_counters (DataManager.JArr []) DataManager.JNull
           H eq_refl eq_refl eq_refl).
Defined.

(** ** Readings that agree *)

Lemma get_default_set_new (fields : list (string * DataManager.json))
    (key k : string) (v default : DataManager.json) :
  DataManager.Raw.has_key fields key = true ->
  DataManager.Raw.get_default (DataManager.Raw.set_new fields k v) key default
  = DataManager.Raw.get_default fields key default.
Proof.
  intros H. unfold DataManager.Raw.get_default.
  now rewrite obj_get_set_new_present.
Qed.

(** What [load_congress_data] returns has the members of the document. *)
Lemma loaded_members (data loaded : DataManager.json) :
  DataManager.Raw.load_congress_data (Some (DataManager.JSON data))
  = DataManager.Ok loaded ->
  RawLinks.existing_urls_of loaded = RawLinks.existing_urls_of data.
Proof.
  unfold DataManager.Raw.load_congress_data.
  destruct (DataManager.Raw.load_body (DataManager.JSON data))
    as [loaded'|e] eqn:Hbody; [|destruct e; discriminate].
  intros [= <-].
  destruct data as [| | | | |fields]; try discriminate Hbody.
  cbn [DataManager.Raw.load_body] in Hbody.
  destruct (DataManager.Raw.has_key fields "members") eqn:Hm;
    cbn [negb] in Hbody; [|discriminate Hbody].
  assert (Hm' : forall k v,
            DataManager.Raw.has_key (DataManager.Raw.set_new fields k v)
              "members" = true)
    by (intros; now rewrite obj_get_set_new, Hm).
  destruct (DataManager.Raw.has_key fields "total_members");
    cbn [negb] in Hbody.
  - destruct (DataManager.Raw.has_key fields "total_filings");
      cbn [negb] in Hbody; [now injection Hbody as <-|].
    destruct (DataManager.Raw.values _) as [members|]; [|discriminate Hbody].
    destruct (DataManager.Raw.sum_filings members 0) as [n|];
      [|discriminate Hbody].
    injection Hbody as <-. unfold RawLinks.existing_urls_of.
    now rewrite get_default_set_new.
  - destruct (DataManager.Raw.len _) as [n|]; [|discriminate Hbody].
    destruct (DataManager.Raw.has_key
                (DataManager.Raw.set_new fields "total_members"
                   (DataManager.JNum n)) "total_filings");
      cbn [negb] in Hbody.
    + injection Hbody as <-. unfold RawLinks.existing_urls_of.
      now rewrite get_default_set_new.
    + destruct (DataManager.Raw.values _) as [members|]; [|discriminate Hbody].
      destruct (DataManager.Raw.sum_filings members 0) as [m|];
        [|discriminate Hbody].
      injection Hbody as <-. unfold RawLinks.existing_urls_of.
      rewrite get_default_set_new by apply Hm'.
      now rewrite get_default_set_new.
Qed.

(** X27.  The two readers of the links, on the raw file.  Whenever
    [DataManager.get_existing_pdf_urls()] returns, the scraper's
    [get_existing_pdf_urls(load_existing_data())] returns the same links;
    conversely, when the scraper's returns and [load_congress_data] accepts
    the file, the store's returns the same links.  The readers differ
    through the loaders only: on an object without "members" the store's
    raises the [RuntimeError] of [load_congress_data] while the scraper's
    returns the empty set, and on a text that is not JSON the store's
    raises [ValueError] while the scraper's loader lets the
    [JSONDecodeError] through. *)
Theorem link_readers_compared (file : option DataManager.file_content) :
  (forall urls,
     RawLinks.Store.get_existing_pdf_urls file = DataManager.Ok urls ->
     exists data,
       RawLinks.Scraper.load_existing_data file = DataManager.Ok data /\
       RawLinks.Scraper.get_existing_pdf_urls data = DataManager.Ok urls) /\
  (forall data loaded urls,
     RawLinks.Scraper.load_existing_data file = DataManager.Ok data ->
     RawLinks.Scraper.get_existing_pdf_urls data = DataManager.Ok urls ->
     DataManager.Raw.load_congress_data file = DataManager.Ok loaded ->
     RawLinks.Store.get_existing_pdf_urls file = DataManager.Ok urls) /\
  (forall fields,
     DataManager.Raw.has_key fields "members" = false ->
     RawLinks.Store.get_existing_pdf_urls
       (Some (DataManager.JSON (DataManager.JObj fields)))
     = DataManager.Raise
         (DataManager.RuntimeError "Failed to load congress data"
            (DataManager.ValueError "Invalid congress data structure")) /\
     RawLinks.Scraper.load_existing_data
       (Some (DataManager.JSON (DataManager.JObj fields)))
     = DataManager.Ok (DataManager.JObj fields) /\
     RawLinks.Scraper.get_existing_pdf_urls (DataManager.JObj fields)
     = DataManager.Ok []) /\
  RawLinks.Store.get_existing_pdf_urls (Some DataManager.NotJSON)
  = DataManager.Raise
      (DataManager.ValueError "Invalid JSON format in congress data file") /\
  RawLinks.Scraper.load_existing_data (Some DataManager.NotJSON)
  = DataManager.Raise DataManager.JSONDecodeError.
Proof.
  split; [|split; [|split; [|split; reflexivity]]].
  - intros urls H. unfold RawLinks.Store.get_existing_pdf_urls in H.
    destruct (DataManager.Raw.load_congress_data file) as [loaded|e] eqn:Hload;
      [|discriminate H].
    destruct file as [[|e|data]|].
    + discriminate Hload.
    + cbn in Hload. destruct e; discriminate Hload.
    + exists data. split; [reflexivity|].
      unfold RawLinks.Scraper.get_existing_pdf_urls.
      now rewrite <- (loaded_members data loaded Hload).
    + injection Hload as <-. eexists. split; [reflexivity|]. exact H.
  - intros data loaded urls Hdata Hurls Hload.
    unfold RawLinks.Store.get_existing_pdf_urls. rewrite Hload.
    destruct file as [[|e|data']|].
    + discriminate Hload.
    + cbn in Hload. destruct e; discriminate Hload.
    + injection Hdata as ->.
      now rewrite (loaded_members data loaded Hload).
    + injection Hload as <-. injection Hdata as <-. exact Hurls.
  - intros fields Hm.
    unfold RawLinks.Store.get_existing_pdf_urls,
      DataManager.Raw.load_congress_data.
    cbn [DataManager.Raw.load_body]. rewrite Hm. cbn [negb].
    split; [reflexivity|]. split; [reflexivity|].
    unfold RawLinks.Scraper.get_existing_pdf_urls, RawLinks.existing_urls_of,
      DataManager.Raw.get_default.
    unfold DataManager.Raw.has_key in Hm.
    destruct (DataManager.Raw.obj_get fields "members"); [discriminate Hm|].
    reflexivity.
Qed.

Lemma pending_of_members_length (ms : list (string * DataManager.Member)) :
  List.length
    (flat_map (fun km => FilingStatusManager.pending_of_member (fst km) (snd km))
       ms)
  = Notions.number_with FilingStatusManager.needs_processing
      (DataManager.all_filings ms).
Proof.
  unfold Notions.number_with.
  induction ms as [|[key md] more IH]; [reflexivity|].
  cbn [flat_map fst snd].
  change (DataManager.all_filings ((key, md) :: more))
    with (DataManager.filings md ++ DataManager.all_filings more).
  rewrite List.length_app, List.filter_app, List.length_app, IH.
  unfold FilingStatusManager.pending_of_member.
  now rewrite List.length_map.
Qed.

Lemma needs_processing_bounds (l : list DataManager.Filing) :
  Notions.number_with (Notions.has_status "pending") l
  <= Notions.number_with FilingStatusManager.needs_processing l /\
  Notions.number_with FilingStatusManager.needs_processing l
  <= Notions.number_with (Notions.has_status "pending") l
     + Notions.number_with (fun f => negb (Notions.listed f)) l.
Proof.
  induction l as [|f more [IH1 IH2]]; [split; apply Nat.le_refl|].
  rewrite !number_with_cons.
  generalize dependent
    (Notions.number_with (fun f => negb (Notions.listed f)) more).
  generalize dependent
    (Notions.number_with FilingStatusManager.needs_processing more).
  generalize dependent
    (Notions.number_with (Notions.has_status "pending") more).
  intros a b IH1 d IH2.
  unfold Notions.listed, Notions.has_status,
    FilingStatusManager.needs_processing,
    FilingStatusManager.STATUS_PENDING.
  destruct (DataManager.processing_status f) as [status|]; [|cbn; lia].
  destruct (String.eqb status "pending"); cbn [orb negb]; [lia|].
  destruct (String.eqb status "processed" || String.eqb status "failed");
    cbn [negb]; lia.
Qed.

(** X28.  The three readings of the statuses agree:
    [get_failed_filings()] has as many identifiers as
    [get_status_summary()] counts under "failed", and the number of filings
    [identify_pending_filings()] lists lies between the count under
    "pending" and the sum of the counts under "pending" and "no_status" (a
    filing with a status text that is none of the three is counted under
    "no_status" and is not listed as pending). *)
Theorem status_readings_agree (w : DataManager.World) :
  let s := fst (FilingStatusQueries.get_status_summary w) in
  let listed := List.length (fst (FilingStatusManager.identify_pending_filings w)) in
  s !! "failed"
  = Some (List.length (fst (FilingStatusQueries.get_failed_filings w))) /\
  exists a d,
    s !! "pending" = Some a /\ s !! "no_status" = Some d /\
    a <= listed /\ listed <= a + d.
Proof.
  cbv zeta.
  rewrite identify_pending_filings_eq, pending_of_members_length.
  unfold FilingStatusQueries.get_status_summary,
    FilingStatusQueries.get_failed_filings, DataManager.bind.
  rewrite load_congress_data_eq. cbn [fst DataManager.ret].
  assert (H0 : Notions.tally FilingStatusQueries.empty_summary 0 0 0 0).
  { unfold Notions.tally, FilingStatusQueries.empty_summary.
    repeat split; try reflexivity.
    intros k Hk. rewrite !lookup_insert_ne, lookup_empty; [reflexivity|..];
      intros <-; apply Hk; cbn; auto. }
  pose proof (fold_count_status_tally
                (DataManager.all_filings
                   (DataManager.members (DataManager.registry_of w)))
                _ 0 0 0 0 H0) as (Ha & _ & Hc & Hd & _).
  cbn [Nat.add] in *.
  split.
  - rewrite Hc, List.length_map. reflexivity.
  - do 2 eexists. split; [exact Ha|]. split; [exact Hd|].
    apply needs_processing_bounds.
Qed.
